(** * yt-transcript-mcp: a shallow embedding of [server.py]

    The development follows the layout of the source file: string helpers,
    the identifier extractor, the two caption backends, the two metadata
    backends, the transcript formatter, the document builder and the tool
    entry point [youtube_get_transcript].  The statements about them
    follow, each after the lemmas it needs.

    Modelling conventions.
    - A Python [str] is a [string]: a sequence of 8-bit characters.
    - A decoded JSON value keeps its dynamic type ([json]); the operations
      the program applies to such values raise as the interpreter does.
    - A finite Python float is the rational number it denotes ([Q]).  The
      operations on floats round to the nearest double as the interpreter
      does; what [round(x, 2)] returns is a field of the environment.
      The values [nan] and [inf] are outside the model: the statements
      about floats are about finite ones.
    - Exceptions are values: a computation returns [Ok v] or [Raise e],
      [e] holding the class name and [str(e)].
    - Everything outside the process (the captioning service, the [yt-dlp]
      executable, the HTTP fetch, the library functions [repr],
      [json.loads], [html.unescape]) is read from an environment record
      [Env].  The files under [/tmp] and the log of the backends entered
      are threaded as explicit state, which survives a raise. *)

From Stdlib Require Import Bool Arith ZArith QArith Qround List Lia.
From Stdlib Require Import Ascii String DecimalString.
Import ListNotations.

Set Warnings "-register-all".
Local Open Scope list_scope.
Local Open Scope string_scope.

(* ================================================================== *)
(** * Strings *)
(* ================================================================== *)

Definition nl : ascii := "010"%char.
Definition dquote : ascii := "034"%char.

(** [str.isspace] on the characters a [string] can hold: TAB..CR,
    FS..US, space, NEL and NBSP. *)
Definition is_space (c : ascii) : bool :=
  let n := N_of_ascii c in
  ((9 <=? n) && (n <=? 13) || (28 <=? n) && (n <=? 32)
   || (n =? 133) || (n =? 160))%N.

Fixpoint lstrip (s : string) : string :=
  match s with
  | EmptyString => EmptyString
  | String c s' => if is_space c then lstrip s' else s
  end.

Fixpoint rstrip (s : string) : string :=
  match s with
  | EmptyString => EmptyString
  | String c s' =>
      match rstrip s' with
      | EmptyString => if is_space c then EmptyString else String c EmptyString
      | r => String c r
      end
  end.

(** [s.strip()] *)
Definition strip (s : string) : string := rstrip (lstrip s).

(** [s[:n]] and [s[n:]] for a non-negative [n]. *)
Fixpoint str_take (n : nat) (s : string) : string :=
  match n, s with
  | S n', String c s' => String c (str_take n' s')
  | _, _ => EmptyString
  end.

Fixpoint str_drop (n : nat) (s : string) : string :=
  match n, s with
  | S n', String _ s' => str_drop n' s'
  | _, _ => s
  end.

(** [sep.join(parts)] *)
Fixpoint join (sep : string) (parts : list string) : string :=
  match parts with
  | [] => ""
  | [p] => p
  | p :: rest => p ++ sep ++ join sep rest
  end.

(** The rest of [s] after the literal [p], when [s] starts with [p]. *)
Fixpoint strip_prefix (p s : string) : option string :=
  match p with
  | EmptyString => Some s
  | String a p' =>
      match s with
      | String b s' => if (a =? b)%char then strip_prefix p' s' else None
      | EmptyString => None
      end
  end.

(* ================================================================== *)
(** * Exceptions *)
(* ================================================================== *)

(** A raised exception: its class name and [str(e)]. *)
Record exn : Type := Exn { exn_class : string; exn_str : string }.

Inductive Exc (A : Type) : Type :=
| Ok (v : A)
| Raise (e : exn).
Arguments Ok {A} v.
Arguments Raise {A} e.

(* ================================================================== *)
(** * [_extract_video_id] *)
(* ================================================================== *)

(** The character class [[a-zA-Z0-9_-]]. *)
Definition is_id_char (c : ascii) : bool :=
  let n := N_of_ascii c in
  ((97 <=? n) && (n <=? 122) || (65 <=? n) && (n <=? 90)
   || (48 <=? n) && (n <=? 57) || (n =? 95) || (n =? 45))%N.

(** [[a-zA-Z0-9_-]{n}] at the head of [s]: the [n] characters consumed. *)
Fixpoint take_id_chars (n : nat) (s : string) : option string :=
  match n with
  | O => Some ""
  | S n' =>
      match s with
      | String c s' =>
          if is_id_char c
          then match take_id_chars n' s' with
               | Some g => Some (String c g)
               | None => None
               end
          else None
      | EmptyString => None
      end
  end.

(** The capture group [([a-zA-Z0-9_-]{11})], the last item of the pattern. *)
Definition group1 (s : string) : option string := take_id_chars 11 s.

(** Greedy [.*] followed by the continuation [k]: the longest run of
    characters other than newline is tried first, then shorter ones. *)
Fixpoint dotstar_then (k : string -> option string) (s : string)
  : option string :=
  match s with
  | EmptyString => k s
  | String c s' =>
      if (c =? nl)%char then k s
      else match dotstar_then k s' with
           | Some g => Some g
           | None => k s
           end
  end.

Definition or_else {A} (x y : option A) : option A :=
  match x with Some _ => x | None => y end.

(** One alternative made of a literal, then the group. *)
Definition alt_literal (p s : string) : option string :=
  match strip_prefix p s with
  | Some r => group1 r
  | None => None
  end.

(** What follows [.*] in the first alternative: [v=], then the group. *)
Definition watch_tail (t : string) : option string :=
  match strip_prefix "v=" t with
  | Some u => group1 u
  | None => None
  end.

(** The alternative [youtube\.com/watch\?.*v=], then the group. *)
Definition alt_watch (s : string) : option string :=
  match strip_prefix "youtube.com/watch?" s with
  | Some r => dotstar_then watch_tail r
  | None => None
  end.

(** The whole pattern anchored at the head of [s]; alternatives are tried
    left to right, as a backtracking matcher does. *)
Definition match_here (s : string) : option string :=
  or_else (alt_watch s)
    (or_else (alt_literal "youtu.be/" s)
       (or_else (alt_literal "youtube.com/embed/" s)
          (or_else (alt_literal "youtube.com/v/" s)
             (alt_literal "youtube.com/shorts/" s)))).

(** [re.search(pattern, s)]: the leftmost position where the pattern
    matches; the result is [match.group(1)]. *)
Fixpoint re_search (s : string) : option string :=
  match match_here s with
  | Some g => Some g
  | None =>
      match s with
      | EmptyString => None
      | String _ s' => re_search s'
      end
  end.

(** [re.fullmatch(r"[a-zA-Z0-9_-]{11}", s)] *)
Definition fullmatch_id (s : string) : bool :=
  match take_id_chars 11 s with
  | Some _ => Nat.eqb (String.length s) 11
  | None => false
  end.

Section Extractor.
(** [repr(s)] of a [str], used in the error message. *)
Variable repr_str : string -> string.

Definition invalid_identifier (raw : string) : exn :=
  Exn "ValueError"
    ("Could not extract a YouTube video ID from: " ++ repr_str raw ++ ". "
     ++ "Please provide a valid YouTube URL or 11-character video ID.").

Definition _extract_video_id (url_or_id : string) : Exc string :=
  let url_or_id := strip url_or_id in
  match re_search url_or_id with
  | Some g => Ok g
  | None =>
      if fullmatch_id url_or_id then Ok url_or_id
      else Raise (invalid_identifier url_or_id)
  end.
End Extractor.

(* ================================================================== *)
(** * Decoded JSON values and the dynamic operations used on them *)
(* ================================================================== *)

(** What [json.load] / [json.loads] return.  A [dict] is its list of
    items, in order, with distinct keys; a float is a finite one. *)
Inductive json : Type :=
| JNull
| JBool (b : bool)
| JInt (z : Z)
| JFloat (q : Q)
| JStr (s : string)
| JArr (items : list json)
| JObj (items : list (string * json)).

Definition type_name (v : json) : string :=
  match v with
  | JNull => "NoneType"
  | JBool _ => "bool"
  | JInt _ => "int"
  | JFloat _ => "float"
  | JStr _ => "str"
  | JArr _ => "list"
  | JObj _ => "dict"
  end.

Definition AttributeError (v : json) (attr : string) : exn :=
  Exn "AttributeError"
    ("'" ++ type_name v ++ "' object has no attribute '" ++ attr ++ "'").

Definition TypeError (msg : string) : exn := Exn "TypeError" msg.
Definition RuntimeError (msg : string) : exn := Exn "RuntimeError" msg.

(** Lookup in a [dict]. *)
Fixpoint dict_lookup (items : list (string * json)) (key : string)
  : option json :=
  match items with
  | [] => None
  | (k, v) :: rest => if (k =? key)%string then Some v else dict_lookup rest key
  end.

(** [d.get(key, default)] on a value known to be a [dict]. *)
Definition dict_get (d : list (string * json)) (key : string) (default : json)
  : json :=
  match dict_lookup d key with Some v => v | None => default end.

(** [v.get(key, default)] on any decoded value. *)
Definition py_get (v : json) (key : string) (default : json) : Exc json :=
  match v with
  | JObj d => Ok (dict_get d key default)
  | _ => Raise (AttributeError v "get")
  end.

(** Truth value of [v] in a condition. *)
Definition truthy (v : json) : bool :=
  match v with
  | JNull => false
  | JBool b => b
  | JInt z => negb (z =? 0)%Z
  | JFloat q => negb (Qnum q =? 0)%Z
  | JStr s => negb (s =? "")%string
  | JArr l => match l with [] => false | _ => true end
  | JObj d => match d with [] => false | _ => true end
  end.

(** [for x in v]: the items iterated over. *)
Definition py_iter (v : json) : Exc (list json) :=
  match v with
  | JArr l => Ok l
  | JStr s => Ok (map (fun c => JStr (String c "")) (list_ascii_of_string s))
  | JObj d => Ok (map (fun kv => JStr (fst kv)) d)
  | _ => Raise (TypeError ("'" ++ type_name v ++ "' object is not iterable"))
  end.

(** [len(v)] *)
Definition py_len (v : json) : Exc nat :=
  match v with
  | JStr s => Ok (String.length s)
  | JArr l => Ok (List.length l)
  | JObj d => Ok (List.length d)
  | _ => Raise (TypeError ("object of type '" ++ type_name v ++ "' has no len()"))
  end.

(** [v[lo:hi]] with [0 <= lo]; [hi = None] is an open end. *)
Definition py_slice (v : json) (lo : nat) (hi : option nat) : Exc json :=
  match v with
  | JStr s =>
      Ok (JStr (match hi with
                | Some h => str_take (h - lo) (str_drop lo s)
                | None => str_drop lo s
                end))
  | JArr l =>
      Ok (JArr (match hi with
                | Some h => firstn (h - lo) (skipn lo l)
                | None => skipn lo l
                end))
  | JObj _ => Raise (TypeError "unhashable type: 'slice'")
  | _ => Raise (TypeError ("'" ++ type_name v ++ "' object is not subscriptable"))
  end.

(** Decimal rendering of an [int]: [str(z)]. *)
Definition str_of_int (z : Z) : string := NilZero.string_of_int (Z.to_int z).

(** The format [{z:02d}]: zero-padded to a width of two, sign included. *)
Definition format_02d (z : Z) : string :=
  if (z <? 0)%Z then str_of_int z
  else if (z <? 10)%Z then "0" ++ str_of_int z
  else str_of_int z.

(** [int(q)] of a float: truncation towards zero. *)
Definition int_of_float (q : Q) : Z := Z.quot (Qnum q) (Zpos (Qden q)).

(** [num / den] rounded to the nearest integer, ties to the even one,
    for [0 <= num] and [0 < den]. *)
Definition round_half_even (num den : Z) : Z :=
  let q := (num / den)%Z in
  let r := (num mod den)%Z in
  match (2 * r ?= den)%Z with
  | Lt => q
  | Gt => (q + 1)%Z
  | Eq => if Z.even q then q else (q + 1)%Z
  end.

(** [floor(log2 |q|)] for [q <> 0]. *)
Definition Qlog2 (q : Q) : Z :=
  let n := Z.abs (Qnum q) in
  let d := Zpos (Qden q) in
  let e := (Z.log2 n - Z.log2 d)%Z in
  if (0 <=? e)%Z
  then (if (d * 2 ^ e <=? n)%Z then e else e - 1)%Z
  else (if (d <=? n * 2 ^ (- e))%Z then e else e - 1)%Z.

(** The double nearest to a fraction in lowest terms: 53 significant
    bits, the unit in the last place no smaller than [2^-1074], ties to
    the even significand. *)
Definition nearest_double (q : Q) : Q :=
  let n := Qnum q in
  let d := Zpos (Qden q) in
  if (n =? 0)%Z then 0%Q
  else
    let e := Z.max (Qlog2 q - 52) (-1074) in
    if (0 <=? e)%Z
    then inject_Z (Z.sgn n * round_half_even (Z.abs n) (d * 2 ^ e) * 2 ^ e)
    else (Z.sgn n * round_half_even (Z.abs n * 2 ^ (- e)) d)
         # Z.to_pos (2 ^ (- e)).

(** The result of a float operation whose exact value is [q], below the
    overflow threshold; in lowest terms. *)
Definition to_double (q : Q) : Q := Qred (nearest_double (Qred q)).

(** C's [fmod(a, b)], which is exact: the sign of [a], less than [b] in
    magnitude. *)
Definition float_fmod (a b : Q) : Q :=
  (a - b * inject_Z (int_of_float (a / b)))%Q.

Definition is_zero (q : Q) : bool := (Qnum q =? 0)%Z.
Definition is_negative (q : Q) : bool := (Qnum q <? 0)%Z.

(** [if (mod) { if ((wx < 0) != (mod < 0))]: the remainder is not zero
    and has not the sign of the divisor. *)
Definition sign_differs (m b : Q) : bool :=
  negb (is_zero m) && negb (Bool.eqb (is_negative b) (is_negative m)).

(** [a % b] on floats, [b <> 0]: [fmod], moved by [b] when its sign is
    not that of [b]; the addition rounds. *)
Definition float_mod (a b : Q) : Q :=
  let m := float_fmod a b in
  if sign_differs m b then to_double (m + b) else m.

(** [a // b] on floats, [b <> 0]: the quotient [(a - mod) / b] in float
    arithmetic, one less when the remainder was moved, then snapped to
    the nearest whole value. *)
Definition float_floordiv (a b : Q) : Q :=
  let m := float_fmod a b in
  let div := to_double (to_double (a - m) / b) in
  let div := if sign_differs m b then to_double (div - 1) else div in
  if is_zero div then 0%Q
  else
    let floordiv := inject_Z (Qfloor div) in
    if Qle_bool (div - floordiv) (1 # 2) then floordiv
    else to_double (floordiv + 1).

(* ================================================================== *)
(** * Transcripts, the environment and the state *)
(* ================================================================== *)

(** A normalized transcript entry: the dict [{"text", "start", "duration"}],
    the two times finite floats. *)
Record Entry : Type := mkEntry { text : string; start : Q; duration : Q }.

(** What a backend returns: the dict [{"entries", "language", "source"}]. *)
Record TranscriptInfo : Type := mkInfo {
  entries : list Entry;
  language : string;
  source : string
}.

(** The captioning-service client ([youtube_transcript_api]), a library
    the program calls: only what the program uses of its objects.  A
    transcript exposes its language code, whether it is auto-generated,
    and [fetch()]. *)
Record Transcript : Type := mkTranscript {
  language_code : string;
  is_generated : bool;
  fetch : Exc (list Entry)
}.

(** A transcript list answers the two lookups by language codes, each
    returning a transcript or raising, and can be iterated
    ([list(transcript_list)]). *)
Record TranscriptList : Type := mkTranscriptList {
  find_manually_created_transcript : list string -> Exc Transcript;
  find_generated_transcript : list string -> Exc Transcript;
  available : Exc (list Transcript)
}.

(** A file under [/tmp]: path and contents. *)
Definition File : Type := (string * string)%type.

Record CompletedProcess : Type := mkProc { returncode : Z; stdout : string }.

(** [subprocess.run(..., timeout=t)] returns or raises [TimeoutExpired]. *)
Inductive RunOutcome : Type :=
| Completed (p : CompletedProcess)
| TimedOut.

(** The four acquisition backends, logged when entered. *)
Inductive Backend : Type :=
| ApiCaptions | YtdlpCaptions | YtdlpMetadata | ScrapeMetadata.

(** Everything the program reads from outside itself. *)
Record Env : Type := mkEnv {
  (** [repr(s)] of a [str] *)
  repr_str : string -> string;
  (** [round(x, 2)] *)
  round2 : Q -> Q;
  (** [json.loads] / [json.load]: the decoded value, or [JSONDecodeError] *)
  json_loads : string -> Exc json;
  (** [str(v)] of a decoded value that is not a [str] *)
  str_of_json : json -> string;
  (** [int(s)] of a [str] *)
  int_of_str : string -> Exc Z;
  (** [html.unescape] *)
  html_unescape : string -> string;
  (** [shutil.which(name)] is not [None] *)
  which : string -> bool;
  (** [subprocess.run(argv, timeout)]: the outcome and the files under
      [/tmp] after the run, given those before it *)
  subprocess_run : list string -> Z -> list File -> RunOutcome * list File;
  (** [urlopen(url).read().decode(...)] with the browser user agent *)
  http_get : string -> Exc string;
  (** [YouTubeTranscriptApi.list_transcripts(video_id)] *)
  list_transcripts : string -> Exc TranscriptList
}.

(** The mutable state of one request. *)
Record World : Type := mkWorld {
  fs : list File;
  invoked : list Backend
}.

(** Computations: state passing with exceptions; the state survives a
    raise. *)
Definition M (A : Type) : Type := World -> Exc A * World.

Definition ret {A} (v : A) : M A := fun w => (Ok v, w).
Definition raise {A} (e : exn) : M A := fun w => (Raise e, w).
Definition bind {A B} (m : M A) (k : A -> M B) : M B :=
  fun w => match m w with
           | (Ok v, w') => k v w'
           | (Raise e, w') => (Raise e, w')
           end.
Definition lift {A} (r : Exc A) : M A := fun w => (r, w).

(** [try: m  except Exception as e: ...]: the outcome as a value. *)
Definition try_ {A} (m : M A) : M (Exc A) :=
  fun w => let (r, w') := m w in (Ok r, w').

Notation "x <- m ;; k" := (bind m (fun x => k))
  (at level 61, m at next level, right associativity).
Notation "m ;;; k" := (bind m (fun _ => k))
  (at level 61, right associativity).

Definition exc_bind {A B} (r : Exc A) (k : A -> Exc B) : Exc B :=
  match r with Ok v => k v | Raise e => Raise e end.

Notation "x <~ r ;; k" := (exc_bind r (fun x => k))
  (at level 61, r at next level, right associativity).

Definition enter (b : Backend) : M unit :=
  fun w => (Ok tt, mkWorld (fs w) (invoked w ++ [b])).

(** [repr] of a list of [str]. *)
Definition repr_list (E : Env) (l : list string) : string :=
  "[" ++ join ", " (map (repr_str E) l) ++ "]".

(* ================================================================== *)
(** * [_get_transcript_via_api] *)
(* ================================================================== *)

(** The local variables [transcript], [source], [lang_found]. *)
Definition Selection : Type := (option Transcript * string * string)%type.

(** First loop: [for lang in languages: try ... break / except: continue]. *)
Fixpoint manual_loop (tl : TranscriptList) (languages : list string)
  (sel : Selection) : Selection :=
  match languages with
  | [] => sel
  | lang :: rest =>
      match find_manually_created_transcript tl [lang] with
      | Ok t => (Some t, "manual", lang)
      | Raise _ => manual_loop tl rest sel
      end
  end.

(** Second loop, run only when [transcript is None]. *)
Fixpoint generated_loop (tl : TranscriptList) (languages : list string)
  (sel : Selection) : Selection :=
  match languages with
  | [] => sel
  | lang :: rest =>
      match find_generated_transcript tl [lang] with
      | Ok t => (Some t, "auto-generated", lang)
      | Raise _ => generated_loop tl rest sel
      end
  end.

(** Last resort: [available = list(transcript_list)], [available[0]] if
    there is one; [except Exception: pass]. *)
Definition last_resort (tl : TranscriptList) (sel : Selection) : Selection :=
  match available tl with
  | Ok (t :: _) =>
      (Some t, if is_generated t then "auto-generated" else "manual",
       language_code t)
  | Ok [] => sel
  | Raise _ => sel
  end.

Definition select_transcript (tl : TranscriptList) (languages : list string)
  : Selection :=
  let sel := (None, "unknown", "unknown") in
  let sel := manual_loop tl languages sel in
  let sel := match sel with
             | (None, _, _) => generated_loop tl languages sel
             | _ => sel
             end in
  match sel with
  | (None, _, _) => last_resort tl sel
  | _ => sel
  end.

Section Backends.
Variable E : Env.

Definition no_transcript_available (video_id : string)
  (languages : list string) : exn :=
  RuntimeError
    ("No transcript available for video " ++ video_id ++ ". "
     ++ "Tried languages: " ++ repr_list E languages ++ ". "
     ++ "The video may not have captions enabled.").

Definition round_entry (e : Entry) : Entry :=
  mkEntry (text e) (round2 E (start e)) (round2 E (duration e)).

Definition _get_transcript_via_api (video_id : string)
  (languages : list string) : M TranscriptInfo :=
  enter ApiCaptions ;;;
  transcript_list <- lift (list_transcripts E video_id) ;;
  match select_transcript transcript_list languages with
  | (None, _, _) => raise (no_transcript_available video_id languages)
  | (Some transcript, source, lang_found) =>
      fetched <- lift (fetch transcript) ;;
      ret (mkInfo (map round_entry fetched) lang_found source)
  end.

(* ------------------------------------------------------------------ *)
(** ** [_get_transcript_via_ytdlp] *)

Definition watch_url (video_id : string) : string :=
  "https://www.youtube.com/watch?v=" ++ video_id.

Definition tmp_prefix (video_id : string) : string := "/tmp/yt_" ++ video_id.

Fixpoint str_contains_char (c : ascii) (s : string) : bool :=
  match s with
  | EmptyString => false
  | String a s' => (a =? c)%char || str_contains_char c s'
  end.

Fixpoint ends_with (suffix s : string) : bool :=
  (s =? suffix)%string
  || match s with
     | EmptyString => false
     | String _ s' => ends_with suffix s'
     end.

(** A path matched by the pattern [<prefix>*<suffix>]: the star stays
    within one path component. *)
Definition glob_match (prefix suffix path : string) : bool :=
  match strip_prefix prefix path with
  | Some rest => negb (str_contains_char "/" rest) && ends_with suffix rest
  | None => false
  end.

(** [glob.glob(f"/tmp/yt_{video_id}*.json3")] *)
Definition glob_subs (video_id : string) : M (list string) :=
  fun w =>
    (Ok (map fst (filter (fun f => glob_match (tmp_prefix video_id) ".json3" (fst f))
                    (fs w))), w).

Definition FileNotFoundError (path : string) : exn :=
  Exn "FileNotFoundError"
    ("[Errno 2] No such file or directory: " ++ repr_str E path).

Fixpoint read_file (files : list File) (path : string) : option string :=
  match files with
  | [] => None
  | (p, c) :: rest => if (p =? path)%string then Some c else read_file rest path
  end.

(** [with open(path) as f: json.load(f)] *)
Definition open_json_load (path : string) : M json :=
  fun w =>
    match read_file (fs w) path with
    | Some contents => (json_loads E contents, w)
    | None => (Raise (FileNotFoundError path), w)
    end.

(** [os.remove(path)] *)
Definition os_remove (path : string) : M unit :=
  fun w =>
    match read_file (fs w) path with
    | Some _ =>
        (Ok tt,
         mkWorld (filter (fun f => negb (fst f =? path)%string) (fs w))
                 (invoked w))
    | None => (Raise (FileNotFoundError path), w)
    end.

(** [for sf in sub_files: os.remove(sf)] *)
Fixpoint remove_each (paths : list string) : M unit :=
  match paths with
  | [] => ret tt
  | sf :: rest => os_remove sf ;;; remove_each rest
  end.

(** [subprocess.run(argv, capture_output=True, text=True, timeout=t)] *)
Definition run (argv : list string) (timeout : Z) : M CompletedProcess :=
  fun w =>
    match subprocess_run E argv timeout (fs w) with
    | (Completed p, files) => (Ok p, mkWorld files (invoked w))
    | (TimedOut, files) =>
        (Raise (Exn "TimeoutExpired"
                  ("Command '" ++ repr_list E argv ++ "' timed out after "
                   ++ str_of_int timeout ++ " seconds")),
         mkWorld files (invoked w))
    end.

(** The true division [z / d] of two [int]s overflows: the quotient
    rounds to [2^1024] or beyond, the doubles ending below it. *)
Definition int_truediv_overflows (z d : Z) : bool :=
  (Z.abs d * (2 ^ 1024 - 2 ^ 970) <=? Z.abs z)%Z.

(** [x / 1000] for the value of a millisecond field: the nearest double,
    or [OverflowError] for an [int] too large. *)
Definition ms_to_seconds (v : json) : Exc Q :=
  match v with
  | JInt z =>
      if int_truediv_overflows z 1000
      then Raise (Exn "OverflowError"
                    "integer division result too large for a float")
      else Ok (to_double (inject_Z z / 1000))
  | JFloat q => Ok (to_double (q / 1000))
  | JBool b => Ok (to_double (inject_Z (if b then 1 else 0) / 1000))
  | _ =>
      Raise (TypeError ("unsupported operand type(s) for /: '"
                        ++ type_name v ++ "' and 'int'"))
  end.

(** The inner loop over [event.get("segs", [])]. *)
Fixpoint collect_segs (segs : list json) (text_parts : list string)
  : Exc (list string) :=
  match segs with
  | [] => Ok text_parts
  | seg :: rest =>
      u <~ py_get seg "utf8" (JStr "") ;;
      match u with
      | JStr s =>
          let t := strip s in
          if negb (t =? "")%string
          then collect_segs rest (text_parts ++ [t])
          else collect_segs rest text_parts
      | _ => Raise (AttributeError u "strip")
      end
  end.

(** The outer loop over [sub_data.get("events", [])]. *)
Fixpoint collect_events (events : list json) (acc : list Entry)
  : Exc (list Entry) :=
  match events with
  | [] => Ok acc
  | event :: rest =>
      segs_v <~ py_get event "segs" (JArr []) ;;
      segs <~ py_iter segs_v ;;
      text_parts <~ collect_segs segs [] ;;
      match text_parts with
      | [] => collect_events rest acc
      | _ =>
          t0 <~ py_get event "tStartMs" (JInt 0) ;;
          s0 <~ ms_to_seconds t0 ;;
          d0 <~ py_get event "dDurationMs" (JInt 0) ;;
          d1 <~ ms_to_seconds d0 ;;
          collect_events rest
            (acc ++ [mkEntry (join " " text_parts) (round2 E s0) (round2 E d1)])
      end
  end.

Definition parse_json3 (sub_data : json) : Exc (list Entry) :=
  events_v <~ py_get sub_data "events" (JArr []) ;;
  events <~ py_iter events_v ;;
  collect_events events [].

Definition subs_argv (sub_flag lang_str video_id : string) : list string :=
  [ "yt-dlp"; sub_flag; "--sub-lang"; lang_str; "--sub-format"; "json3";
    "--skip-download"; "--no-warnings"; "-o"; tmp_prefix video_id;
    "--print-json"; watch_url video_id ].

Definition no_subtitles (video_id : string) (languages : list string) : exn :=
  RuntimeError
    ("yt-dlp could not find subtitles for " ++ video_id
     ++ " in languages: " ++ repr_list E languages).

(** The loop [for sub_flag in ["--write-sub", "--write-auto-sub"]] and the
    [raise] after it. *)
Fixpoint sub_flag_loop (video_id : string) (languages : list string)
  (flags : list string) : M TranscriptInfo :=
  match flags with
  | [] => raise (no_subtitles video_id languages)
  | sub_flag :: rest =>
      result <- run (subs_argv sub_flag (join "," languages) video_id) 30 ;;
      if negb (returncode result =? 0)%Z
      then sub_flag_loop video_id languages rest
      else
        sub_files <- glob_subs video_id ;;
        match sub_files with
        | [] => sub_flag_loop video_id languages rest
        | first :: _ =>
            sub_data <- open_json_load first ;;
            remove_each sub_files ;;;
            entries <- lift (parse_json3 sub_data) ;;
            let source :=
              if (sub_flag =? "--write-sub")%string
              then "manual" else "auto-generated" in
            ret (mkInfo entries "detected" source)
        end
  end.

Definition _get_transcript_via_ytdlp (video_id : string)
  (languages : list string) : M TranscriptInfo :=
  enter YtdlpCaptions ;;;
  if negb (which E "yt-dlp")
  then raise (RuntimeError
                "yt-dlp is not installed. Install with: pip install yt-dlp")
  else sub_flag_loop video_id languages ["--write-sub"; "--write-auto-sub"].

(* ------------------------------------------------------------------ *)
(** ** [_get_metadata_via_ytdlp] *)

(** The metadata dict. *)
Definition Metadata : Type := list (string * json).

Definition unknown_metadata (video_id : string) : Metadata :=
  [ ("title", JStr "Unknown"); ("author", JStr "Unknown");
    ("video_id", JStr video_id) ].

Definition dump_argv (video_id : string) : list string :=
  [ "yt-dlp"; "--dump-json"; "--no-download"; "--no-warnings";
    watch_url video_id ].

(** The dict built from the decoded info dump. *)
Definition metadata_of_dump (data : json) (video_id : string) : Exc Metadata :=
  title <~ py_get data "title" (JStr "Unknown") ;;
  channel <~ py_get data "channel" (JStr "Unknown") ;;
  author <~ py_get data "uploader" channel ;;
  channel_url <~ py_get data "channel_url" (JStr "") ;;
  upload_date <~ py_get data "upload_date" (JStr "") ;;
  duration_seconds <~ py_get data "duration" JNull ;;
  d0 <~ py_get data "description" (JStr "") ;;
  description <~ py_slice (if truthy d0 then d0 else JStr "") 0 (Some 500%nat) ;;
  view_count <~ py_get data "view_count" JNull ;;
  Ok [ ("title", title); ("author", author); ("channel_url", channel_url);
       ("upload_date", upload_date); ("duration_seconds", duration_seconds);
       ("description", description); ("view_count", view_count);
       ("video_id", JStr video_id) ].

Definition _get_metadata_via_ytdlp (video_id : string) : M Metadata :=
  enter YtdlpMetadata ;;;
  if negb (which E "yt-dlp") then ret (unknown_metadata video_id)
  else
    attempt <- try_ (result <- run (dump_argv video_id) 15 ;;
                     if (returncode result =? 0)%Z
                     then data <- lift (json_loads E (stdout result)) ;;
                          md <- lift (metadata_of_dump data video_id) ;;
                          ret (Some md)
                     else ret None) ;;
    match attempt with
    | Ok (Some md) => ret md
    | _ => ret (unknown_metadata video_id)
    end.

(* ------------------------------------------------------------------ *)
(** ** [_get_metadata_via_api] *)

(** The lazy [(.*?)] followed by the literal [close]: the shortest run of
    characters other than newline; the result is the run. *)
Fixpoint lazy_until (close s : string) : option string :=
  match strip_prefix close s with
  | Some _ => Some ""
  | None =>
      match s with
      | EmptyString => None
      | String c s' =>
          if (c =? nl)%char then None
          else match lazy_until close s' with
               | Some g => Some (String c g)
               | None => None
               end
      end
  end.

(** [re.search(open(.*?)close, s).group(1)] for literals [open], [close]. *)
Fixpoint search_between (open close s : string) : option string :=
  match (match strip_prefix open s with
         | Some r => lazy_until close r
         | None => None
         end) with
  | Some g => Some g
  | None =>
      match s with
      | EmptyString => None
      | String _ s' => search_between open close s'
      end
  end.

(** [s.replace(old, "")] for a non-empty [old]; [skip] counts the
    characters of the occurrence being dropped. *)
Fixpoint remove_all_from (old : string) (skip : nat) (s : string) : string :=
  match s with
  | EmptyString => EmptyString
  | String c s' =>
      match skip with
      | S k => remove_all_from old k s'
      | O =>
          if String.prefix old s
          then remove_all_from old (String.length old - 1) s'
          else String c (remove_all_from old 0 s')
      end
  end.

Definition owner_channel_open : string :=
  String dquote ("ownerChannelName" ++ String dquote (":" ++ String dquote "")).

Definition _get_metadata_via_api (video_id : string) : M Metadata :=
  enter ScrapeMetadata ;;;
  attempt <- try_ (page <- lift (http_get E (watch_url video_id)) ;;
                   let title :=
                     match search_between "<title>" "</title>" page with
                     | Some g =>
                         strip (remove_all_from " - YouTube" 0 (html_unescape E g))
                     | None => "Unknown"
                     end in
                   let author :=
                     match search_between owner_channel_open
                             (String dquote "") page with
                     | Some g => html_unescape E g
                     | None => "Unknown"
                     end in
                   ret [ ("title", JStr title); ("author", JStr author);
                         ("video_id", JStr video_id) ]) ;;
  match attempt with
  | Ok md => ret md
  | Raise _ => ret (unknown_metadata video_id)
  end.

(* ------------------------------------------------------------------ *)
(** ** [_format_transcript_text] *)

(** The body of the loop: the list [lines] after one entry, whose
    [start] is a finite float. *)
Definition format_step (include_timestamps : bool) (lines : list string)
  (e : Entry) : list string :=
  let text := strip (text e) in
  if (text =? "")%string then lines
  else if include_timestamps then
    let minutes := int_of_float (float_floordiv (start e) 60) in
    let seconds := int_of_float (float_mod (start e) 60) in
    lines ++ [("[" ++ format_02d minutes ++ ":" ++ format_02d seconds ++ "] "
               ++ text)%string]
  else lines ++ [text].

Definition NL : string := String nl "".

Definition _format_transcript_text (entries : list Entry)
  (include_timestamps : bool) : string :=
  join NL (fold_left (format_step include_timestamps) entries []).

(* ------------------------------------------------------------------ *)
(** ** [_build_markdown_output] *)

Definition MAX_TRANSCRIPT_CHARS : N := 200000.

Definition truncation_marker : string :=
  NL ++ NL ++ "[... transcript truncated due to length ...]".

(** [str(v)], as an f-string field renders a value. *)
Definition py_str (v : json) : string :=
  match v with
  | JStr s => s
  | _ => str_of_json E v
  end.

(** [int(v)]; of a float, which is a finite one here, the truncation
    ([int(nan)] and [int(inf)] raise, and are outside the model). *)
Definition py_int (v : json) : Exc Z :=
  match v with
  | JInt z => Ok z
  | JFloat q => Ok (int_of_float q)
  | JBool b => Ok (if b then 1 else 0)%Z
  | JStr s => int_of_str E s
  | _ =>
      Raise (TypeError
               ("int() argument must be a string, a bytes-like object or a "
                ++ "real number, not '" ++ type_name v ++ "'"))
  end.

(** The six fields every document has. *)
Definition base_fields (metadata : Metadata) (transcript_info : TranscriptInfo)
  (video_id : string) : list string :=
  [ "title: " ++ String dquote (py_str (dict_get metadata "title" (JStr "Unknown")))
      ++ String dquote "";
    "author: " ++ String dquote (py_str (dict_get metadata "author" (JStr "Unknown")))
      ++ String dquote "";
    "url: " ++ watch_url video_id;
    "video_id: " ++ video_id;
    "transcript_language: " ++ language transcript_info;
    "transcript_source: " ++ source transcript_info ].

(** The fields appended for [upload_date]: none, or one. *)
Definition upload_date_fields (metadata : Metadata) : Exc (list string) :=
  let d := dict_get metadata "upload_date" JNull in
  if truthy d then
    n <~ py_len d ;;
    if Nat.eqb n 8 then
      y <~ py_slice d 0 (Some 4%nat) ;;
      m <~ py_slice d 4 (Some 6%nat) ;;
      dd <~ py_slice d 6 None ;;
      Ok ["upload_date: " ++ py_str y ++ "-" ++ py_str m ++ "-" ++ py_str dd]
    else Ok ["upload_date: " ++ py_str d]
  else Ok [].

(** The fields appended for [duration_seconds]: none, or one. *)
Definition duration_fields (metadata : Metadata) : Exc (list string) :=
  let v := dict_get metadata "duration_seconds" JNull in
  if truthy v then
    n <~ py_int v ;;
    let m := (n / 60)%Z in
    let s := (n mod 60)%Z in
    Ok ["duration: " ++ str_of_int m ++ "m" ++ str_of_int s ++ "s"]
  else Ok [].

Definition frontmatter_fields (metadata : Metadata)
  (transcript_info : TranscriptInfo) (video_id : string) : Exc (list string) :=
  u <~ upload_date_fields metadata ;;
  d <~ duration_fields metadata ;;
  Ok (base_fields metadata transcript_info video_id ++ u ++ d)%list.

Definition description_section (metadata : Metadata) : string :=
  let v := dict_get metadata "description" JNull in
  if truthy v
  then NL ++ "## Description" ++ NL ++ NL ++ py_str v ++ NL
  else "".

(** The document before the size bound is applied. *)
Definition assemble_output (metadata : Metadata) (transcript_text : string)
  (transcript_info : TranscriptInfo) (video_id : string) : Exc string :=
  fields <~ frontmatter_fields metadata transcript_info video_id ;;
  let frontmatter := "---" ++ NL ++ join NL fields ++ NL ++ "---" in
  Ok (frontmatter ++ NL ++ description_section metadata ++ NL
      ++ "## Transcript" ++ NL ++ NL ++ transcript_text ++ NL).

(** [# Truncate if too large] *)
Definition truncate_output (output : string) : string :=
  if (MAX_TRANSCRIPT_CHARS <? N.of_nat (String.length output))%N
  then str_take (N.to_nat MAX_TRANSCRIPT_CHARS) output ++ truncation_marker
  else output.

Definition _build_markdown_output (metadata : Metadata)
  (transcript_text : string) (transcript_info : TranscriptInfo)
  (video_id : string) : Exc string :=
  output <~ assemble_output metadata transcript_text transcript_info video_id ;;
  Ok (truncate_output output).

(* ------------------------------------------------------------------ *)
(** ** [youtube_get_transcript] *)

Definition DEFAULT_LANGUAGES : list string := ["ja"; "en"; "ko"].

Record GetTranscriptInput : Type := mkInput {
  url : string;
  languages : option (list string);
  include_timestamps : bool;
  include_metadata : bool
}.

(** [params.languages or DEFAULT_LANGUAGES] *)
Definition languages_or_default (params : GetTranscriptInput) : list string :=
  match languages params with
  | Some (l :: ls) => l :: ls
  | _ => DEFAULT_LANGUAGES
  end.

(** The plain-text answer when no backend produced a transcript. *)
Definition error_text (video_id : string) (errors : list string) : string :=
  "Error: Could not retrieve transcript for video " ++ video_id ++ "." ++ NL
  ++ "Attempted methods:" ++ NL
  ++ join NL (map (fun e => "  - " ++ e) errors) ++ NL ++ NL
  ++ "Possible causes:" ++ NL
  ++ "  - The video has no captions/subtitles" ++ NL
  ++ "  - The video is private or age-restricted" ++ NL
  ++ "  - The requested languages are not available".

(** One strategy of the section [# --- Fetch transcript ---]:
    [try: transcript_info = backend  except Exception as e:
    errors.append(f"<label>: {e}")], on the variables [transcript_info]
    and [errors]. *)
Definition attempt (label : string) (backend : M TranscriptInfo)
  (vars : option TranscriptInfo * list string)
  : M (option TranscriptInfo * list string) :=
  let (transcript_info, errors) := vars in
  r <- try_ backend ;;
  match r with
  | Ok info => ret (Some info, errors)
  | Raise e =>
      ret (transcript_info, (errors ++ [(label ++ ": " ++ exn_str e)%string])%list)
  end.

(** The section [# --- Fetch transcript ---]: the variables
    [transcript_info] and [errors] at its end. *)
Definition fetch_transcript (video_id : string) (languages : list string)
  : M (option TranscriptInfo * list string) :=
  let vars := (None, []) in
  vars <- attempt "youtube-transcript-api"
            (_get_transcript_via_api video_id languages) vars ;;
  match fst vars with
  | None => attempt "yt-dlp" (_get_transcript_via_ytdlp video_id languages) vars
  | Some _ => ret vars
  end.

(** The section [# --- Fetch metadata ---]. *)
Definition fetch_metadata (video_id : string) (include_metadata : bool)
  : M Metadata :=
  if include_metadata then
    r1 <- try_ (_get_metadata_via_ytdlp video_id) ;;
    match r1 with
    | Ok md => ret md
    | Raise _ =>
        r2 <- try_ (_get_metadata_via_api video_id) ;;
        match r2 with
        | Ok md => ret md
        | Raise _ => ret (unknown_metadata video_id)
        end
    end
  else ret (unknown_metadata video_id).

Definition youtube_get_transcript (params : GetTranscriptInput) : M string :=
  video_id <- lift (_extract_video_id (repr_str E) (url params)) ;;
  let languages := languages_or_default params in
  acquired <- fetch_transcript video_id languages ;;
  match acquired with
  | (None, errors) => ret (error_text video_id errors)
  | (Some transcript_info, _) =>
      let transcript_text :=
        _format_transcript_text (entries transcript_info)
          (include_timestamps params) in
      metadata <- fetch_metadata video_id (include_metadata params) ;;
      lift (_build_markdown_output metadata transcript_text transcript_info
              video_id)
  end.

End Backends.

(** A fresh request: no file under [/tmp], nothing invoked yet. *)
Definition initial_world : World := mkWorld [] [].

(* ================================================================== *)
(** * [GetTranscriptInput.validate_url] *)
(* ================================================================== *)

(** [s.lstrip(chars)] and [s.rstrip(chars)], the set [chars] given by
    its membership test. *)
Fixpoint lstrip_chars (p : ascii -> bool) (s : string) : string :=
  match s with
  | EmptyString => EmptyString
  | String c s' => if p c then lstrip_chars p s' else s
  end.

Fixpoint rstrip_chars (p : ascii -> bool) (s : string) : string :=
  match s with
  | EmptyString => EmptyString
  | String c s' =>
      match rstrip_chars p s' with
      | EmptyString => if p c then EmptyString else String c EmptyString
      | r => String c r
      end
  end.

(** Membership in the set ["<>"]. *)
Definition is_angle_bracket (c : ascii) : bool :=
  (c =? "<")%char || (c =? ">")%char.

(** [v.strip().strip("<>")] *)
Definition validate_url (v : string) : string :=
  rstrip_chars is_angle_bracket (lstrip_chars is_angle_bracket (strip v)).

(* ================================================================== *)
(** * Vocabulary of the statements *)
(* ================================================================== *)

(** ** Identifiers and the URL pattern *)

Fixpoint all_chars (p : ascii -> bool) (s : string) : bool :=
  match s with
  | EmptyString => true
  | String c s' => p c && all_chars p s'
  end.

(** A video identifier: 11 characters of the alphabet. *)
Definition is_video_id (s : string) : Prop :=
  String.length s = 11%nat /\ all_chars is_id_char s = true.

(** The five URL shapes, as the text that precedes the identifier. *)
Definition url_lead (p : string) : Prop :=
  (exists m, p = "youtube.com/watch?" ++ m ++ "v="
             /\ str_contains_char nl m = false)
  \/ p = "youtu.be/" \/ p = "youtube.com/embed/"
  \/ p = "youtube.com/v/" \/ p = "youtube.com/shorts/".

(** [s] starts with a lead followed by the identifier [g]. *)
Definition matches_at (s g : string) : Prop :=
  exists p suf, s = p ++ g ++ suf /\ url_lead p /\ is_video_id g.

(** The URL pattern occurs somewhere in [s]. *)
Definition matches_url_pattern (s : string) : Prop :=
  exists pre t g, s = pre ++ t /\ matches_at t g.

(** ** Transcripts on offer *)

(** The transcript of the wanted kind that the list offers in [lang]:
    what the lookup for that one language returns, if it returns. *)
Definition offers (generated : bool) (tl : TranscriptList) (lang : string)
  : option Transcript :=
  match (if generated then find_generated_transcript tl [lang]
         else find_manually_created_transcript tl [lang]) with
  | Ok t => Some t
  | Raise _ => None
  end.

(** The first transcript the list yields when iterated. *)
Definition first_listed (tl : TranscriptList) : option Transcript :=
  match available tl with
  | Ok (t :: _) => Some t
  | _ => None
  end.

(** A list whose lookups return what was asked for: a transcript in the
    language and of the kind of the lookup. *)
Definition conforming (tl : TranscriptList) : Prop :=
  forall generated lang t,
    offers generated tl lang = Some t ->
    language_code t = lang /\ is_generated t = generated.

(** The tag a transcript object carries for its generation source. *)
Definition source_of (t : Transcript) : string :=
  if is_generated t then "auto-generated" else "manual".



(** ** Formatted lines *)

(** An entry the formatter keeps: its trimmed text is not empty. *)
Definition kept (e : Entry) : bool := negb (strip (text e) =? "")%string.

(** [a mod b] on the rationals, for [b > 0]. *)
Definition real_mod (a b : Q) : Q := (a - b * inject_Z (Qfloor (a / b)))%Q.

(** The marker [[MM:SS]]: minutes and seconds by [floor]. *)
Definition timecode (start : Q) : string :=
  "[" ++ format_02d (Qfloor (start / 60)) ++ ":"
  ++ format_02d (Qfloor (real_mod start 60)) ++ "]".

(** A start time on which the float arithmetic by 60 is exact. *)
Definition exact_seconds (a : Q) : Prop :=
  (0 <= a)%Q /\ (a < inject_Z (2 ^ 53))%Q.

(** The line the loop appends for a kept entry. *)
Definition formatted_line (include_timestamps : bool) (e : Entry) : string :=
  if include_timestamps
  then "[" ++ format_02d (int_of_float (float_floordiv (start e) 60)) ++ ":"
       ++ format_02d (int_of_float (float_mod (start e) 60)) ++ "] "
       ++ strip (text e)
  else strip (text e).

(** The line of a kept entry. *)
Definition rendered_line (include_timestamps : bool) (e : Entry) : string :=
  if include_timestamps then timecode (start e) ++ " " ++ strip (text e)
  else strip (text e).

(** ** The document *)

(** The size ceiling as a number of characters. *)
Definition max_chars : nat := N.to_nat MAX_TRANSCRIPT_CHARS.

Definition is_digit (c : ascii) : bool :=
  let n := N_of_ascii c in ((48 <=? n) && (n <=? 57))%N.

(** A raw value that consists of exactly 8 digits. *)
Definition eight_digits (d : string) : bool :=
  Nat.eqb (String.length d) 8 && all_chars is_digit d.

Definition starts_with (p s : string) : bool :=
  match strip_prefix p s with Some _ => true | None => false end.

(** The two shapes of an answer: the document opens with the header
    fence, the error with its fixed first words. *)
Definition is_markdown_form (out : string) : bool :=
  starts_with ("---" ++ NL) out.
Definition is_error_form (out : string) : bool :=
  starts_with "Error: Could not retrieve transcript for video " out.

(** ** The error answer, line by line *)

Definition no_newline (s : string) : Prop := str_contains_char nl s = false.

(** [s.split("\n")] *)
Fixpoint split_lines (s : string) : list string :=
  match s with
  | EmptyString => [""]
  | String c s' =>
      if (c =? nl)%char then "" :: split_lines s'
      else match split_lines s' with
           | l :: ls => String c l :: ls
           | [] => [String c ""]
           end
  end.

Fixpoint drop_through (marker : string) (ls : list string) : list string :=
  match ls with
  | [] => []
  | l :: rest => if (l =? marker)%string then rest else drop_through marker rest
  end.

Fixpoint take_nonempty (ls : list string) : list string :=
  match ls with
  | [] => []
  | l :: rest => if (l =? "")%string then [] else l :: take_nonempty rest
  end.

(** The lines of the answer between [Attempted methods:] and the blank
    line that ends the list. *)
Definition attempted_section (out : string) : list string :=
  take_nonempty (drop_through "Attempted methods:" (split_lines out)).

Definition api_diagnostic (e : exn) : string :=
  "youtube-transcript-api: " ++ exn_str e.
Definition ytdlp_diagnostic (e : exn) : string := "yt-dlp: " ++ exn_str e.

Definition possible_causes : string :=
  "Possible causes:" ++ NL
  ++ "  - The video has no captions/subtitles" ++ NL
  ++ "  - The video is private or age-restricted" ++ NL
  ++ "  - The requested languages are not available".

(** ** The log and the files *)

(** A computation that logs nothing. *)
Definition silent {A} (m : M A) : Prop :=
  forall w r w', m w = (r, w') -> invoked w' = invoked w.

(** A backend logs itself once, on entry. *)
Definition logs {A} (b : Backend) (m : M A) : Prop :=
  forall w r w', m w = (r, w') -> invoked w' = (invoked w ++ [b])%list.

(** The run of [yt-dlp] with [sub_flag] exits with status 0 and a
    subtitle file of the video is then present. *)
Definition found_subs (E : Env) (video_id : string) (languages : list string)
  (sub_flag : string) (files : list File) : bool :=
  match subprocess_run E (subs_argv sub_flag (join "," languages) video_id) 30
          files with
  | (Completed p, files') =>
      (returncode p =? 0)%Z
      && existsb (fun f => glob_match (tmp_prefix video_id) ".json3" (fst f))
           files'
  | (TimedOut, _) => false
  end.

(** The subtitle files of a video that are present. *)
Definition subtitle_files (video_id : string) (w : World) : list File :=
  filter (fun f => glob_match (tmp_prefix video_id) ".json3" (fst f)) (fs w).



(** ** Occurrences, value types, trimmed texts, files and events *)

(** [p in s]: the string [p] occurs in [s]. *)
Fixpoint has_substring (p s : string) : bool :=
  starts_with p s
  || match s with
     | EmptyString => false
     | String _ s' => has_substring p s'
     end.

(** A metadata value of the type the builder expects for [upload_date]:
    a [str], or [None]. *)
Definition str_or_none (v : json) : bool :=
  match v with JStr _ | JNull => true | _ => false end.

(** A metadata value that is an [int] ([bool] included), or [None]. *)
Definition int_or_none (v : json) : bool :=
  match v with JInt _ | JBool _ | JNull => true | _ => false end.

(** A text that is not empty and neither starts nor ends with white
    space. *)
Definition trimmed (t : string) : Prop :=
  lstrip t = t /\ rstrip t = t /\ t <> "".

(** The executable keeps every file that is not a subtitle file of the
    video: it may write and replace those, and leaves the others. *)
Definition keeps_other_files (E : Env) (video_id : string) : Prop :=
  forall argv timeout files f,
    In f files ->
    glob_match (tmp_prefix video_id) ".json3" (fst f) = false ->
    In f (snd (subprocess_run E argv timeout files)).

(** A well-formed event of a [json3] subtitle file: its start and its
    duration in milliseconds and the texts of its segments; and the JSON
    value that holds it. *)
Record Json3Event : Type := mkEvent {
  ev_start_ms : Z;
  ev_duration_ms : Z;
  ev_segs : list string
}.

Definition seg_json (s : string) : json := JObj [("utf8", JStr s)].

Definition event_json (ev : Json3Event) : json :=
  JObj [ ("tStartMs", JInt (ev_start_ms ev));
         ("dDurationMs", JInt (ev_duration_ms ev));
         ("segs", JArr (map seg_json (ev_segs ev))) ].

Definition json3_of (evs : list Json3Event) : json :=
  JObj [("events", JArr (map event_json evs))].

(** The parts of an event that count: the trimmed segment texts that
    are not empty. *)
Definition event_parts (ev : Json3Event) : list string :=
  filter (fun t => negb (t =? "")%string) (map strip (ev_segs ev)).

Definition has_text (ev : Json3Event) : bool :=
  match event_parts ev with [] => false | _ => true end.

(** The two times of the event are [int]s that [/ 1000] turns into a
    float. *)
Definition times_fit (ev : Json3Event) : bool :=
  negb (int_truediv_overflows (ev_start_ms ev) 1000)
  && negb (int_truediv_overflows (ev_duration_ms ev) 1000).

(** The entry of an event that has text. *)
Definition event_entry (E : Env) (ev : Json3Event) : Entry :=
  mkEntry (join " " (event_parts ev))
          (round2 E (to_double (inject_Z (ev_start_ms ev) / 1000)))
          (round2 E (to_double (inject_Z (ev_duration_ms ev) / 1000))).

(* ================================================================== *)
(** * Environments of the closed examples *)
(* ================================================================== *)

(** Nothing is installed and nothing answers. *)
Definition offline : Env :=
  mkEnv (fun s => "'" ++ s ++ "'")
        (fun q => q)
        (fun _ => Raise (Exn "JSONDecodeError"
                           "Expecting value: line 1 column 1 (char 0)"))
        (fun _ => "")
        (fun s => Raise (Exn "ValueError"
                           ("invalid literal for int() with base 10: '" ++ s ++ "'")))
        (fun s => s)
        (fun _ => false)
        (fun _ _ files => (TimedOut, files))
        (fun _ => Raise (Exn "URLError" "<urlopen error timed out>"))
        (fun _ => Raise (Exn "RequestException" "connection refused")).

Definition set_list_transcripts (f : string -> Exc TranscriptList) (E : Env)
  : Env :=
  mkEnv (repr_str E) (round2 E) (json_loads E) (str_of_json E) (int_of_str E)
        (html_unescape E) (which E) (subprocess_run E) (http_get E) f.

Definition set_which (f : string -> bool) (E : Env) : Env :=
  mkEnv (repr_str E) (round2 E) (json_loads E) (str_of_json E) (int_of_str E)
        (html_unescape E) f (subprocess_run E) (http_get E) (list_transcripts E).

Definition set_subprocess_run
  (f : list string -> Z -> list File -> RunOutcome * list File) (E : Env) : Env :=
  mkEnv (repr_str E) (round2 E) (json_loads E) (str_of_json E) (int_of_str E)
        (html_unescape E) (which E) f (http_get E) (list_transcripts E).

Definition set_json_loads (f : string -> Exc json) (E : Env) : Env :=
  mkEnv (repr_str E) (round2 E) f (str_of_json E) (int_of_str E)
        (html_unescape E) (which E) (subprocess_run E) (http_get E)
        (list_transcripts E).

Definition set_http_get (f : string -> Exc string) (E : Env) : Env :=
  mkEnv (repr_str E) (round2 E) (json_loads E) (str_of_json E) (int_of_str E)
        (html_unescape E) (which E) (subprocess_run E) f (list_transcripts E).

Definition quoted (s : string) : string := String dquote (s ++ String dquote "").

Definition rick : string := "dQw4w9WgXcQ".
Definition rick_subs_path : string := "/tmp/yt_dQw4w9WgXcQ.en.json3".

Definition short_link_request : GetTranscriptInput :=
  mkInput "https://youtu.be/dQw4w9WgXcQ" None false true.

(** The service answers that captions are disabled, in two lines. *)
Definition captions_disabled : Env :=
  set_list_transcripts
    (fun _ => Raise (Exn "TranscriptsDisabled"
                       ("Could not retrieve a transcript for the video!" ++ NL
                        ++ "Subtitles are disabled for this video")))
    offline.

(** [yt-dlp --write-sub] succeeds and writes one English subtitle file
    with the given contents; [--write-auto-sub] finds nothing. *)
Definition writes_english_subs (contents : string)
  (argv : list string) (timeout : Z) (files : list File)
  : RunOutcome * list File :=
  match argv with
  | _ :: "--write-sub" :: _ =>
      (Completed (mkProc 0 ""), (files ++ [(rick_subs_path, contents)])%list)
  | _ => (Completed (mkProc 1 ""), files)
  end.

Definition hello_json3_text : string :=
  "{" ++ quoted "events" ++ ":[{" ++ quoted "tStartMs" ++ ":0,"
  ++ quoted "dDurationMs" ++ ":1000," ++ quoted "segs" ++ ":[{"
  ++ quoted "utf8" ++ ":" ++ quoted "hello" ++ "}]}]}".

Definition hello_json3 : json :=
  JObj [("events",
         JArr [JObj [("tStartMs", JInt 0); ("dDurationMs", JInt 1000);
                     ("segs", JArr [JObj [("utf8", JStr "hello")]])]])].

(** The tool is installed and downloads a well-formed English file. *)
Definition cli_english_subs : Env :=
  set_json_loads
    (fun s => if (s =? hello_json3_text)%string then Ok hello_json3
              else json_loads offline s)
    (set_subprocess_run (writes_english_subs hello_json3_text)
       (set_which (fun _ => true) offline)).

(** The tool is installed and the file it leaves is not JSON. *)
Definition cli_broken_subs : Env :=
  set_subprocess_run (writes_english_subs "<!DOCTYPE html>")
    (set_which (fun _ => true) offline).

Definition rick_page : string :=
  "<html><head><title>Never Gonna Give You Up - YouTube</title></head>"
  ++ "<script>{" ++ quoted "ownerChannelName" ++ ":" ++ quoted "Rick Astley"
  ++ "}</script></html>".

(** The lookup of the library over the transcripts [ts] of a video: the
    transcript of the first code that has one of the wanted kind. *)
Fixpoint find_transcript (generated : bool) (ts : list Transcript)
  (codes : list string) : Exc Transcript :=
  match codes with
  | [] => Raise (Exn "NoTranscriptFound" "No transcripts were found")
  | code :: rest =>
      match find (fun t => (language_code t =? code)%string
                           && Bool.eqb (is_generated t) generated) ts with
      | Some t => Ok t
      | None => find_transcript generated ts rest
      end
  end.

(** The transcript list of a video whose transcripts are [ts]. *)
Definition transcript_list_of (ts : list Transcript) : TranscriptList :=
  mkTranscriptList (find_transcript false ts) (find_transcript true ts) (Ok ts).

(** The service has a manual English transcript, [yt-dlp] is not
    installed, and the watch page is reachable. *)
Definition captions_and_page : Env :=
  set_list_transcripts
    (fun _ => Ok (transcript_list_of
                    [mkTranscript "en" false (Ok [mkEntry "hello" 0 1])]))
    (set_http_get (fun _ => Ok rick_page) offline).

(* ================================================================== *)
(** * Strings: basic facts *)
(* ================================================================== *)

Lemma str_app_assoc (a b c : string) : (a ++ b) ++ c = a ++ b ++ c.
Proof. induction a as [|x a IH]; simpl; [reflexivity | now rewrite IH]. Qed.

Lemma str_app_nil_r (a : string) : a ++ "" = a.
Proof. induction a as [|x a IH]; simpl; [reflexivity | now rewrite IH]. Qed.

Lemma str_app_length (a b : string) :
  String.length (a ++ b) = (String.length a + String.length b)%nat.
Proof. induction a as [|x a IH]; simpl; [reflexivity | now rewrite IH]. Qed.

Lemma strip_prefix_app (p r : string) : strip_prefix p (p ++ r) = Some r.
Proof.
  induction p as [|a p IH]; simpl; [reflexivity|].
  now rewrite Ascii.eqb_refl.
Qed.

Lemma strip_prefix_inv (p s r : string) :
  strip_prefix p s = Some r -> s = p ++ r.
Proof.
  revert s; induction p as [|a p IH]; simpl; intros s H.
  - now injection H.
  - destruct s as [|b s]; [discriminate|].
    destruct (Ascii.eqb_spec a b) as [->|]; [|discriminate].
    now rewrite (IH _ H).
Qed.

Lemma take_id_chars_app (g suf : string) :
  all_chars is_id_char g = true ->
  take_id_chars (String.length g) (g ++ suf) = Some g.
Proof.
  induction g as [|c g IH]; simpl; intros H; [reflexivity|].
  apply andb_prop in H as [Hc Hg].
  now rewrite Hc, (IH Hg).
Qed.

Lemma take_id_chars_inv (n : nat) (s g : string) :
  take_id_chars n s = Some g ->
  exists suf, s = g ++ suf /\ String.length g = n
              /\ all_chars is_id_char g = true.
Proof.
  revert s g; induction n as [|n IH]; simpl; intros s g H.
  - injection H as <-. now exists s.
  - destruct s as [|c s]; [discriminate|].
    destruct (is_id_char c) eqn:Hc; [|discriminate].
    destruct (take_id_chars n s) as [g'|] eqn:Hg; [|discriminate].
    injection H as <-.
    destruct (IH _ _ Hg) as (suf & -> & Hlen & Hall).
    exists suf; simpl; rewrite Hc, Hlen; auto.
Qed.

Lemma group1_video_id (g suf : string) :
  is_video_id g -> group1 (g ++ suf) = Some g.
Proof.
  intros [Hlen Hall]. unfold group1. rewrite <- Hlen.
  now apply take_id_chars_app.
Qed.

Lemma group1_inv (s g : string) :
  group1 s = Some g -> is_video_id g /\ exists suf, s = g ++ suf.
Proof.
  intros H. destruct (take_id_chars_inv _ _ _ H) as (suf & -> & Hl & Ha).
  split; [split; assumption | now exists suf].
Qed.

Lemma fullmatch_id_iff (s : string) :
  fullmatch_id s = true <-> is_video_id s.
Proof.
  unfold fullmatch_id; split.
  - destruct (take_id_chars 11 s) as [g|] eqn:Hg; [|discriminate].
    intros Hlen%Nat.eqb_eq.
    destruct (take_id_chars_inv _ _ _ Hg) as (suf & -> & Hl & Ha).
    rewrite str_app_length, Hl in Hlen.
    destruct suf; [|simpl in Hlen; lia].
    rewrite str_app_nil_r. now split.
  - intros [Hlen Hall].
    rewrite <- (str_app_nil_r s) at 1. rewrite <- Hlen at 1.
    rewrite (take_id_chars_app _ _ Hall). now rewrite Hlen.
Qed.

(** ** The matcher against the pattern *)

Lemma dotstar_then_inv (k : string -> option string) (s g : string) :
  dotstar_then k s = Some g ->
  exists m t, s = m ++ t /\ str_contains_char nl m = false /\ k t = Some g.
Proof.
  induction s as [|c s IH]; simpl; intros H.
  - now exists "", "".
  - destruct (Ascii.eqb_spec c nl) as [->|Hc].
    + now exists "", (String nl s).
    + destruct (dotstar_then k s) as [g'|] eqn:Hd.
      * injection H as ->. destruct (IH eq_refl) as (m & t & -> & Hm & Hk).
        exists (String c m), t; simpl. rewrite Hm.
        apply Ascii.eqb_neq in Hc. now rewrite Hc.
      * now exists "", (String c s).
Qed.

Lemma dotstar_then_complete (k : string -> option string) (m t g : string) :
  str_contains_char nl m = false -> k t = Some g ->
  exists g', dotstar_then k (m ++ t) = Some g'.
Proof.
  intros Hm Hk. induction m as [|c m IH]; simpl in *.
  - destruct t as [|c t]; simpl; [eauto|].
    destruct (c =? nl)%char; [eauto|].
    destruct (dotstar_then k t); eauto.
  - apply orb_false_elim in Hm as [Hc Hm].
    rewrite Hc. destruct (IH Hm) as [g' ->]. eauto.
Qed.

Lemma alt_literal_inv (p s g : string) :
  alt_literal p s = Some g ->
  is_video_id g /\ exists suf, s = p ++ g ++ suf.
Proof.
  unfold alt_literal. destruct (strip_prefix p s) as [r|] eqn:Hp; [|discriminate].
  intros [Hid [suf ->]]%group1_inv. apply strip_prefix_inv in Hp.
  split; [assumption | now exists suf].
Qed.

Lemma alt_literal_app (p g suf : string) :
  is_video_id g -> alt_literal p (p ++ g ++ suf) = Some g.
Proof.
  intros H. unfold alt_literal. rewrite strip_prefix_app.
  now apply group1_video_id.
Qed.

Lemma alt_watch_inv (s g : string) :
  alt_watch s = Some g ->
  is_video_id g /\ exists m suf,
    s = ("youtube.com/watch?" ++ m ++ "v=") ++ g ++ suf
    /\ str_contains_char nl m = false.
Proof.
  unfold alt_watch.
  destruct (strip_prefix "youtube.com/watch?" s) as [r|] eqn:Hp; [|discriminate].
  intros (m & t & -> & Hm & Hk)%dotstar_then_inv. unfold watch_tail in Hk.
  destruct (strip_prefix "v=" t) as [u|] eqn:Hv; [|discriminate].
  apply group1_inv in Hk as [Hid [suf ->]].
  apply strip_prefix_inv in Hp, Hv. subst.
  split; [assumption|]. exists m, suf. split; [|assumption].
  now rewrite !str_app_assoc.
Qed.

Lemma alt_watch_complete (m g suf : string) :
  str_contains_char nl m = false -> is_video_id g ->
  exists g', alt_watch (("youtube.com/watch?" ++ m ++ "v=") ++ g ++ suf) = Some g'.
Proof.
  intros Hm Hid. unfold alt_watch.
  rewrite !str_app_assoc, strip_prefix_app.
  apply dotstar_then_complete with (g := g); [assumption|].
  unfold watch_tail. rewrite strip_prefix_app. now apply group1_video_id.
Qed.

Lemma match_here_inv (s g : string) :
  match_here s = Some g -> matches_at s g.
Proof.
  unfold match_here, or_else.
  destruct (alt_watch s) as [g1|] eqn:H1.
  { intros [= ->]. apply alt_watch_inv in H1 as [Hid (m & suf & -> & Hm)].
    exists ("youtube.com/watch?" ++ m ++ "v="), suf.
    split; [reflexivity|]. split; [left; eauto | assumption]. }
  destruct (alt_literal "youtu.be/" s) as [g2|] eqn:H2.
  { intros [= ->]. apply alt_literal_inv in H2 as [Hid [suf ->]].
    exists "youtu.be/", suf. unfold url_lead. intuition. }
  destruct (alt_literal "youtube.com/embed/" s) as [g3|] eqn:H3.
  { intros [= ->]. apply alt_literal_inv in H3 as [Hid [suf ->]].
    exists "youtube.com/embed/", suf. unfold url_lead. intuition. }
  destruct (alt_literal "youtube.com/v/" s) as [g4|] eqn:H4.
  { intros [= ->]. apply alt_literal_inv in H4 as [Hid [suf ->]].
    exists "youtube.com/v/", suf. unfold url_lead. intuition. }
  intros H5. apply alt_literal_inv in H5 as [Hid [suf ->]].
  exists "youtube.com/shorts/", suf. unfold url_lead. intuition.
Qed.

Lemma match_here_complete (s g : string) :
  matches_at s g -> exists g', match_here s = Some g'.
Proof.
  intros (p & suf & -> & Hp & Hid). unfold match_here, or_else.
  destruct Hp as [(m & -> & Hm) | Hp].
  { destruct (alt_watch_complete m g suf Hm Hid) as [g' ->]. eauto. }
  destruct (alt_watch (p ++ g ++ suf)); [eauto|].
  destruct Hp as [-> | Hp].
  { rewrite (alt_literal_app _ _ _ Hid). eauto. }
  destruct (alt_literal "youtu.be/" (p ++ g ++ suf)); [eauto|].
  destruct Hp as [-> | Hp].
  { rewrite (alt_literal_app _ _ _ Hid). eauto. }
  destruct (alt_literal "youtube.com/embed/" (p ++ g ++ suf)); [eauto|].
  destruct Hp as [-> | Hp].
  { rewrite (alt_literal_app _ _ _ Hid). eauto. }
  destruct (alt_literal "youtube.com/v/" (p ++ g ++ suf)); [eauto|].
  subst p. rewrite (alt_literal_app _ _ _ Hid). eauto.
Qed.

Lemma re_search_inv (s g : string) :
  re_search s = Some g -> exists pre t, s = pre ++ t /\ matches_at t g.
Proof.
  induction s as [|c s IH].
  - simpl. discriminate.
  - cbn [re_search]. destruct (match_here (String c s)) as [g'|] eqn:H.
    + intros [= ->]. exists "", (String c s). split; [reflexivity|].
      now apply match_here_inv.
    + intros (pre & t & -> & Hm)%IH. now exists (String c pre), t.
Qed.

Lemma re_search_complete (pre t g : string) :
  matches_at t g -> exists g', re_search (pre ++ t) = Some g'.
Proof.
  intros H. induction pre as [|c pre IH].
  - destruct (match_here_complete _ _ H) as [g' Hg'].
    exists g'. simpl. destruct t; cbn [re_search]; now rewrite Hg'.
  - simpl. cbn [re_search].
    destruct (match_here (String c (pre ++ t))); [eauto | exact IH].
Qed.

Lemma re_search_none_iff (s : string) :
  re_search s = None <-> ~ matches_url_pattern s.
Proof.
  split.
  - intros H (pre & t & g & -> & Hm).
    destruct (re_search_complete pre t g Hm) as [g' Hg']. congruence.
  - intros H. destruct (re_search s) as [g|] eqn:Hs; [|reflexivity].
    exfalso. apply H. destruct (re_search_inv _ _ Hs) as (pre & t & -> & Hm).
    now exists pre, t, g.
Qed.

(** ** Trimming *)

Lemma id_char_not_space (c : ascii) : is_id_char c = true -> is_space c = false.
Proof.
  destruct c as [[] [] [] [] [] [] [] []]; vm_compute; congruence.
Qed.

Lemma rstrip_fixed (s : string) :
  all_chars (fun c => negb (is_space c)) s = true -> rstrip s = s.
Proof.
  induction s as [|c s IH]; simpl; [reflexivity|].
  intros [Hc Hs]%andb_prop. rewrite (IH Hs).
  apply negb_true_iff in Hc. rewrite Hc. now destruct s.
Qed.

Lemma rstrip_app (p s : string) :
  s <> "" -> rstrip s = s -> rstrip (p ++ s) = p ++ s.
Proof.
  intros Hne Hs. induction p as [|a p IH]; simpl; [assumption|].
  rewrite IH. destruct (p ++ s) eqn:Hps; [|reflexivity].
  destruct p; simpl in Hps; [congruence | discriminate].
Qed.

Lemma all_chars_impl (p q : ascii -> bool) (s : string) :
  (forall c, p c = true -> q c = true) ->
  all_chars p s = true -> all_chars q s = true.
Proof.
  intros Hpq. induction s as [|c s IH]; simpl; [reflexivity|].
  intros [Hc Hs]%andb_prop. now rewrite (Hpq _ Hc), (IH Hs).
Qed.

Lemma video_id_rstrip (g : string) : is_video_id g -> rstrip g = g.
Proof.
  intros [_ Hall]. apply rstrip_fixed.
  apply (all_chars_impl is_id_char); [|assumption].
  intros c Hc. now rewrite (id_char_not_space c Hc).
Qed.

Lemma video_id_nonempty (g : string) : is_video_id g -> g <> "".
Proof. intros [Hlen _] ->. discriminate. Qed.

Lemma video_id_lstrip (g : string) : is_video_id g -> lstrip g = g.
Proof.
  intros [Hlen Hall]. destruct g as [|c g]; [reflexivity|]. simpl in *.
  apply andb_prop in Hall as [Hc _]. now rewrite (id_char_not_space c Hc).
Qed.

(** ** The search on the supported shapes *)

Lemma re_search_skip (c : ascii) (s : string) :
  ("y" =? c)%char = false -> re_search (String c s) = re_search s.
Proof.
  intros H. cbn [re_search].
  unfold match_here, alt_watch, alt_literal. cbn [strip_prefix]. now rewrite H.
Qed.

Lemma re_search_hit (s g : string) :
  match_here s = Some g -> re_search s = Some g.
Proof. intros H. destruct s; cbn [re_search]; now rewrite H. Qed.

Lemma url_lead_length (p : string) : url_lead p -> (9 <= String.length p)%nat.
Proof.
  intros [(m & -> & _) | [-> | [-> | [-> | ->]]]]; simpl; try lia.
Qed.

Lemma re_search_short (s : string) :
  (String.length s < 20)%nat -> re_search s = None.
Proof.
  intros Hlen. apply re_search_none_iff.
  intros (pre & t & g & -> & p & suf & -> & Hp & [Hg _]).
  apply url_lead_length in Hp.
  rewrite !str_app_length in Hlen. lia.
Qed.

Lemma watch_tail_short (t : string) :
  (String.length t < 13)%nat -> watch_tail t = None.
Proof.
  intros Hlen. unfold watch_tail.
  destruct (strip_prefix "v=" t) as [u|] eqn:Hu; [|reflexivity].
  destruct (group1 u) as [g|] eqn:Hg; [|reflexivity].
  apply strip_prefix_inv in Hu. apply group1_inv in Hg as [[Hl _] [suf ->]].
  subst t. rewrite !str_app_length in Hlen. simpl in Hlen. lia.
Qed.

Lemma dotstar_then_short (k : string -> option string) (n : nat) (s : string) :
  (forall t, (String.length t < n)%nat -> k t = None) ->
  (String.length s < n)%nat -> dotstar_then k s = None.
Proof.
  intros Hk. induction s as [|c s IH]; simpl; intros Hlen.
  - now apply Hk.
  - rewrite IH by lia. rewrite (Hk (String c s)) by (simpl; lia).
    now destruct (c =? nl)%char.
Qed.

Lemma match_here_watch (g : string) :
  is_video_id g -> match_here ("youtube.com/watch?v=" ++ g) = Some g.
Proof.
  intros Hid. unfold match_here, alt_watch.
  change ("youtube.com/watch?v=" ++ g) with ("youtube.com/watch?" ++ "v=" ++ g).
  rewrite strip_prefix_app.
  change (dotstar_then _ ("v=" ++ g))
    with (match dotstar_then watch_tail ("=" ++ g) with
          | Some r => Some r
          | None => watch_tail ("v=" ++ g)
          end).
  rewrite (dotstar_then_short watch_tail 13).
  - unfold watch_tail. rewrite strip_prefix_app.
    rewrite <- (str_app_nil_r g) at 1. now rewrite (group1_video_id _ _ Hid).
  - exact watch_tail_short.
  - destruct Hid as [Hl _]. simpl. lia.
Qed.

Lemma alt_literal_exact (p g : string) :
  is_video_id g -> alt_literal p (p ++ g) = Some g.
Proof.
  intros H. rewrite <- (str_app_nil_r g) at 1. now apply alt_literal_app.
Qed.

Lemma strip_url (p g : string) :
  lstrip (p ++ g) = p ++ g -> is_video_id g -> strip (p ++ g) = p ++ g.
Proof.
  intros Hl Hid. unfold strip. rewrite Hl.
  apply rstrip_app; [now apply video_id_nonempty | now apply video_id_rstrip].
Qed.

Lemma re_search_lead (pre t g : string) :
  all_chars (fun c => negb ("y" =? c)%char) pre = true ->
  match_here t = Some g -> re_search (pre ++ t) = Some g.
Proof.
  intros Hpre Ht. induction pre as [|c pre IH]; cbn [append all_chars] in *.
  - now apply re_search_hit.
  - apply andb_prop in Hpre as [Hc Hpre]. apply negb_true_iff in Hc.
    rewrite re_search_skip by assumption. now apply IH.
Qed.

Section Shapes.
Variable repr : string -> string.
Variable g : string.
Hypothesis Hid : is_video_id g.

Lemma match_here_short_link : match_here ("youtu.be/" ++ g) = Some g.
Proof.
  unfold match_here. now rewrite (alt_literal_exact "youtu.be/" g Hid).
Qed.

Lemma match_here_embed : match_here ("youtube.com/embed/" ++ g) = Some g.
Proof.
  unfold match_here. now rewrite (alt_literal_exact "youtube.com/embed/" g Hid).
Qed.

Lemma match_here_v : match_here ("youtube.com/v/" ++ g) = Some g.
Proof.
  unfold match_here. now rewrite (alt_literal_exact "youtube.com/v/" g Hid).
Qed.

Lemma match_here_shorts : match_here ("youtube.com/shorts/" ++ g) = Some g.
Proof.
  unfold match_here. now rewrite (alt_literal_exact "youtube.com/shorts/" g Hid).
Qed.

Lemma extract_url (pre lead : string) :
  lstrip ((pre ++ lead) ++ g) = (pre ++ lead) ++ g ->
  all_chars (fun c => negb ("y" =? c)%char) pre = true ->
  match_here (lead ++ g) = Some g ->
  _extract_video_id repr ((pre ++ lead) ++ g) = Ok g.
Proof.
  intros Hl Hpre Hm. unfold _extract_video_id.
  rewrite strip_url by assumption.
  now rewrite str_app_assoc, (re_search_lead _ _ g Hpre Hm).
Qed.

Lemma extract_bare : _extract_video_id repr g = Ok g.
Proof.
  unfold _extract_video_id, strip.
  rewrite (video_id_lstrip g Hid), (video_id_rstrip g Hid).
  rewrite re_search_short by (destruct Hid as [-> _]; lia).
  now rewrite (proj2 (fullmatch_id_iff g) Hid).
Qed.

Lemma extract_shapes :
  _extract_video_id repr ("https://www.youtube.com/watch?v=" ++ g) = Ok g
  /\ _extract_video_id repr ("https://youtu.be/" ++ g) = Ok g
  /\ _extract_video_id repr ("https://www.youtube.com/embed/" ++ g) = Ok g
  /\ _extract_video_id repr ("https://www.youtube.com/v/" ++ g) = Ok g
  /\ _extract_video_id repr ("https://www.youtube.com/shorts/" ++ g) = Ok g
  /\ _extract_video_id repr g = Ok g.
Proof.
  repeat split.
  - apply (extract_url "https://www." "youtube.com/watch?v=");
      [reflexivity | reflexivity | now apply match_here_watch].
  - apply (extract_url "https://" "youtu.be/");
      [reflexivity | reflexivity | apply match_here_short_link].
  - apply (extract_url "https://www." "youtube.com/embed/");
      [reflexivity | reflexivity | apply match_here_embed].
  - apply (extract_url "https://www." "youtube.com/v/");
      [reflexivity | reflexivity | apply match_here_v].
  - apply (extract_url "https://www." "youtube.com/shorts/");
      [reflexivity | reflexivity | apply match_here_shorts].
  - apply extract_bare.
Qed.
End Shapes.

Lemma extract_ok_video_id (repr : string -> string) (raw v : string) :
  _extract_video_id repr raw = Ok v -> is_video_id v.
Proof.
  unfold _extract_video_id.
  destruct (re_search (strip raw)) as [g|] eqn:Hs.
  - intros [= <-].
    apply re_search_inv in Hs as (pre & t & _ & p & suf & _ & _ & Hid).
    exact Hid.
  - destruct (fullmatch_id (strip raw)) eqn:Hf; [|discriminate].
    intros [= <-]. now apply fullmatch_id_iff.
Qed.

Lemma extract_raises_iff (repr : string -> string) (raw : string) :
  (exists e, _extract_video_id repr raw = Raise e)
  <-> ~ matches_url_pattern (strip raw) /\ ~ is_video_id (strip raw).
Proof.
  unfold _extract_video_id.
  rewrite <- re_search_none_iff, <- fullmatch_id_iff.
  destruct (re_search (strip raw)) as [g|].
  - split; [intros [e He]; discriminate | intros [H _]; discriminate].
  - destruct (fullmatch_id (strip raw)).
    + split; [intros [e He]; discriminate | intros [_ H]; now elim H].
    + split; [intros _; split; congruence | eauto].
Qed.

(** C3 (as amended).  For every identifier [g] (11 characters of
    [[a-zA-Z0-9_-]]) the extractor returns [g] on the five URL shapes and
    on [g] itself.  It raises exactly when its input, once trimmed of
    surrounding whitespace, contains no match of the URL pattern and is
    not such an identifier; on an input that is already trimmed this is
    a condition on the input itself.  The exception is the
    invalid-identifier error carrying the trimmed input, and every
    identifier returned is 11 characters of the alphabet. *)
Theorem extract_video_id_spec (repr : string -> string) :
  (forall g, is_video_id g ->
     _extract_video_id repr ("https://www.youtube.com/watch?v=" ++ g) = Ok g
     /\ _extract_video_id repr ("https://youtu.be/" ++ g) = Ok g
     /\ _extract_video_id repr ("https://www.youtube.com/embed/" ++ g) = Ok g
     /\ _extract_video_id repr ("https://www.youtube.com/v/" ++ g) = Ok g
     /\ _extract_video_id repr ("https://www.youtube.com/shorts/" ++ g) = Ok g
     /\ _extract_video_id repr g = Ok g)
  /\ (forall raw,
        (exists e, _extract_video_id repr raw = Raise e)
        <-> ~ matches_url_pattern (strip raw) /\ ~ is_video_id (strip raw))
  /\ (forall raw, strip raw = raw ->
        ((exists e, _extract_video_id repr raw = Raise e)
         <-> ~ matches_url_pattern raw /\ ~ is_video_id raw))
  /\ (forall raw e,
        _extract_video_id repr raw = Raise e ->
        e = invalid_identifier repr (strip raw))
  /\ (forall raw v, _extract_video_id repr raw = Ok v -> is_video_id v).
Proof.
  split; [exact (extract_shapes repr)|].
  split; [exact (extract_raises_iff repr)|].
  split; [|split].
  - intros raw Htrim. pose proof (extract_raises_iff repr raw) as H.
    now rewrite Htrim in H.
  - intros raw e. unfold _extract_video_id.
    destruct (re_search (strip raw)); [discriminate|].
    destruct (fullmatch_id (strip raw)); [discriminate|]. now intros [= <-].
  - exact (extract_ok_video_id repr).
Qed.

(** C3, the claim as stated fails on an identifier with a space before
    it: the input has 12 characters and holds no URL, and the extractor
    returns the identifier. *)
Lemma padded_identifier_is_accepted :
  _extract_video_id (repr_str offline) " dQw4w9WgXcQ" = Ok "dQw4w9WgXcQ"
  /\ ~ matches_url_pattern " dQw4w9WgXcQ"
  /\ ~ is_video_id " dQw4w9WgXcQ".
Proof.
  split; [reflexivity|]. split.
  - apply re_search_none_iff. reflexivity.
  - intros [Hlen _]. discriminate.
Qed.

(* ================================================================== *)
(** * The priority scan of [_get_transcript_via_api] *)
(* ================================================================== *)

Section Scan.
Variable tl : TranscriptList.

Lemma manual_loop_step (lang : string) (rest : list string) (sel : Selection) :
  manual_loop tl (lang :: rest) sel
  = match offers false tl lang with
    | Some t => (Some t, "manual", lang)
    | None => manual_loop tl rest sel
    end.
Proof.
  unfold offers. cbn [manual_loop].
  now destruct (find_manually_created_transcript tl [lang]).
Qed.

Lemma generated_loop_step (lang : string) (rest : list string)
  (sel : Selection) :
  generated_loop tl (lang :: rest) sel
  = match offers true tl lang with
    | Some t => (Some t, "auto-generated", lang)
    | None => generated_loop tl rest sel
    end.
Proof.
  unfold offers. cbn [generated_loop].
  now destruct (find_generated_transcript tl [lang]).
Qed.

Lemma manual_loop_none (langs : list string) (sel : Selection) :
  (forall l, In l langs -> offers false tl l = None) ->
  manual_loop tl langs sel = sel.
Proof.
  induction langs as [|l langs IH]; intros H; [reflexivity|].
  rewrite manual_loop_step, (H l) by now left.
  apply IH. intros l' Hl'. apply H. now right.
Qed.

Lemma manual_loop_first (pre post : list string) (lang : string)
  (t : Transcript) (sel : Selection) :
  (forall l, In l pre -> offers false tl l = None) ->
  offers false tl lang = Some t ->
  manual_loop tl (pre ++ lang :: post) sel = (Some t, "manual", lang).
Proof.
  intros Hpre Ht. induction pre as [|l pre IH]; cbn [app];
    rewrite manual_loop_step.
  - now rewrite Ht.
  - rewrite (Hpre l) by now left. apply IH. intros l' Hl'. apply Hpre. now right.
Qed.

Lemma generated_loop_none (langs : list string) (sel : Selection) :
  (forall l, In l langs -> offers true tl l = None) ->
  generated_loop tl langs sel = sel.
Proof.
  induction langs as [|l langs IH]; intros H; [reflexivity|].
  rewrite generated_loop_step, (H l) by now left.
  apply IH. intros l' Hl'. apply H. now right.
Qed.

Lemma generated_loop_first (pre post : list string) (lang : string)
  (t : Transcript) (sel : Selection) :
  (forall l, In l pre -> offers true tl l = None) ->
  offers true tl lang = Some t ->
  generated_loop tl (pre ++ lang :: post) sel = (Some t, "auto-generated", lang).
Proof.
  intros Hpre Ht. induction pre as [|l pre IH]; cbn [app];
    rewrite generated_loop_step.
  - now rewrite Ht.
  - rewrite (Hpre l) by now left. apply IH. intros l' Hl'. apply Hpre. now right.
Qed.

Lemma select_manual (pre post : list string) (lang : string) (t : Transcript) :
  (forall l, In l pre -> offers false tl l = None) ->
  offers false tl lang = Some t ->
  select_transcript tl (pre ++ lang :: post) = (Some t, "manual", lang).
Proof.
  intros Hpre Ht. unfold select_transcript.
  now rewrite (manual_loop_first pre post lang t _ Hpre Ht).
Qed.

Lemma select_generated (pre post : list string) (lang : string)
  (t : Transcript) :
  (forall l, In l (pre ++ lang :: post) -> offers false tl l = None) ->
  (forall l, In l pre -> offers true tl l = None) ->
  offers true tl lang = Some t ->
  select_transcript tl (pre ++ lang :: post) = (Some t, "auto-generated", lang).
Proof.
  intros Hman Hpre Ht. unfold select_transcript.
  rewrite (manual_loop_none _ _ Hman).
  now rewrite (generated_loop_first pre post lang t _ Hpre Ht).
Qed.

Lemma select_fallback (langs : list string) :
  (forall l, In l langs -> offers false tl l = None) ->
  (forall l, In l langs -> offers true tl l = None) ->
  select_transcript tl langs
  = match first_listed tl with
    | Some t => (Some t, source_of t, language_code t)
    | None => (None, "unknown", "unknown")
    end.
Proof.
  intros Hman Hgen. unfold select_transcript.
  rewrite (manual_loop_none _ _ Hman), (generated_loop_none _ _ Hgen).
  unfold last_resort, first_listed. cbn [fst snd].
  destruct (available tl) as [[|t ts]|e]; reflexivity.
Qed.
End Scan.

(** C1.  The scan of the structured-service backend: the first language
    of the list for which the service has a manual transcript wins; when
    no language has one, the first language with an auto-generated
    transcript wins; when no language has either, the first transcript
    the service lists is taken, whatever its kind (and nothing is
    selected when it lists none).  A first language with both kinds
    yields the manual one.  The backend returns the entries of the
    selected transcript under the selected language and source, and
    raises when nothing was selected. *)
Theorem api_selection_priority (tl : TranscriptList) :
  (forall pre lang post t,
     (forall l, In l pre -> offers false tl l = None) ->
     offers false tl lang = Some t ->
     select_transcript tl (pre ++ lang :: post) = (Some t, "manual", lang))
  /\ (forall pre lang post t,
        (forall l, In l (pre ++ lang :: post) -> offers false tl l = None) ->
        (forall l, In l pre -> offers true tl l = None) ->
        offers true tl lang = Some t ->
        select_transcript tl (pre ++ lang :: post)
        = (Some t, "auto-generated", lang))
  /\ (forall langs,
        (forall l, In l langs -> offers false tl l = None) ->
        (forall l, In l langs -> offers true tl l = None) ->
        select_transcript tl langs
        = match first_listed tl with
          | Some t => (Some t, source_of t, language_code t)
          | None => (None, "unknown", "unknown")
          end)
  /\ (forall lang rest m a,
        offers false tl lang = Some m -> offers true tl lang = Some a ->
        select_transcript tl (lang :: rest) = (Some m, "manual", lang))
  /\ (forall E video_id langs w,
        list_transcripts E video_id = Ok tl ->
        fst (_get_transcript_via_api E video_id langs w)
        = match select_transcript tl langs with
          | (Some t, src, lang) =>
              es <~ fetch t ;; Ok (mkInfo (map (round_entry E) es) lang src)
          | (None, _, _) => Raise (no_transcript_available E video_id langs)
          end).
Proof.
  split; [intros; now apply select_manual|].
  split; [intros; now apply select_generated|].
  split; [exact (select_fallback tl)|].
  split.
  - intros lang rest m a Hm _.
    apply (select_manual tl [] rest lang m); [intros l []|assumption].
  - intros E video_id langs w Hl.
    unfold _get_transcript_via_api, bind, enter, lift. simpl. rewrite Hl.
    destruct (select_transcript tl langs) as [[[t|] src] lang]; simpl;
      [|reflexivity].
    now destruct (fetch t).
Qed.

(* ================================================================== *)
(** * The log of invoked backends *)
(* ================================================================== *)
Lemma silent_ret {A} (v : A) : silent (ret v).
Proof. intros w r w' [= _ <-]. reflexivity. Qed.

Lemma silent_raise {A} (e : exn) : silent (@raise A e).
Proof. intros w r w' [= _ <-]. reflexivity. Qed.

Lemma silent_lift {A} (x : Exc A) : silent (lift x).
Proof. intros w r w' [= _ <-]. reflexivity. Qed.

Lemma silent_bind {A B} (m : M A) (k : A -> M B) :
  silent m -> (forall v, silent (k v)) -> silent (bind m k).
Proof.
  intros Hm Hk w r w'. unfold bind.
  destruct (m w) as [[v|e] w1] eqn:Hmw.
  - intros H. rewrite (Hk v _ _ _ H). exact (Hm _ _ _ Hmw).
  - intros [= _ <-]. exact (Hm _ _ _ Hmw).
Qed.

Lemma silent_try {A} (m : M A) : silent m -> silent (try_ m).
Proof.
  intros Hm w r w'. unfold try_. destruct (m w) as [x w1] eqn:Hmw.
  intros [= _ <-]. exact (Hm _ _ _ Hmw).
Qed.

Section Frames.
Variable E : Env.

Lemma silent_run (argv : list string) (t : Z) : silent (run E argv t).
Proof.
  intros w r w'. unfold run.
  destruct (subprocess_run E argv t (fs w)) as [[p|] files];
    intros [= _ <-]; reflexivity.
Qed.

Lemma silent_glob_subs (video_id : string) : silent (glob_subs video_id).
Proof. intros w r w' [= _ <-]. reflexivity. Qed.

Lemma silent_open_json_load (path : string) : silent (open_json_load E path).
Proof.
  intros w r w'. unfold open_json_load.
  destruct (read_file (fs w) path); intros [= _ <-]; reflexivity.
Qed.

Lemma silent_os_remove (path : string) : silent (os_remove E path).
Proof.
  intros w r w'. unfold os_remove.
  destruct (read_file (fs w) path); intros [= _ <-]; reflexivity.
Qed.

Lemma silent_remove_each (paths : list string) : silent (remove_each E paths).
Proof.
  induction paths as [|p paths IH]; simpl; [apply silent_ret|].
  apply silent_bind; [apply silent_os_remove | intros _; exact IH].
Qed.

Lemma silent_sub_flag_loop (video_id : string) (langs flags : list string) :
  silent (sub_flag_loop E video_id langs flags).
Proof.
  induction flags as [|flag flags IH]; cbn [sub_flag_loop];
    [apply silent_raise|].
  apply silent_bind; [apply silent_run|]. intros result.
  destruct (negb (returncode result =? 0)%Z); [exact IH|].
  apply silent_bind; [apply silent_glob_subs|]. intros [|first rest]; [exact IH|].
  apply silent_bind; [apply silent_open_json_load|]. intros sub_data.
  apply silent_bind; [apply silent_remove_each|]. intros _.
  apply silent_bind; [apply silent_lift|]. intros entries. apply silent_ret.
Qed.

Lemma logs_enter {A} (b : Backend) (m : M A) :
  silent m -> logs b (enter b ;;; m).
Proof.
  intros Hm w r w'. unfold bind, enter. intros H.
  apply Hm in H. exact H.
Qed.

Lemma logs_api (video_id : string) (langs : list string) :
  logs ApiCaptions (_get_transcript_via_api E video_id langs).
Proof.
  apply logs_enter. apply silent_bind; [apply silent_lift|]. intros tl.
  destruct (select_transcript tl langs) as [[[t|] src] lang];
    [|apply silent_raise].
  apply silent_bind; [apply silent_lift|]. intros es. apply silent_ret.
Qed.

Lemma logs_ytdlp (video_id : string) (langs : list string) :
  logs YtdlpCaptions (_get_transcript_via_ytdlp E video_id langs).
Proof.
  apply logs_enter. destruct (negb (which E "yt-dlp"));
    [apply silent_raise | apply silent_sub_flag_loop].
Qed.

Lemma metadata_ytdlp_total (video_id : string) (w : World) :
  exists md w', _get_metadata_via_ytdlp E video_id w = (Ok md, w')
                /\ invoked w' = (invoked w ++ [YtdlpMetadata])%list.
Proof.
  unfold _get_metadata_via_ytdlp, bind, enter, try_, ret.
  destruct (negb (which E "yt-dlp")); [eauto|].
  set (w0 := mkWorld (fs w) (invoked w ++ [YtdlpMetadata])).
  destruct (run E (dump_argv video_id) 15 w0) as [[result|e] w1] eqn:Hrun.
  - pose proof (silent_run _ _ _ _ _ Hrun) as Hinv.
    destruct (returncode result =? 0)%Z; [|eauto].
    unfold lift. destruct (json_loads E (stdout result)) as [data|e]; [|eauto].
    destruct (metadata_of_dump data video_id) as [md|e]; eauto.
  - pose proof (silent_run _ _ _ _ _ Hrun) as Hinv. eauto.
Qed.

Lemma fetch_metadata_total (video_id : string) (include : bool) (w : World) :
  exists md w', fetch_metadata E video_id include w = (Ok md, w')
                /\ invoked w'
                   = (invoked w ++ if include then [YtdlpMetadata] else [])%list.
Proof.
  unfold fetch_metadata. destruct include.
  - destruct (metadata_ytdlp_total video_id w) as (md & w' & Hm & Hinv).
    exists md, w'. unfold bind, try_. rewrite Hm. simpl. auto.
  - exists (unknown_metadata video_id), w. rewrite app_nil_r. auto.
Qed.
End Frames.

(* ================================================================== *)
(** * Language and source tags *)
(* ================================================================== *)

Section Tags.
Variable tl : TranscriptList.
Hypothesis Hconf : conforming tl.




End Tags.




Lemma transcript_list_of_conforming (ts : list Transcript) :
  conforming (transcript_list_of ts).
Proof.
  intros generated lang t. unfold offers, transcript_list_of.
  assert (H : find_transcript generated ts [lang] = Ok t ->
              language_code t = lang /\ is_generated t = generated).
  { cbn [find_transcript].
    destruct (find _ ts) as [t'|] eqn:Hf; [|discriminate].
    intros [= <-]. apply find_some in Hf as [_ Hp].
    apply andb_prop in Hp as [Hl Hg].
    apply String.eqb_eq in Hl. apply Bool.eqb_prop in Hg. auto. }
  destruct generated; cbn [find_generated_transcript
                           find_manually_created_transcript];
    destruct (find_transcript _ ts [lang]) as [t'|] eqn:Hft;
    try discriminate; intros [= <-]; now apply H.
Qed.

Section BackendTags.
Variable E : Env.





End BackendTags.

Lemma filter_nil_existsb {A} (p : A -> bool) (l : list A) :
  existsb p l = match filter p l with [] => false | _ => true end.
Proof.
  induction l as [|x l IH]; simpl; [reflexivity|].
  destruct (p x); simpl; [reflexivity | exact IH].
Qed.

Lemma sub_flag_loop_cons (E : Env) (vid : string) (langs : list string)
  (sub_flag : string) (rest : list string) :
  sub_flag_loop E vid langs (sub_flag :: rest)
  = (result <- run E (subs_argv sub_flag (join "," langs) vid) 30 ;;
     if negb (returncode result =? 0)%Z
     then sub_flag_loop E vid langs rest
     else
       sub_files <- glob_subs vid ;;
       match sub_files with
       | [] => sub_flag_loop E vid langs rest
       | first :: _ =>
           sub_data <- open_json_load E first ;;
           remove_each E sub_files ;;;
           entries <- lift (parse_json3 E sub_data) ;;
           ret (mkInfo entries "detected"
                  (if (sub_flag =? "--write-sub")%string
                   then "manual" else "auto-generated"))
       end).
Proof. reflexivity. Qed.




(* ================================================================== *)
(** * The acquisition order of [youtube_get_transcript] *)
(* ================================================================== *)

Lemma split_lines_line (a t : string) :
  no_newline a -> split_lines (a ++ String nl t) = a :: split_lines t.
Proof.
  unfold no_newline. induction a as [|c a IH]; simpl; intros H; [reflexivity|].
  apply orb_false_elim in H as [Hc Ha]. now rewrite Hc, (IH Ha).
Qed.

Lemma build_is_markdown (E : Env) (md : Metadata) (text : string)
  (info : TranscriptInfo) (vid out : string) :
  _build_markdown_output E md text info vid = Ok out ->
  is_markdown_form out = true /\ is_error_form out = false.
Proof.
  unfold _build_markdown_output, assemble_output.
  destruct (frontmatter_fields E md info vid) as [fields|]; [|discriminate].
  cbn [exc_bind]. intros [= <-]. unfold truncate_output.
  match goal with |- context [N.ltb ?a ?b] => destruct (N.ltb a b) end;
    [|split; reflexivity].
  assert (Hm : N.to_nat MAX_TRANSCRIPT_CHARS = (4 + N.to_nat 199996)%nat)
    by (unfold MAX_TRANSCRIPT_CHARS; lia).
  rewrite Hm. split; reflexivity.
Qed.

Lemma error_text_is_error (vid : string) (errors : list string) :
  is_error_form (error_text vid errors) = true
  /\ is_markdown_form (error_text vid errors) = false.
Proof. split; reflexivity. Qed.

Lemma no_newline_app (a b : string) :
  no_newline a -> no_newline b -> no_newline (a ++ b).
Proof.
  unfold no_newline. induction a as [|c a IH]; simpl; intros Ha Hb; [assumption|].
  apply orb_false_elim in Ha as [Hc Ha]. now rewrite Hc, IH.
Qed.

Lemma error_text_two (vid a b : string) :
  error_text vid [a; b]
  = ("Error: Could not retrieve transcript for video " ++ vid ++ ".")
    ++ String nl ("Attempted methods:"
    ++ String nl (("  - " ++ a)
    ++ String nl (("  - " ++ b)
    ++ String nl ("" ++ String nl possible_causes)))).
Proof.
  unfold error_text, possible_causes, NL. cbn [map join].
  rewrite !str_app_assoc. reflexivity.
Qed.

Lemma attempted_section_two (vid a b : string) :
  no_newline vid -> no_newline a -> no_newline b ->
  attempted_section (error_text vid [a; b]) = ["  - " ++ a; "  - " ++ b].
Proof.
  intros Hv Ha Hb. unfold attempted_section. rewrite error_text_two.
  rewrite !split_lines_line
    by (repeat apply no_newline_app; solve [assumption | reflexivity]).
  reflexivity.
Qed.

Lemma id_char_not_newline (c : ascii) : is_id_char c = true -> (c =? nl)%char = false.
Proof.
  destruct c as [[] [] [] [] [] [] [] []]; vm_compute; congruence.
Qed.

Lemma video_id_no_newline (g : string) : is_video_id g -> no_newline g.
Proof.
  intros [_ Hall]. unfold no_newline.
  induction g as [|c g IH]; simpl in *; [reflexivity|].
  apply andb_prop in Hall as [Hc Hg].
  now rewrite (id_char_not_newline c Hc), IH.
Qed.

Section Orchestrator.
Variable E : Env.
Variable params : GetTranscriptInput.
Variable w : World.
Variable vid : string.
Hypothesis Hvid : _extract_video_id (repr_str E) (url params) = Ok vid.

Lemma tool_api_success (info : TranscriptInfo) (w1 : World) :
  _get_transcript_via_api E vid (languages_or_default params) w = (Ok info, w1) ->
  exists md w2,
    youtube_get_transcript E params w
    = (_build_markdown_output E md
         (_format_transcript_text (entries info) (include_timestamps params))
         info vid, w2)
    /\ invoked w2
       = (invoked w ++ [ApiCaptions]
          ++ if include_metadata params then [YtdlpMetadata] else [])%list.
Proof.
  intros Hapi.
  destruct (fetch_metadata_total E vid (include_metadata params) w1)
    as (md & w2 & Hmd & Hinv).
  exists md, w2. split.
  - unfold youtube_get_transcript, fetch_transcript, attempt, bind, lift, try_, ret.
    rewrite Hvid, Hapi. cbn [fst]. rewrite Hmd. reflexivity.
  - rewrite Hinv, (logs_api E _ _ _ _ _ Hapi). now rewrite <- app_assoc.
Qed.

Lemma tool_ytdlp_success (e1 : exn) (info : TranscriptInfo) (w1 w2 : World) :
  _get_transcript_via_api E vid (languages_or_default params) w = (Raise e1, w1) ->
  _get_transcript_via_ytdlp E vid (languages_or_default params) w1 = (Ok info, w2) ->
  exists md w3,
    youtube_get_transcript E params w
    = (_build_markdown_output E md
         (_format_transcript_text (entries info) (include_timestamps params))
         info vid, w3)
    /\ invoked w3
       = (invoked w ++ [ApiCaptions; YtdlpCaptions]
          ++ if include_metadata params then [YtdlpMetadata] else [])%list.
Proof.
  intros Hapi Hcli.
  destruct (fetch_metadata_total E vid (include_metadata params) w2)
    as (md & w3 & Hmd & Hinv).
  exists md, w3. split.
  - unfold youtube_get_transcript, fetch_transcript, attempt, bind, lift, try_, ret.
    rewrite Hvid, Hapi. cbn [fst]. rewrite Hcli, Hmd. reflexivity.
  - rewrite Hinv, (logs_ytdlp E _ _ _ _ _ Hcli), (logs_api E _ _ _ _ _ Hapi).
    now rewrite <- !app_assoc.
Qed.

Lemma tool_both_fail (e1 e2 : exn) (w1 w2 : World) :
  _get_transcript_via_api E vid (languages_or_default params) w = (Raise e1, w1) ->
  _get_transcript_via_ytdlp E vid (languages_or_default params) w1 = (Raise e2, w2) ->
  youtube_get_transcript E params w
  = (Ok (error_text vid [api_diagnostic e1; ytdlp_diagnostic e2]), w2)
  /\ invoked w2 = (invoked w ++ [ApiCaptions; YtdlpCaptions])%list.
Proof.
  intros Hapi Hcli. split.
  - unfold youtube_get_transcript, fetch_transcript, attempt, bind, lift, try_, ret.
    rewrite Hvid, Hapi. cbn [fst]. rewrite Hcli. reflexivity.
  - rewrite (logs_ytdlp E _ _ _ _ _ Hcli), (logs_api E _ _ _ _ _ Hapi).
    now rewrite <- app_assoc.
Qed.
End Orchestrator.

(** C2 (as amended).  On a request whose identifier is extracted, the
    structured-service backend runs first; when it succeeds the
    command-line backend is not invoked and the answer is the built
    document; when it fails the command-line backend runs second.  The
    answer is the plain-text error form exactly when both have failed:
    it names the video identifier and lists one diagnostic entry per
    backend, [youtube-transcript-api] first and [yt-dlp] second, each
    made of the backend's message; it is not the Markdown form and holds
    no transcript text.  Each entry is one line when the message has no
    line break. *)
Theorem transcript_acquisition_order (E : Env) (params : GetTranscriptInput)
  (w : World) (vid : string)
  (Hvid : _extract_video_id (repr_str E) (url params) = Ok vid) :
  let langs := languages_or_default params in
  (forall info w1,
     _get_transcript_via_api E vid langs w = (Ok info, w1) ->
     exists md w2,
       youtube_get_transcript E params w
       = (_build_markdown_output E md
            (_format_transcript_text (entries info) (include_timestamps params))
            info vid, w2)
       /\ invoked w2
          = (invoked w ++ [ApiCaptions]
             ++ if include_metadata params then [YtdlpMetadata] else [])%list)
  /\ (forall e1 info w1 w2,
        _get_transcript_via_api E vid langs w = (Raise e1, w1) ->
        _get_transcript_via_ytdlp E vid langs w1 = (Ok info, w2) ->
        exists md w3,
          youtube_get_transcript E params w
          = (_build_markdown_output E md
               (_format_transcript_text (entries info)
                  (include_timestamps params))
               info vid, w3)
          /\ invoked w3
             = (invoked w ++ [ApiCaptions; YtdlpCaptions]
                ++ if include_metadata params then [YtdlpMetadata] else [])%list)
  /\ (forall e1 e2 w1 w2,
        _get_transcript_via_api E vid langs w = (Raise e1, w1) ->
        _get_transcript_via_ytdlp E vid langs w1 = (Raise e2, w2) ->
        youtube_get_transcript E params w
        = (Ok (error_text vid [api_diagnostic e1; ytdlp_diagnostic e2]), w2)
        /\ invoked w2 = (invoked w ++ [ApiCaptions; YtdlpCaptions])%list)
  /\ (forall out w',
        youtube_get_transcript E params w = (Ok out, w') ->
        is_error_form out = true ->
        exists e1 e2 w1,
          _get_transcript_via_api E vid langs w = (Raise e1, w1)
          /\ _get_transcript_via_ytdlp E vid langs w1 = (Raise e2, w')
          /\ out = error_text vid [api_diagnostic e1; ytdlp_diagnostic e2])
  /\ (forall errors,
        is_error_form (error_text vid errors) = true
        /\ is_markdown_form (error_text vid errors) = false)
  /\ (forall a b,
        no_newline a -> no_newline b ->
        attempted_section (error_text vid [a; b]) = ["  - " ++ a; "  - " ++ b]).
Proof.
  intros langs.
  split; [intros; now apply tool_api_success with (w1 := w1)|].
  split; [intros; now apply tool_ytdlp_success with (e1 := e1) (w1 := w1) (w2 := w2)|].
  split; [intros; now apply tool_both_fail with (w1 := w1)|].
  split; [|split; [intros; apply error_text_is_error|]].
  - intros out w' Htool Herr.
    destruct (_get_transcript_via_api E vid langs w) as [[info|e1] w1] eqn:Hapi.
    + destruct (tool_api_success E params w vid Hvid info w1 Hapi)
        as (md & w2 & Ht & _).
      rewrite Ht in Htool. injection Htool as Hb _.
      apply build_is_markdown in Hb as [_ Hb]. congruence.
    + destruct (_get_transcript_via_ytdlp E vid langs w1) as [[info|e2] w2] eqn:Hcli.
      * destruct (tool_ytdlp_success E params w vid Hvid e1 info w1 w2 Hapi Hcli)
          as (md & w3 & Ht & _).
        rewrite Ht in Htool. injection Htool as Hb _.
        apply build_is_markdown in Hb as [_ Hb]. congruence.
      * destruct (tool_both_fail E params w vid Hvid e1 e2 w1 w2 Hapi Hcli)
          as [Ht _].
        rewrite Ht in Htool. injection Htool as <- <-.
        exists e1, e2, w1. auto.
  - intros a b Ha Hb. apply attempted_section_two; try assumption.
    apply video_id_no_newline. exact (extract_ok_video_id _ _ _ Hvid).
Qed.

Lemma transcript_acquisition_order_witness :
  youtube_get_transcript offline short_link_request initial_world
  = (Ok (error_text "dQw4w9WgXcQ"
           ["youtube-transcript-api: connection refused";
            "yt-dlp: yt-dlp is not installed. Install with: pip install yt-dlp"]),
     mkWorld [] [ApiCaptions; YtdlpCaptions]).
Proof.
  pose proof (transcript_acquisition_order offline short_link_request
                initial_world "dQw4w9WgXcQ" eq_refl) as H.
  cbv zeta in H. destruct H as (_ & _ & H & _).
  exact (proj1 (H _ _ _ _ eq_refl eq_refl)).
Defined.

(** C2, the claim as stated fails where it counts lines: a backend
    message of two lines gives three lines for two backends. *)
Lemma multi_line_diagnostic :
  exists out w',
    youtube_get_transcript captions_disabled short_link_request initial_world
    = (Ok out, w')
    /\ invoked w' = [ApiCaptions; YtdlpCaptions]
    /\ is_error_form out = true
    /\ attempted_section out
       = ["  - youtube-transcript-api: Could not retrieve a transcript for the video!";
          "Subtitles are disabled for this video";
          "  - yt-dlp: yt-dlp is not installed. Install with: pip install yt-dlp"].
Proof.
  eexists. eexists. split; [vm_compute; reflexivity|].
  split; [reflexivity|]. split; vm_compute; reflexivity.
Qed.

(* ================================================================== *)
(** * [_format_transcript_text] *)
(* ================================================================== *)

Lemma int_of_float_inject (z : Z) : int_of_float (inject_Z z) = z.
Proof. unfold int_of_float; simpl. apply Z.quot_1_r. Qed.

Lemma int_of_float_floor (q : Q) : (0 <= q)%Q -> int_of_float q = Qfloor q.
Proof.
  destruct q as [n d]. unfold Qle, int_of_float, Qfloor; simpl. intros H.
  apply Z.quot_div_nonneg; lia.
Qed.

(** ** Doubles *)

Lemma int_of_float_whole (q : Q) (z : Z) :
  (q == inject_Z z)%Q -> int_of_float q = z.
Proof.
  destruct q as [n d]. unfold Qeq, int_of_float. simpl. intros H.
  rewrite Z.mul_1_r in H. subst n. apply Z.quot_mul. discriminate.
Qed.

Lemma Qred_whole (q : Q) (z : Z) : (q == inject_Z z)%Q -> Qred q = inject_Z z.
Proof.
  intros H. pose proof (gcd_Qred q) as Hg.
  assert (Hc : (Qred q == inject_Z z)%Q)
    by (apply Qeq_trans with q; [apply Qred_correct | exact H]).
  destruct (Qred q) as [n d]. unfold Qeq in Hc. simpl in *.
  rewrite Z.mul_1_r in Hc. subst n.
  rewrite Z.mul_comm, Z.gcd_comm, Z.gcd_mul_diag_l in Hg by lia.
  unfold inject_Z. f_equal; [|lia]. rewrite Hg. lia.
Qed.

Lemma round_half_even_whole (k : Z) : round_half_even k 1 = k.
Proof.
  unfold round_half_even. rewrite Z.mod_1_r, Z.div_1_r. reflexivity.
Qed.

Lemma sgn_mul_abs (z : Z) : (Z.sgn z * Z.abs z = z)%Z.
Proof. destruct z; reflexivity. Qed.

(** A whole number below [2^53] in magnitude is a double. *)
Lemma nearest_double_whole (z : Z) :
  (Z.abs z < 2 ^ 53)%Z -> (nearest_double (inject_Z z) == inject_Z z)%Q.
Proof.
  intros Hz. unfold nearest_double. change (inject_Z z) with (z # 1).
  cbn [Qnum Qden].
  destruct (Z.eqb_spec z 0) as [->|Hnz]; [reflexivity|].
  assert (Hpos : (0 < Z.abs z)%Z) by lia.
  assert (Hlog : Qlog2 (z # 1) = Z.log2 (Z.abs z)).
  { unfold Qlog2. cbn [Qnum Qden]. change (Z.log2 1) with 0%Z.
    rewrite Z.sub_0_r.
    pose proof (Z.log2_nonneg (Z.abs z)) as Hl.
    destruct (Z.leb_spec 0 (Z.log2 (Z.abs z))) as [_|]; [|lia].
    pose proof (Z.log2_spec _ Hpos) as [Hlo _].
    destruct (Z.leb_spec (1 * 2 ^ Z.log2 (Z.abs z)) (Z.abs z));
      [reflexivity | lia]. }
  rewrite Hlog.
  assert (Hl53 : (Z.log2 (Z.abs z) < 53)%Z) by (apply Z.log2_lt_pow2; lia).
  pose proof (Z.log2_nonneg (Z.abs z)) as Hl0.
  rewrite Z.max_l by lia.
  destruct (Z.leb_spec 0 (Z.log2 (Z.abs z) - 52)) as [He|He].
  - replace (Z.log2 (Z.abs z) - 52)%Z with 0%Z by lia.
    change (1 * 2 ^ 0)%Z with 1%Z. rewrite round_half_even_whole.
    change (2 ^ 0)%Z with 1%Z. rewrite Z.mul_1_r, sgn_mul_abs. reflexivity.
  - rewrite round_half_even_whole.
    assert (Hp : (0 < 2 ^ (- (Z.log2 (Z.abs z) - 52)))%Z)
      by (apply Z.pow_pos_nonneg; lia).
    unfold Qeq. cbn [Qnum Qden inject_Z]. rewrite Z2Pos.id by exact Hp.
    rewrite Z.mul_1_r, Z.mul_assoc, sgn_mul_abs. reflexivity.
Qed.

Lemma to_double_whole (q : Q) (z : Z) :
  (q == inject_Z z)%Q -> (Z.abs z < 2 ^ 53)%Z -> (to_double q == inject_Z z)%Q.
Proof.
  intros Hq Hz. unfold to_double. rewrite (Qred_whole q z Hq).
  apply Qeq_trans with (nearest_double (inject_Z z)); [apply Qred_correct|].
  now apply nearest_double_whole.
Qed.

(** ** Floor division and remainder by 60 where they are exact *)

Lemma is_negative_nonneg (q : Q) : (0 <= q)%Q -> is_negative q = false.
Proof.
  destruct q as [n d]. unfold Qle, is_negative. simpl. intros H.
  apply Z.ltb_ge. lia.
Qed.

Lemma real_mod_range (a : Q) : (0 <= real_mod a 60 /\ real_mod a 60 < 60)%Q.
Proof.
  unfold real_mod.
  pose proof (Qfloor_le (a / 60)) as Hlo.
  pose proof (Qlt_floor (a / 60)) as Hhi.
  rewrite inject_Z_plus in Hhi.
  assert (Ha : (a == 60 * (a / 60))%Q) by (field).
  set (f := inject_Z (Qfloor (a / 60))) in *.
  set (x := (a / 60)%Q) in *.
  split.
  - rewrite Ha at 1.
    setoid_replace (60 * x - 60 * f)%Q with (60 * (x - f))%Q by ring.
    apply Qmult_le_0_compat; [discriminate|].
    now apply -> Qle_minus_iff.
  - rewrite Ha at 1.
    setoid_replace (60 * x - 60 * f)%Q with (60 * (x - f))%Q by ring.
    setoid_replace 60%Q with (60 * 1)%Q at 2 by ring.
    apply Qmult_lt_l; [reflexivity|].
    apply Qlt_minus_iff. apply Qlt_minus_iff in Hhi.
    setoid_replace (1 + - (x - f))%Q with (f + inject_Z 1 + - x)%Q by (simpl; ring).
    exact Hhi.
Qed.

Lemma seconds_range (a : Q) : (0 <= Qfloor (real_mod a 60) < 60)%Z.
Proof.
  destruct (real_mod_range a) as [Hlo Hhi]. split.
  - change 0%Z with (Qfloor 0). now apply Qfloor_resp_le.
  - rewrite Zlt_Qlt. apply Qle_lt_trans with (real_mod a 60); [|exact Hhi].
    apply Qfloor_le.
Qed.

Lemma float_fmod_nonneg (a : Q) :
  (0 <= a)%Q -> float_fmod a 60 = real_mod a 60.
Proof.
  intros Ha. unfold float_fmod, real_mod.
  rewrite int_of_float_floor; [reflexivity|].
  apply Qle_shift_div_l; [reflexivity|]. now rewrite Qmult_0_l.
Qed.

Lemma sign_differs_nonneg (m : Q) : (0 <= m)%Q -> sign_differs m 60 = false.
Proof.
  intros Hm. unfold sign_differs. rewrite (is_negative_nonneg m Hm).
  apply andb_false_r.
Qed.

Lemma float_mod_exact (a : Q) : (0 <= a)%Q -> float_mod a 60 = real_mod a 60.
Proof.
  intros Ha. unfold float_mod. rewrite (float_fmod_nonneg a Ha).
  now rewrite sign_differs_nonneg by apply real_mod_range.
Qed.

Lemma float_floordiv_exact (a : Q) :
  exact_seconds a -> int_of_float (float_floordiv a 60) = Qfloor (a / 60).
Proof.
  intros [Ha Hb]. unfold float_floordiv. rewrite (float_fmod_nonneg a Ha).
  rewrite sign_differs_nonneg by apply real_mod_range.
  set (k := Qfloor (a / 60)).
  assert (Hk0 : (0 <= k)%Z).
  { change 0%Z with (Qfloor 0). apply Qfloor_resp_le.
    apply Qle_shift_div_l; [reflexivity|]. now rewrite Qmult_0_l. }
  assert (Hka : (inject_Z (60 * k) <= a)%Q).
  { destruct (real_mod_range a) as [Hlo _]. unfold real_mod in Hlo.
    fold k in Hlo. apply Qle_minus_iff.
    setoid_replace (a + - inject_Z (60 * k))%Q with (a - 60 * inject_Z k)%Q
      by (rewrite inject_Z_mult; simpl; ring).
    exact Hlo. }
  assert (Hk53 : (60 * k < 2 ^ 53)%Z).
  { rewrite Zlt_Qlt. apply Qle_lt_trans with a; assumption. }
  assert (H1 : (a - real_mod a 60 == inject_Z (60 * k))%Q).
  { unfold real_mod. fold k. rewrite inject_Z_mult. simpl. ring. }
  assert (H2 : (to_double (a - real_mod a 60) / 60 == inject_Z k)%Q).
  { rewrite (to_double_whole _ _ H1) by lia. rewrite inject_Z_mult.
    simpl. field. }
  assert (H3 : (to_double (to_double (a - real_mod a 60) / 60)
                == inject_Z k)%Q).
  { apply to_double_whole; [exact H2 | lia]. }
  set (div := to_double (to_double (a - real_mod a 60) / 60)) in *.
  destruct (is_zero div) eqn:Hz.
  - unfold is_zero in Hz. apply Z.eqb_eq in Hz.
    destruct div as [n d]. unfold Qeq in H3. simpl in *. subst n.
    change (int_of_float 0) with 0%Z. lia.
  - assert (Hf : Qfloor div = k)
      by (rewrite (Qfloor_comp _ _ H3); apply Qfloor_Z).
    rewrite Hf.
    assert (Hle : Qle_bool (div - inject_Z k) (1 # 2) = true).
    { apply Qle_bool_iff. rewrite H3.
      setoid_replace (inject_Z k - inject_Z k)%Q with 0%Q by ring.
      discriminate. }
    rewrite Hle. apply int_of_float_inject.
Qed.


(** ** The lines of the loop *)

Lemma format_step_kept (ts : bool) (acc : list string) (e : Entry) :
  format_step ts acc e
  = if kept e then (acc ++ [formatted_line ts e])%list else acc.
Proof.
  unfold format_step, kept, formatted_line.
  destruct (strip (text e) =? "")%string; cbn [negb]; [reflexivity|].
  destruct ts; reflexivity.
Qed.

Lemma format_step_fold (ts : bool) (es : list Entry) (acc : list string) :
  fold_left (format_step ts) es acc
  = (acc ++ map (formatted_line ts) (filter kept es))%list.
Proof.
  revert acc. induction es as [|e es IH]; intros acc; cbn [fold_left filter].
  - now rewrite app_nil_r.
  - rewrite IH, format_step_kept. destruct (kept e); [|reflexivity].
    now rewrite <- app_assoc.
Qed.

Lemma formatted_line_exact (ts : bool) (e : Entry) :
  (ts = true -> exact_seconds (start e)) ->
  formatted_line ts e = rendered_line ts e.
Proof.
  intros Hrange. unfold formatted_line, rendered_line, timecode.
  destruct ts; [|reflexivity].
  destruct (Hrange eq_refl) as [Hlo Hhi].
  rewrite (float_floordiv_exact (start e)) by (split; assumption).
  rewrite (float_mod_exact (start e) Hlo).
  rewrite (int_of_float_floor (real_mod (start e) 60))
    by apply (proj1 (real_mod_range _)).
  now rewrite !str_app_assoc.
Qed.

Lemma formatted_lines_exact (ts : bool) (es : list Entry) :
  (ts = true -> forall e, In e es -> exact_seconds (start e)) ->
  map (formatted_line ts) (filter kept es)
  = map (rendered_line ts) (filter kept es).
Proof.
  intros Hrange. apply map_ext_in. intros e He.
  apply filter_In in He as [He _]. apply formatted_line_exact.
  intros Hts. now apply Hrange.
Qed.




(* ================================================================== *)
(** * [_build_markdown_output] *)
(* ================================================================== *)

Lemma str_take_length (n : nat) (s : string) :
  String.length (str_take n s) = Nat.min n (String.length s).
Proof.
  revert s; induction n as [|n IH]; intros [|c s]; simpl; auto.
Qed.

Lemma str_take_drop (n : nat) (s : string) : str_take n s ++ str_drop n s = s.
Proof.
  revert s; induction n as [|n IH]; intros [|c s]; simpl; auto.
  now rewrite IH.
Qed.

(** C5.  The builder returns the assembled string through the size
    bound.  A string longer than the ceiling of 200,000 characters is cut
    to its first 200,000 characters, whatever they are, and the marker
    is appended, so the length is the ceiling plus the marker's 46; a
    string of at most the ceiling is returned as it is.  A string of
    250,000 characters ends at 200,046. *)
Theorem truncation_spec (E : Env) (metadata : Metadata) (transcript_text : string)
  (transcript_info : TranscriptInfo) (video_id : string) :
  _build_markdown_output E metadata transcript_text transcript_info video_id
  = (output <~ assemble_output E metadata transcript_text transcript_info
                 video_id ;;
     Ok (truncate_output output))
  /\ MAX_TRANSCRIPT_CHARS = 200000%N
  /\ String.length truncation_marker = 46%nat
  /\ (forall output : string,
        ((max_chars < String.length output)%nat ->
         truncate_output output = str_take max_chars output ++ truncation_marker
         /\ String.length (str_take max_chars output) = max_chars
         /\ output = str_take max_chars output ++ str_drop max_chars output
         /\ String.length (truncate_output output)
            = (max_chars + String.length truncation_marker)%nat)
        /\ ((String.length output <= max_chars)%nat ->
            truncate_output output = output))
  /\ (forall output : string,
        N.of_nat (String.length output) = 250000%N ->
        N.of_nat (String.length (truncate_output output)) = 200046%N).
Proof.
  split; [reflexivity|]. split; [reflexivity|]. split; [reflexivity|].
  assert (Hcut : forall m output,
            (N.to_nat m < String.length output)%nat ->
            String.length (str_take (N.to_nat m) output ++ truncation_marker)
            = (N.to_nat m + String.length truncation_marker)%nat).
  { intros m output Hlen. rewrite str_app_length, str_take_length. lia. }
  split.
  - intros output. unfold truncate_output, max_chars.
    generalize MAX_TRANSCRIPT_CHARS as m. intros m. split.
    + intros Hlen.
      destruct (N.ltb_spec m (N.of_nat (String.length output))) as [_|H]; [|lia].
      repeat split.
      * rewrite str_take_length. lia.
      * now rewrite str_take_drop.
      * now apply Hcut.
    + intros Hlen.
      destruct (N.ltb_spec m (N.of_nat (String.length output)))
        as [H|_]; [lia | reflexivity].
  - intros output Hlen. unfold truncate_output.
    destruct (N.ltb_spec MAX_TRANSCRIPT_CHARS (N.of_nat (String.length output)))
      as [_|H]; [|rewrite Hlen in H; unfold MAX_TRANSCRIPT_CHARS in H; lia].
    rewrite Hcut by (unfold MAX_TRANSCRIPT_CHARS; lia).
    change (String.length truncation_marker) with 46%nat.
    unfold MAX_TRANSCRIPT_CHARS. lia.
Qed.

Lemma truthy_str (d : string) : d <> "" -> truthy (JStr d) = true.
Proof. intros H. simpl. apply negb_true_iff. now apply String.eqb_neq. Qed.

Lemma dict_get_lookup (md : Metadata) (key : string) (v default : json) :
  dict_lookup md key = Some v -> dict_get md key default = v.
Proof. unfold dict_get. now intros ->. Qed.

(** C9 (as amended).  For a metadata record whose [upload_date] is a
    non-empty string, the builder emits one [upload_date] field: the
    value cut as [YYYY-MM-DD] (characters 1-4, 5-6 and the rest, joined
    by dashes) exactly when the value has 8 characters, digits or not,
    and the value as it is otherwise.  An 8-digit [YYYYMMDD] thus becomes
    [YYYY-MM-DD]. *)
Theorem upload_date_by_length (E : Env) (metadata : Metadata) (d : string)
  (Hd : dict_lookup metadata "upload_date" = Some (JStr d)) (Hne : d <> "") :
  (String.length d = 8%nat ->
   upload_date_fields E metadata
   = Ok ["upload_date: " ++ str_take 4 d ++ "-" ++ str_take 2 (str_drop 4 d)
         ++ "-" ++ str_drop 6 d])
  /\ (String.length d <> 8%nat ->
      upload_date_fields E metadata = Ok ["upload_date: " ++ d])
  /\ (forall y m dd, String.length y = 4%nat -> String.length m = 2%nat ->
        String.length dd = 2%nat -> d = y ++ m ++ dd ->
        upload_date_fields E metadata
        = Ok ["upload_date: " ++ y ++ "-" ++ m ++ "-" ++ dd])
  /\ (forall transcript_info video_id,
        frontmatter_fields E metadata transcript_info video_id
        = (u <~ upload_date_fields E metadata ;;
           dur <~ duration_fields E metadata ;;
           Ok (base_fields E metadata transcript_info video_id ++ u ++ dur)%list)).
Proof.
  assert (Hlen8 : String.length d = 8%nat ->
     upload_date_fields E metadata
     = Ok ["upload_date: " ++ str_take 4 d ++ "-" ++ str_take 2 (str_drop 4 d)
           ++ "-" ++ str_drop 6 d]).
  { intros Hl. unfold upload_date_fields.
    rewrite (dict_get_lookup _ _ _ _ Hd), (truthy_str d Hne).
    cbn [py_len exc_bind]. rewrite Hl. reflexivity. }
  split; [exact Hlen8|]. split; [|split].
  - intros Hl. unfold upload_date_fields.
    rewrite (dict_get_lookup _ _ _ _ Hd), (truthy_str d Hne).
    cbn [py_len exc_bind]. apply Nat.eqb_neq in Hl. now rewrite Hl.
  - intros y m dd Hy Hm Hdd ->. rewrite Hlen8.
    + destruct y as [|y1 [|y2 [|y3 [|y4 [|]]]]]; try discriminate.
      destruct m as [|m1 [|m2 [|]]]; try discriminate.
      reflexivity.
    + rewrite !str_app_length. lia.
  - reflexivity.
Qed.

Lemma upload_date_by_length_witness :
  upload_date_fields offline [("upload_date", JStr "20240105")]
  = Ok ["upload_date: 2024-01-05"].
Proof.
  apply (proj1 (upload_date_by_length offline
                  [("upload_date", JStr "20240105")] "20240105"
                  eq_refl ltac:(discriminate))).
  reflexivity.
Defined.

(** C9, the claim as stated fails on a value of 8 characters that are
    not all digits: it is cut and dashed, not passed through. *)
Lemma upload_date_eight_chars_not_digits :
  eight_digits "2024-1-5" = false
  /\ upload_date_fields offline [("upload_date", JStr "2024-1-5")]
     = Ok ["upload_date: 2024--1--5"]
  /\ "upload_date: 2024--1--5" <> "upload_date: " ++ "2024-1-5".
Proof. repeat split; [discriminate]. Qed.

(** C10.  The optional fields follow the truth value of the metadata
    entry: no [upload_date] field for a falsy value, the empty string in
    particular, and no [duration] field for a falsy value, a duration of
    0 in particular; when the builder succeeds, a field is absent exactly
    when the value is falsy.  With both, the header has its six fixed
    fields only. *)
Theorem optional_fields_need_truthy (E : Env) (metadata : Metadata) :
  (truthy (dict_get metadata "upload_date" JNull) = false ->
   upload_date_fields E metadata = Ok [])
  /\ (truthy (dict_get metadata "duration_seconds" JNull) = false ->
      duration_fields E metadata = Ok [])
  /\ (forall l, upload_date_fields E metadata = Ok l ->
        (l = [] <-> truthy (dict_get metadata "upload_date" JNull) = false))
  /\ (forall l, duration_fields E metadata = Ok l ->
        (l = [] <-> truthy (dict_get metadata "duration_seconds" JNull) = false))
  /\ truthy (JStr "") = false /\ truthy (JInt 0) = false
  /\ truthy (JFloat 0) = false /\ truthy JNull = false
  /\ (forall transcript_info video_id,
        dict_lookup metadata "upload_date" = Some (JStr "") ->
        dict_lookup metadata "duration_seconds" = Some (JInt 0) ->
        frontmatter_fields E metadata transcript_info video_id
        = Ok (base_fields E metadata transcript_info video_id)).
Proof.
  split; [|split; [|split; [|split; [|split; [|split; [|split; [|split]]]]]]];
    try reflexivity.
  - unfold upload_date_fields. now intros ->.
  - unfold duration_fields. now intros ->.
  - intros l. unfold upload_date_fields.
    destruct (truthy (dict_get metadata "upload_date" JNull)).
    + destruct (py_len _) as [n|]; [|discriminate]. cbn [exc_bind].
      destruct (Nat.eqb n 8).
      * destruct (py_slice _ 0 _); [|discriminate]. cbn [exc_bind].
        destruct (py_slice _ 4 _); [|discriminate]. cbn [exc_bind].
        destruct (py_slice _ 6 _); [|discriminate]. cbn [exc_bind].
        intros [= <-]. split; discriminate.
      * intros [= <-]. split; discriminate.
    + intros [= <-]. tauto.
  - intros l. unfold duration_fields.
    destruct (truthy (dict_get metadata "duration_seconds" JNull)).
    + destruct (py_int _ _); [|discriminate]. cbn [exc_bind].
      intros [= <-]. split; discriminate.
    + intros [= <-]. tauto.
  - intros info vid Hu Hdur. unfold frontmatter_fields, upload_date_fields, duration_fields.
    rewrite (dict_get_lookup _ _ _ _ Hu), (dict_get_lookup _ _ _ _ Hdur).
    cbn [truthy String.eqb negb Z.eqb exc_bind]. now rewrite !app_nil_r.
Qed.

(* ================================================================== *)
(** * Temporary files of [_get_transcript_via_ytdlp] *)
(* ================================================================== *)

Section Cleanup.
Variable E : Env.

Lemma os_remove_ok (path : string) (w w' : World) :
  os_remove E path w = (Ok tt, w') ->
  forall f, In f (fs w') <-> In f (fs w) /\ fst f <> path.
Proof.
  unfold os_remove. destruct (read_file (fs w) path); [|discriminate].
  intros [= <-] f. simpl. rewrite filter_In, negb_true_iff, String.eqb_neq.
  reflexivity.
Qed.

Lemma remove_each_ok (paths : list string) (w w' : World) :
  remove_each E paths w = (Ok tt, w') ->
  forall f, In f (fs w') -> In f (fs w) /\ ~ In (fst f) paths.
Proof.
  revert w. induction paths as [|p paths IH]; intros w; cbn [remove_each].
  - intros [= <-] f Hf. auto.
  - unfold bind. destruct (os_remove E p w) as [[[]|e] w1] eqn:Hrm; [|discriminate].
    intros H f Hf. destruct (IH _ H f Hf) as [Hin Hnot].
    destruct (proj1 (os_remove_ok _ _ _ Hrm f) Hin) as [Hin' Hne].
    split; [assumption|].
    intros [Heq|Hp]; [apply Hne; now rewrite Heq | now apply Hnot].
Qed.

Lemma sub_flag_loop_cleans (vid : string) (langs flags : list string)
  (w w' : World) (info : TranscriptInfo) :
  sub_flag_loop E vid langs flags w = (Ok info, w') ->
  subtitle_files vid w' = [].
Proof.
  revert w. induction flags as [|flag flags IH]; intros w; cbn [sub_flag_loop];
    [discriminate|].
  unfold bind at 1.
  destruct (run E _ 30 w) as [[result|e] w1]; [|discriminate].
  destruct (negb (returncode result =? 0)%Z); [apply IH|].
  unfold bind at 1. unfold glob_subs at 1.
  destruct (map fst _) as [|first rest] eqn:Hglob; [apply IH|].
  unfold bind at 1.
  destruct (open_json_load E first w1) as [[sub_data|e] w2] eqn:Hopen;
    [|discriminate].
  assert (Hfs : fs w2 = fs w1).
  { unfold open_json_load in Hopen.
    destruct (read_file (fs w1) first); now injection Hopen as _ <-. }
  unfold bind at 1.
  destruct (remove_each E (first :: rest) w2) as [[[]|e] w3] eqn:Hrm;
    [|discriminate].
  unfold bind, lift, ret.
  destruct (parse_json3 E sub_data) as [es|e]; [|discriminate].
  intros [= _ <-]. fold (subtitle_files vid w3).
  destruct (subtitle_files vid w3) as [|f fs'] eqn:Hf; [reflexivity|].
  exfalso.
  assert (Hin : In f (subtitle_files vid w3)) by (rewrite Hf; now left).
  apply filter_In in Hin as [Hin Hm].
  destruct (remove_each_ok _ _ _ Hrm f Hin) as [Hin2 Hnot].
  apply Hnot. rewrite <- Hglob. apply in_map. apply filter_In.
  rewrite <- Hfs. auto.
Qed.

Lemma ytdlp_success_cleans (vid : string) (langs : list string) (w w' : World)
  (info : TranscriptInfo) :
  _get_transcript_via_ytdlp E vid langs w = (Ok info, w') ->
  subtitle_files vid w' = [].
Proof.
  unfold _get_transcript_via_ytdlp, bind at 1, enter.
  destruct (negb (which E "yt-dlp")); [discriminate|].
  apply sub_flag_loop_cleans.
Qed.
End Cleanup.

(** C6, on the code: the tool exits with status 0 and leaves a subtitle
    file that is not JSON.  [json.load] raises before the loop that
    removes the files is reached, and the file is still there when the
    backend has raised. *)
Lemma ytdlp_leaves_file_on_parse_failure :
  _get_transcript_via_ytdlp cli_broken_subs rick ["en"] initial_world
  = (Raise (Exn "JSONDecodeError" "Expecting value: line 1 column 1 (char 0)"),
     mkWorld [(rick_subs_path, "<!DOCTYPE html>")] [YtdlpCaptions])
  /\ subtitle_files rick
       (snd (_get_transcript_via_ytdlp cli_broken_subs rick ["en"] initial_world))
     = [(rick_subs_path, "<!DOCTYPE html>")].
Proof. split; vm_compute; reflexivity. Qed.

(* ================================================================== *)
(** * Metadata acquisition *)
(* ================================================================== *)

(** The info-dump backend returns a record whatever happens, so the
    handler that would call the page scrape is never entered. *)
Lemma scrape_backend_unreachable (E : Env) (video_id : string) (include : bool)
  (w : World) :
  exists md w',
    fetch_metadata E video_id include w = (Ok md, w')
    /\ ~ In ScrapeMetadata (skipn (List.length (invoked w)) (invoked w')).
Proof.
  destruct (fetch_metadata_total E video_id include w) as (md & w' & H & Hinv).
  exists md, w'. split; [assumption|]. rewrite Hinv.
  rewrite skipn_app, skipn_all, Nat.sub_diag. simpl.
  destruct include; simpl; intuition discriminate.
Qed.

(** C7, on the code: [yt-dlp] is not installed and the watch page is
    reachable.  The scrape backend would return the page's title and
    author; the request never calls it and the document says
    [Unknown]. *)
Lemma metadata_fallback_never_runs :
  fst (_get_metadata_via_api captions_and_page rick initial_world)
  = Ok [("title", JStr "Never Gonna Give You Up");
        ("author", JStr "Rick Astley"); ("video_id", JStr rick)]
  /\ fetch_metadata captions_and_page rick true initial_world
     = (Ok (unknown_metadata rick), mkWorld [] [YtdlpMetadata])
  /\ exists doc w',
       youtube_get_transcript captions_and_page short_link_request initial_world
       = (Ok doc, w')
       /\ invoked w' = [ApiCaptions; YtdlpMetadata]
       /\ firstn 3 (split_lines doc)
          = ["---"; "title: " ++ quoted "Unknown"; "author: " ++ quoted "Unknown"].
Proof.
  split; [vm_compute; reflexivity|]. split; [vm_compute; reflexivity|].
  eexists. eexists. split; [vm_compute; reflexivity|].
  split; vm_compute; reflexivity.
Qed.

(* ================================================================== *)
(** * Trimming, and [_extract_video_id] on other inputs *)
(* ================================================================== *)

(** ** Stripping *)

Lemma lstrip_as_chars (s : string) : lstrip s = lstrip_chars is_space s.
Proof. induction s as [|c s IH]; simpl; [reflexivity|]. now rewrite IH. Qed.

Lemma rstrip_as_chars (s : string) : rstrip s = rstrip_chars is_space s.
Proof. induction s as [|c s IH]; simpl; [reflexivity|]. now rewrite IH. Qed.

Section StripChars.
Variable p : ascii -> bool.

Lemma rstrip_chars_app (a b : string) :
  rstrip_chars p (a ++ b)
  = match rstrip_chars p b with
    | EmptyString => rstrip_chars p a
    | r => a ++ r
    end.
Proof.
  induction a as [|c a IH]; simpl.
  - now destruct (rstrip_chars p b).
  - rewrite IH. destruct (rstrip_chars p b) as [|d r]; [reflexivity|].
    now destruct a.
Qed.

Lemma rstrip_chars_idem (s : string) :
  rstrip_chars p (rstrip_chars p s) = rstrip_chars p s.
Proof.
  induction s as [|c s IH]; simpl; [reflexivity|].
  destruct (rstrip_chars p s) as [|d r] eqn:Hr.
  - destruct (p c) eqn:Hc; simpl; [reflexivity | now rewrite Hc].
  - change (String c (String d r)) with (String c "" ++ String d r).
    rewrite rstrip_chars_app, IH. reflexivity.
Qed.

Lemma lstrip_chars_idem (s : string) :
  lstrip_chars p (lstrip_chars p s) = lstrip_chars p s.
Proof.
  induction s as [|c s IH]; simpl; [reflexivity|].
  destruct (p c) eqn:Hc; [exact IH | simpl; now rewrite Hc].
Qed.

(** What [rstrip] removes is a run of characters of the set. *)
Lemma rstrip_chars_split (s : string) :
  exists ws, s = rstrip_chars p s ++ ws /\ all_chars p ws = true.
Proof.
  induction s as [|c s (ws & Hs & Hws)]; simpl; [now exists ""|].
  destruct (rstrip_chars p s) as [|d r] eqn:Hr.
  - simpl in Hs. subst ws. destruct (p c) eqn:Hc.
    + exists (String c s). simpl. now rewrite Hc.
    + exists s. simpl. auto.
  - exists ws. split; [|assumption]. simpl. now rewrite Hs at 1.
Qed.

Lemma lstrip_chars_split (s : string) :
  exists ws, s = ws ++ lstrip_chars p s /\ all_chars p ws = true.
Proof.
  induction s as [|c s (ws & Hs & Hws)]; simpl; [now exists ""|].
  destruct (p c) eqn:Hc.
  - exists (String c ws). simpl. rewrite Hc. split; [now rewrite Hs at 1 | assumption].
  - now exists "".
Qed.

(** Right stripping commutes with left stripping. *)
Lemma rstrip_lstrip_chars (s : string) :
  rstrip_chars p (lstrip_chars p s) = lstrip_chars p (rstrip_chars p s).
Proof.
  induction s as [|c s IH]; simpl; [reflexivity|].
  destruct (p c) eqn:Hc.
  - rewrite IH. destruct (rstrip_chars p s) as [|d r]; simpl; now rewrite ?Hc.
  - simpl. destruct (rstrip_chars p s) as [|d r]; simpl; now rewrite Hc.
Qed.
End StripChars.

Lemma strip_idem (s : string) : strip (strip s) = strip s.
Proof.
  unfold strip. rewrite !lstrip_as_chars, !rstrip_as_chars.
  rewrite (rstrip_lstrip_chars is_space s), lstrip_chars_idem.
  rewrite <- (rstrip_lstrip_chars is_space s), rstrip_chars_idem. reflexivity.
Qed.

(** ** The extractor on other inputs *)

Lemma video_id_rstrip_app (g suf : string) :
  is_video_id g -> rstrip (g ++ suf) = g ++ rstrip suf.
Proof.
  intros Hid. rewrite !rstrip_as_chars, rstrip_chars_app.
  rewrite <- !rstrip_as_chars.
  destruct (rstrip suf); [|reflexivity].
  now rewrite (video_id_rstrip g Hid), str_app_nil_r.
Qed.

Lemma strip_url_tail (a g suf : string) :
  lstrip (a ++ g ++ suf) = a ++ g ++ suf -> is_video_id g ->
  strip (a ++ g ++ suf) = a ++ g ++ rstrip suf.
Proof.
  intros Hl Hid. unfold strip. rewrite Hl.
  rewrite rstrip_as_chars, rstrip_chars_app, <- !rstrip_as_chars.
  rewrite (video_id_rstrip_app g suf Hid).
  destruct (g ++ rstrip suf) eqn:Hg; [|reflexivity].
  destruct g; [destruct Hid; discriminate | discriminate].
Qed.

Section Tail.
Variable repr : string -> string.
Variable g suf : string.
Hypothesis Hid : is_video_id g.

Lemma match_here_literal_tail (lead : string) :
  alt_watch (lead ++ g ++ suf) = None ->
  In lead ["youtu.be/"; "youtube.com/embed/"; "youtube.com/v/";
           "youtube.com/shorts/"] ->
  match_here (lead ++ g ++ suf) = Some g.
Proof.
  intros Hw Hin. unfold match_here. rewrite Hw.
  destruct Hin as [<-|[<-|[<-|[<-|[]]]]];
    now rewrite (alt_literal_app _ g suf Hid).
Qed.

Lemma extract_url_tail (pre lead : string) :
  lstrip ((pre ++ lead) ++ g ++ suf) = (pre ++ lead) ++ g ++ suf ->
  all_chars (fun c => negb ("y" =? c)%char) pre = true ->
  (forall t, match_here (lead ++ g ++ t) = Some g) ->
  _extract_video_id repr ((pre ++ lead) ++ g ++ suf) = Ok g.
Proof.
  intros Hl Hpre Hm. unfold _extract_video_id.
  rewrite strip_url_tail by assumption.
  now rewrite str_app_assoc, (re_search_lead _ _ g Hpre (Hm _)).
Qed.
End Tail.

(** X1.  For the four path shapes, whatever follows the 11 characters of
    the identifier is ignored: a query string, a fragment, further
    characters of the alphabet or any other text. *)
Theorem extract_ignores_what_follows (repr : string -> string) (g suf : string)
  (Hid : is_video_id g) :
  _extract_video_id repr ("https://youtu.be/" ++ g ++ suf) = Ok g
  /\ _extract_video_id repr ("https://www.youtube.com/embed/" ++ g ++ suf) = Ok g
  /\ _extract_video_id repr ("https://www.youtube.com/v/" ++ g ++ suf) = Ok g
  /\ _extract_video_id repr ("https://www.youtube.com/shorts/" ++ g ++ suf) = Ok g.
Proof.
  repeat split.
  - apply (extract_url_tail repr g suf Hid "https://" "youtu.be/");
      [reflexivity | reflexivity |].
    intros t. apply match_here_literal_tail; [assumption | reflexivity | simpl; auto].
  - apply (extract_url_tail repr g suf Hid "https://www." "youtube.com/embed/");
      [reflexivity | reflexivity |].
    intros t. apply match_here_literal_tail; [assumption | reflexivity | simpl; auto].
  - apply (extract_url_tail repr g suf Hid "https://www." "youtube.com/v/");
      [reflexivity | reflexivity |].
    intros t. apply match_here_literal_tail; [assumption | reflexivity | simpl; auto].
  - apply (extract_url_tail repr g suf Hid "https://www." "youtube.com/shorts/");
      [reflexivity | reflexivity |].
    intros t. apply match_here_literal_tail; [assumption | reflexivity | simpl; auto 6].
Qed.

Lemma extract_ignores_what_follows_witness :
  _extract_video_id (repr_str offline) "https://youtu.be/dQw4w9WgXcQ?t=42"
  = Ok "dQw4w9WgXcQ".
Proof.
  apply (extract_ignores_what_follows (repr_str offline) "dQw4w9WgXcQ" "?t=42").
  split; reflexivity.
Defined.

(** ** Watch links with other parameters *)

Lemma starts_with_app (p a b : string) :
  starts_with p a = true -> starts_with p (a ++ b) = true.
Proof.
  unfold starts_with. revert a.
  induction p as [|x p IH]; intros a; simpl; [reflexivity|].
  destruct a as [|y a]; simpl; [discriminate|].
  destruct (x =? y)%char; [apply IH | discriminate].
Qed.

Lemma has_substring_app_l (p a b : string) :
  has_substring p (a ++ b) = false -> has_substring p a = false.
Proof.
  induction a as [|c a IH]; simpl; intros H.
  - destruct (starts_with p "") eqn:Hs; [|reflexivity].
    apply (starts_with_app p "" b) in Hs. simpl in Hs.
    destruct b; simpl in H; rewrite Hs in H; discriminate.
  - apply orb_false_iff in H as [H1 H2].
    rewrite (IH H2), orb_false_r.
    destruct (starts_with p (String c a)) eqn:Hs; [|reflexivity].
    apply (starts_with_app p (String c a) b) in Hs. simpl in Hs. congruence.
Qed.

Lemma no_equals_no_v (s : string) :
  all_chars (fun c => negb (c =? "=")%char) s = true ->
  has_substring "v=" s = false.
Proof.
  induction s as [|c s IH]; [reflexivity|].
  cbn [all_chars has_substring]. intros H.
  apply andb_true_iff in H as [Hc Hs].
  rewrite (IH Hs), orb_false_r. unfold starts_with. cbn [strip_prefix].
  destruct ("v" =? c)%char; [|reflexivity].
  destruct s as [|d s]; [reflexivity|]. cbn [all_chars] in Hs.
  apply andb_true_iff in Hs as [Hd _].
  rewrite Ascii.eqb_sym. now destruct (d =? "=")%char.
Qed.

Lemma id_char_not_equals (c : ascii) :
  is_id_char c = true -> negb (c =? "=")%char = true.
Proof.
  intros H. destruct (c =? "=")%char eqn:Hc; [|reflexivity].
  apply Ascii.eqb_eq in Hc. subst c. discriminate.
Qed.

Lemma dotstar_greedy (k : string -> option string) (m t g : string) :
  no_newline m -> dotstar_then k t = Some g ->
  dotstar_then k (m ++ t) = Some g.
Proof.
  unfold no_newline. intros Hm Ht.
  induction m as [|c m IH]; simpl; [assumption|].
  simpl in Hm. apply orb_false_iff in Hm as [Hc Hm].
  now rewrite Hc, (IH Hm).
Qed.

Lemma no_v_no_watch_tail (s : string) :
  has_substring "v=" s = false -> dotstar_then watch_tail s = None.
Proof.
  assert (Hk : forall t, starts_with "v=" t = false -> watch_tail t = None).
  { intros t. unfold starts_with, watch_tail.
    now destruct (strip_prefix "v=" t). }
  induction s as [|c s IH]; intros H.
  - reflexivity.
  - cbn [has_substring] in H. apply orb_false_iff in H as [H1 H2].
    cbn [dotstar_then]. rewrite (IH H2), (Hk _ H1).
    now destruct (c =? nl)%char.
Qed.

Lemma watch_tail_last (g suf : string) :
  is_video_id g -> has_substring "v=" (g ++ suf) = false ->
  dotstar_then watch_tail ("v=" ++ g ++ suf) = Some g.
Proof.
  intros Hid Hno.
  change ("v=" ++ g ++ suf) with (String "v" (String "=" (g ++ suf))).
  cbn [dotstar_then].
  change ("v" =? nl)%char with false. cbv iota.
  rewrite no_v_no_watch_tail.
  - unfold watch_tail. simpl. now apply group1_video_id.
  - cbn [has_substring]. now rewrite Hno.
Qed.

Lemma match_here_watch_parameters (m g suf : string) :
  no_newline m -> is_video_id g -> has_substring "v=" (g ++ suf) = false ->
  match_here ("youtube.com/watch?" ++ m ++ "v=" ++ g ++ suf) = Some g.
Proof.
  intros Hm Hid Hno. unfold match_here, alt_watch.
  rewrite strip_prefix_app.
  now rewrite (dotstar_greedy watch_tail m _ g Hm (watch_tail_last g suf Hid Hno)).
Qed.

Lemma extract_watch_parameters (repr : string -> string) (m g suf : string) :
  no_newline m -> is_video_id g -> has_substring "v=" (g ++ suf) = false ->
  _extract_video_id repr
    ("https://www.youtube.com/watch?" ++ m ++ "v=" ++ g ++ suf) = Ok g.
Proof.
  intros Hm Hid Hno. unfold _extract_video_id.
  replace ("https://www.youtube.com/watch?" ++ m ++ "v=" ++ g ++ suf)
    with (("https://www.youtube.com/watch?" ++ m ++ "v=") ++ g ++ suf)
    by (simpl; now rewrite !str_app_assoc).
  rewrite strip_url_tail by (reflexivity || assumption).
  replace (("https://www.youtube.com/watch?" ++ m ++ "v=") ++ g ++ rstrip suf)
    with ("https://www." ++ "youtube.com/watch?" ++ m ++ "v=" ++ g ++ rstrip suf)
    by (simpl; now rewrite !str_app_assoc).
  rewrite (re_search_lead "https://www." _ g); [reflexivity | reflexivity |].
  apply match_here_watch_parameters; [assumption | assumption |].
  rewrite rstrip_as_chars.
  destruct (rstrip_chars_split is_space suf) as (ws & Hsuf & _).
  apply (has_substring_app_l "v=" _ ws).
  now rewrite str_app_assoc, <- Hsuf.
Qed.

(** X2.  A watch link may carry other parameters before and after [v]:
    the identifier returned is the one that follows the last [v=] of the
    line.  The text [m] between [watch?] and that [v=] is any text without
    a line break, and no [v=] occurs from the identifier on.  With two
    [v] parameters the second one is returned. *)
Theorem watch_link_last_v_wins (repr : string -> string) :
  (forall m g suf,
     no_newline m -> is_video_id g -> has_substring "v=" (g ++ suf) = false ->
     _extract_video_id repr
       ("https://www.youtube.com/watch?" ++ m ++ "v=" ++ g ++ suf) = Ok g)
  /\ (forall g1 g2,
        is_video_id g1 -> is_video_id g2 ->
        _extract_video_id repr
          ("https://www.youtube.com/watch?v=" ++ g1 ++ "&v=" ++ g2) = Ok g2).
Proof.
  split; [apply extract_watch_parameters|].
  intros g1 g2 H1 H2.
  replace ("https://www.youtube.com/watch?v=" ++ g1 ++ "&v=" ++ g2)
    with ("https://www.youtube.com/watch?" ++ ("v=" ++ g1 ++ "&") ++ "v=" ++ g2 ++ "")
    by (simpl; rewrite str_app_assoc; simpl; now rewrite str_app_nil_r).
  apply extract_watch_parameters.
  - apply no_newline_app; [reflexivity|].
    apply no_newline_app; [now apply video_id_no_newline | reflexivity].
  - assumption.
  - rewrite str_app_nil_r. apply no_equals_no_v. destruct H2 as [_ H2].
    exact (all_chars_impl _ _ g2 id_char_not_equals H2).
Qed.

(** ** Inputs that are too short *)

(** X3.  An input whose trimmed form has fewer than 20 characters, and not
    exactly 11, is rejected with the [ValueError] of the extractor: the
    shortest link the pattern matches has 20 characters, and a bare
    identifier has 11. *)
Theorem short_input_is_rejected (repr : string -> string) (raw : string)
  (Hlen : (String.length (strip raw) < 20)%nat)
  (Hne : String.length (strip raw) <> 11%nat) :
  _extract_video_id repr raw = Raise (invalid_identifier repr (strip raw)).
Proof.
  unfold _extract_video_id.
  rewrite re_search_short by assumption.
  destruct (fullmatch_id (strip raw)) eqn:Hf; [|reflexivity].
  apply fullmatch_id_iff in Hf as [Hl _]. contradiction.
Qed.

Lemma short_input_is_rejected_witness :
  _extract_video_id (repr_str offline) "  youtu.be/abc "
  = Raise (invalid_identifier (repr_str offline) "youtu.be/abc").
Proof.
  apply (short_input_is_rejected (repr_str offline) "  youtu.be/abc ");
    vm_compute; [lia | discriminate].
Defined.

(** ** The validator of the [url] field *)

Lemma lstrip_chars_app (p : ascii -> bool) (u b : string) :
  lstrip_chars p (u ++ b)
  = match lstrip_chars p u with
    | EmptyString => lstrip_chars p b
    | r => r ++ b
    end.
Proof.
  induction u as [|c u IH]; simpl.
  - now destruct (lstrip_chars p b).
  - destruct (p c); [exact IH | reflexivity].
Qed.

Lemma strip_bracketed (u : string) : strip ("<" ++ u ++ ">") = "<" ++ u ++ ">".
Proof.
  unfold strip. change (lstrip ("<" ++ u ++ ">")) with ("<" ++ u ++ ">").
  rewrite rstrip_as_chars.
  change ("<" ++ u ++ ">") with (String "<" (u ++ ">")).
  change (String "<" (u ++ ">")) with ("<" ++ (u ++ ">")).
  rewrite <- str_app_assoc, rstrip_chars_app. reflexivity.
Qed.

Lemma validate_url_bracketed (u : string) :
  validate_url ("<" ++ u ++ ">")
  = rstrip_chars is_angle_bracket (lstrip_chars is_angle_bracket u).
Proof.
  unfold validate_url. rewrite strip_bracketed.
  change (lstrip_chars is_angle_bracket ("<" ++ u ++ ">"))
    with (lstrip_chars is_angle_bracket (u ++ ">")).
  rewrite lstrip_chars_app.
  destruct (lstrip_chars is_angle_bracket u) as [|c r] eqn:Hu; [reflexivity|].
  now rewrite rstrip_chars_app.
Qed.

(** X4.  A link pasted between angle brackets is unwrapped by the validator
    of the [url] field: when [u] neither starts nor ends with an angle
    bracket, [<u>] is validated to [u], whatever else [u] contains, and
    the extractor then answers on it as on [u]. *)
Theorem bracketed_link_is_unwrapped (repr : string -> string) (u : string)
  (Hl : lstrip_chars is_angle_bracket u = u)
  (Hr : rstrip_chars is_angle_bracket u = u) :
  validate_url ("<" ++ u ++ ">") = u
  /\ _extract_video_id repr (validate_url ("<" ++ u ++ ">"))
     = _extract_video_id repr u.
Proof.
  assert (H : validate_url ("<" ++ u ++ ">") = u)
    by now rewrite validate_url_bracketed, Hl, Hr.
  now rewrite H.
Qed.

Lemma bracketed_link_is_unwrapped_witness :
  validate_url "<https://youtu.be/dQw4w9WgXcQ>" = "https://youtu.be/dQw4w9WgXcQ"
  /\ _extract_video_id (repr_str offline)
       (validate_url "<https://youtu.be/dQw4w9WgXcQ>")
     = _extract_video_id (repr_str offline) "https://youtu.be/dQw4w9WgXcQ".
Proof.
  apply (bracketed_link_is_unwrapped (repr_str offline)
           "https://youtu.be/dQw4w9WgXcQ"); reflexivity.
Defined.

Lemma watch_link_last_v_wins_witness :
  _extract_video_id (repr_str offline)
    "https://www.youtube.com/watch?list=PL123&v=dQw4w9WgXcQ&t=42s"
  = Ok "dQw4w9WgXcQ".
Proof.
  apply (proj1 (watch_link_last_v_wins (repr_str offline))
           "list=PL123&" "dQw4w9WgXcQ" "&t=42s");
    [reflexivity | split; reflexivity | reflexivity].
Defined.

(** ** White space around the input *)

Lemma lstrip_chars_all (p : ascii -> bool) (ws s : string) :
  all_chars p ws = true -> lstrip_chars p (ws ++ s) = lstrip_chars p s.
Proof.
  induction ws as [|c ws IH]; simpl; [reflexivity|].
  intros H. apply andb_true_iff in H as [Hc Hws]. now rewrite Hc, IH.
Qed.

Lemma rstrip_chars_all (p : ascii -> bool) (ws : string) :
  all_chars p ws = true -> rstrip_chars p ws = "".
Proof.
  induction ws as [|c ws IH]; simpl; [reflexivity|].
  intros H. apply andb_true_iff in H as [Hc Hws]. now rewrite (IH Hws), Hc.
Qed.

Lemma strip_padded (ws1 ws2 s : string) :
  all_chars is_space ws1 = true -> all_chars is_space ws2 = true ->
  strip (ws1 ++ s ++ ws2) = strip s.
Proof.
  intros H1 H2. unfold strip. rewrite !lstrip_as_chars, !rstrip_as_chars.
  rewrite (lstrip_chars_all _ _ _ H1).
  rewrite !rstrip_lstrip_chars, rstrip_chars_app.
  now rewrite (rstrip_chars_all _ _ H2).
Qed.

(** X5.  White space around the input never matters: the extractor
    answers on an input padded with white space on either side, and on
    the trimmed input, as it does on the input itself, with the same
    identifier or the same error. *)
Theorem surrounding_space_is_ignored (repr : string -> string)
  (ws1 ws2 raw : string)
  (H1 : all_chars is_space ws1 = true) (H2 : all_chars is_space ws2 = true) :
  _extract_video_id repr (ws1 ++ raw ++ ws2) = _extract_video_id repr raw
  /\ _extract_video_id repr (strip raw) = _extract_video_id repr raw.
Proof.
  unfold _extract_video_id. now rewrite strip_padded, strip_idem.
Qed.

Lemma surrounding_space_is_ignored_witness :
  _extract_video_id (repr_str offline)
    ("  " ++ "https://youtu.be/dQw4w9WgXcQ" ++ String nl "")
  = _extract_video_id (repr_str offline) "https://youtu.be/dQw4w9WgXcQ".
Proof.
  apply (surrounding_space_is_ignored (repr_str offline) "  " (String nl "")
           "https://youtu.be/dQw4w9WgXcQ"); reflexivity.
Defined.

(** X6.  What the validator returns neither starts nor ends with an angle
    bracket, whatever the input and however many brackets surround it. *)
Theorem validated_url_has_no_outer_bracket (v : string) :
  lstrip_chars is_angle_bracket (validate_url v) = validate_url v
  /\ rstrip_chars is_angle_bracket (validate_url v) = validate_url v.
Proof.
  unfold validate_url. split.
  - now rewrite rstrip_lstrip_chars, lstrip_chars_idem.
  - apply rstrip_chars_idem.
Qed.

(* ================================================================== *)
(** * The lines of [_format_transcript_text] *)
(* ================================================================== *)

Lemma Qfloor_unique (x : Q) (z : Z) :
  (inject_Z z <= x)%Q -> (x < inject_Z (z + 1))%Q -> Qfloor x = z.
Proof.
  intros Hlo Hhi.
  assert (H1 : (z <= Qfloor x)%Z).
  { rewrite <- (Qfloor_Z z). now apply Qfloor_resp_le. }
  assert (H2 : (Qfloor x < z + 1)%Z).
  { rewrite Zlt_Qlt. apply Qle_lt_trans with x; [apply Qfloor_le | exact Hhi]. }
  lia.
Qed.

Lemma Qfloor_minus_Z (x : Q) (n : Z) :
  Qfloor (x - inject_Z n) = (Qfloor x - n)%Z.
Proof.
  apply Qfloor_unique.
  - unfold Z.sub. rewrite inject_Z_plus, inject_Z_opp.
    apply Qplus_le_l, Qfloor_le.
  - replace (Qfloor x - n + 1)%Z with ((Qfloor x + 1) + - n)%Z by lia.
    rewrite inject_Z_plus, inject_Z_opp.
    apply Qplus_lt_l, Qlt_floor.
Qed.

Lemma minutes_and_seconds (a : Q) :
  (Qfloor (a / 60) * 60 + Qfloor (real_mod a 60) = Qfloor a)%Z.
Proof.
  unfold real_mod.
  assert (H : (a - 60 * inject_Z (Qfloor (a / 60))
               == a - inject_Z (60 * Qfloor (a / 60)))%Q).
  { rewrite inject_Z_mult. reflexivity. }
  rewrite H, Qfloor_minus_Z. lia.
Qed.

(** X7.  With timestamps, for a start time with [0 <= start < 2^53]
    seconds, the marker of a line is [[m:s]] where [60 * m + s] is the
    start time rounded down to a whole second and [0 <= s < 60]: the
    marker loses the fraction of a second and nothing else, and the
    minutes are not wrapped at an hour. *)
Theorem marker_is_start_in_whole_seconds (lines : list string) (e : Entry)
  (Hkept : kept e = true) (Hrange : exact_seconds (start e)) :
  exists m s : Z,
    format_step true lines e
    = (lines ++ [("[" ++ format_02d m ++ ":" ++ format_02d s ++ "] "
                  ++ strip (text e))%string])%list
    /\ (60 * m + s = Qfloor (start e))%Z
    /\ (0 <= s < 60)%Z.
Proof.
  exists (Qfloor (start e / 60)), (Qfloor (real_mod (start e) 60)).
  split; [|split].
  - rewrite format_step_kept, Hkept.
    rewrite (formatted_line_exact true e (fun _ => Hrange)).
    unfold rendered_line, timecode. now rewrite !str_app_assoc.
  - pose proof (minutes_and_seconds (start e)). lia.
  - apply seconds_range.
Qed.

Lemma marker_is_start_in_whole_seconds_witness :
  exists m s : Z,
    format_step true [] (mkEntry " over an hour in " (37255 # 10) 2)
    = ["[" ++ format_02d m ++ ":" ++ format_02d s ++ "] " ++ "over an hour in"]
    /\ (60 * m + s = 3725)%Z
    /\ (0 <= s < 60)%Z.
Proof.
  apply (marker_is_start_in_whole_seconds []
           (mkEntry " over an hour in " (37255 # 10) 2)).
  - reflexivity.
  - split; [discriminate | reflexivity].
Defined.

(** ** Lines and entries *)

Lemma split_lines_no_newline (a : string) :
  no_newline a -> split_lines a = [a].
Proof.
  unfold no_newline. induction a as [|c a IH]; [reflexivity|].
  cbn [str_contains_char split_lines]. intros H.
  apply orb_false_iff in H as [Hc Ha].
  now rewrite Hc, (IH Ha).
Qed.

Lemma split_lines_join (ls : list string) :
  ls <> [] -> Forall no_newline ls -> split_lines (join NL ls) = ls.
Proof.
  induction ls as [|p ls IH]; [congruence|].
  intros _ Hall. inversion Hall as [|? ? Hp Hls]; subst.
  destruct ls as [|q ls].
  - now apply split_lines_no_newline.
  - change (join NL (p :: q :: ls)) with (p ++ String nl (join NL (q :: ls))).
    rewrite (split_lines_line p _ Hp), IH; [reflexivity | discriminate | assumption].
Qed.

Lemma join_empty (sep : string) (ls : list string) :
  Forall (fun l => l <> "") ls -> join sep ls = "" -> ls = [].
Proof.
  intros Hall Hj. destruct ls as [|p ls]; [reflexivity|].
  inversion Hall as [|? ? Hp _]; subst.
  destruct p as [|c p]; [congruence|].
  destruct ls; discriminate.
Qed.

Lemma uint_no_newline (d : Decimal.uint) :
  no_newline (NilEmpty.string_of_uint d).
Proof. unfold no_newline. induction d; cbn; auto. Qed.

Lemma str_of_int_no_newline (z : Z) : no_newline (str_of_int z).
Proof.
  assert (H : forall d, no_newline (NilZero.string_of_uint d)).
  { intros d. unfold NilZero.string_of_uint.
    destruct d; try reflexivity; apply uint_no_newline. }
  unfold str_of_int, NilZero.string_of_int.
  destruct (Z.to_int z) as [d|d]; [apply H|].
  unfold no_newline. cbn [str_contains_char]. exact (H d).
Qed.

Lemma format_02d_no_newline (z : Z) : no_newline (format_02d z).
Proof.
  unfold format_02d.
  destruct (z <? 0)%Z; [apply str_of_int_no_newline|].
  destruct (z <? 10)%Z; [|apply str_of_int_no_newline].
  apply no_newline_app; [reflexivity | apply str_of_int_no_newline].
Qed.

Lemma rendered_line_no_newline (ts : bool) (e : Entry) :
  no_newline (strip (text e)) -> no_newline (rendered_line ts e).
Proof.
  intros H. unfold rendered_line, timecode. destruct ts; [|assumption].
  repeat (apply no_newline_app;
          try reflexivity; try apply format_02d_no_newline; try assumption).
Qed.

Lemma formatted_line_nonempty (ts : bool) (e : Entry) :
  kept e = true -> formatted_line ts e <> "".
Proof.
  unfold kept, formatted_line. intros H.
  destruct ts; [discriminate|].
  apply negb_true_iff, String.eqb_neq in H. exact H.
Qed.

(** X8.  The formatter returns the empty string exactly when no entry is
    kept, that is when every entry has a blank text. *)
Theorem formatted_text_empty_iff (es : list Entry) (ts : bool) :
  _format_transcript_text es ts = "" <-> filter kept es = [].
Proof.
  unfold _format_transcript_text. rewrite format_step_fold. cbn [app].
  split.
  - intros H. apply join_empty in H.
    + now destruct (filter kept es).
    + apply Forall_forall. intros l Hl.
      apply in_map_iff in Hl as (e & <- & He).
      apply filter_In in He as [_ He]. now apply formatted_line_nonempty.
  - now intros ->.
Qed.

(** X9.  When no kept entry has a line break inside its trimmed text, the
    formatted text has exactly one line per kept entry, in the order of
    the entries: splitting it at the newlines gives back the rendered
    lines.  With timestamps this is for start times with
    [0 <= start < 2^53] seconds, where the marker is the rendered one. *)
Theorem one_line_per_kept_entry (es : list Entry) (ts : bool)
  (Hsome : filter kept es <> [])
  (Hnl : forall e, In e es -> kept e = true -> no_newline (strip (text e)))
  (Hrange : ts = true -> forall e, In e es -> exact_seconds (start e)) :
  split_lines (_format_transcript_text es ts)
  = map (rendered_line ts) (filter kept es)
  /\ List.length (split_lines (_format_transcript_text es ts))
     = List.length (filter kept es).
Proof.
  assert (H : split_lines (_format_transcript_text es ts)
              = map (rendered_line ts) (filter kept es)).
  { unfold _format_transcript_text.
    rewrite format_step_fold, (formatted_lines_exact ts es Hrange). cbn [app].
    apply split_lines_join.
    - destruct (filter kept es); [congruence | discriminate].
    - apply Forall_forall. intros l Hl.
      apply in_map_iff in Hl as (e & <- & He).
      apply filter_In in He as [Hin He].
      apply rendered_line_no_newline. now apply Hnl. }
  split; [exact H|]. now rewrite H, length_map.
Qed.

Lemma one_line_per_kept_entry_witness :
  split_lines (_format_transcript_text
                 [mkEntry "never gonna" 0 2; mkEntry "   " 2 1;
                  mkEntry " give you up " (305 # 10) 2] true)
  = ["[00:00] never gonna"; "[00:30] give you up"].
Proof.
  apply (one_line_per_kept_entry
           [mkEntry "never gonna" 0 2; mkEntry "   " 2 1;
            mkEntry " give you up " (305 # 10) 2] true).
  - discriminate.
  - intros e [<-|[<-|[<-|[]]]] _; reflexivity.
  - intros _ e [<-|[<-|[<-|[]]]]; (split; [discriminate | reflexivity]).
Defined.

(* ================================================================== *)
(** * The size and the failures of [_build_markdown_output] *)
(* ================================================================== *)

Lemma truncate_output_bound (output : string) :
  (N.of_nat (String.length (truncate_output output))
   <= MAX_TRANSCRIPT_CHARS + 46)%N.
Proof.
  unfold truncate_output.
  destruct (N.ltb_spec MAX_TRANSCRIPT_CHARS (N.of_nat (String.length output)))
    as [H|H].
  - rewrite str_app_length, str_take_length.
    change (String.length truncation_marker) with 46%nat.
    revert H. generalize MAX_TRANSCRIPT_CHARS as m. intros m H. lia.
  - revert H. generalize MAX_TRANSCRIPT_CHARS as m. intros m H. lia.
Qed.

(** X10.  Whatever the metadata and the transcript, a document the builder
    returns has at most 200,046 characters: the ceiling plus the 46 of
    the truncation marker. *)
Theorem document_size_is_bounded (E : Env) (metadata : Metadata)
  (transcript_text : string) (transcript_info : TranscriptInfo)
  (video_id out : string)
  (Hout : _build_markdown_output E metadata transcript_text transcript_info
            video_id = Ok out) :
  (N.of_nat (String.length out) <= 200046)%N.
Proof.
  unfold _build_markdown_output in Hout.
  destruct (assemble_output E metadata transcript_text transcript_info video_id)
    as [output|e]; [|discriminate].
  injection Hout as <-. exact (truncate_output_bound output).
Qed.

Lemma document_size_is_bounded_witness :
  (N.of_nat (String.length
     ("---" ++ NL ++ "title: " ++ quoted "Unknown" ++ NL
      ++ "author: " ++ quoted "Unknown" ++ NL
      ++ "url: https://www.youtube.com/watch?v=dQw4w9WgXcQ" ++ NL
      ++ "video_id: dQw4w9WgXcQ" ++ NL
      ++ "transcript_language: en" ++ NL
      ++ "transcript_source: manual" ++ NL ++ "---" ++ NL ++ NL
      ++ "## Transcript" ++ NL ++ NL ++ "hello" ++ NL)) <= 200046)%N.
Proof.
  apply (document_size_is_bounded offline (unknown_metadata rick) "hello"
           (mkInfo [] "en" "manual") rick).
  reflexivity.
Defined.

Lemma upload_date_fields_typed (E : Env) (md : Metadata) :
  str_or_none (dict_get md "upload_date" JNull) = true ->
  exists l, upload_date_fields E md = Ok l.
Proof.
  unfold upload_date_fields.
  destruct (dict_get md "upload_date" JNull) as [|b|z|q|d|l|o];
    try discriminate; intros _.
  - now exists [].
  - destruct (truthy (JStr d)); [|now exists []].
    cbn [py_len exc_bind]. destruct (Nat.eqb (String.length d) 8).
    + cbn [py_slice exc_bind]. eauto.
    + eauto.
Qed.

Lemma duration_fields_typed (E : Env) (md : Metadata) :
  int_or_none (dict_get md "duration_seconds" JNull) = true ->
  exists l, duration_fields E md = Ok l.
Proof.
  unfold duration_fields.
  destruct (dict_get md "duration_seconds" JNull) as [|b|z|q|d|l|o];
    try discriminate; intros _.
  - now exists [].
  - destruct (truthy (JBool b)); cbn [py_int exc_bind]; eauto.
  - destruct (truthy (JInt z)); cbn [py_int exc_bind]; eauto.
Qed.

Lemma build_typed (E : Env) (md : Metadata) (text : string)
  (info : TranscriptInfo) (vid : string) :
  str_or_none (dict_get md "upload_date" JNull) = true ->
  int_or_none (dict_get md "duration_seconds" JNull) = true ->
  exists out, _build_markdown_output E md text info vid = Ok out.
Proof.
  intros Hu Hd.
  destruct (upload_date_fields_typed E md Hu) as (u & Hu').
  destruct (duration_fields_typed E md Hd) as (d & Hd').
  unfold _build_markdown_output, assemble_output, frontmatter_fields.
  rewrite Hu', Hd'. cbn [exc_bind]. eauto.
Qed.

(** X11.  The builder returns a document whenever the two optional values
    have the types the info dump gives them: [upload_date] a string or
    absent, [duration_seconds] an [int] or absent.  This covers the
    placeholder record and the record of the page scrape, which have
    neither key. *)
Theorem document_is_built_for_typed_metadata (E : Env) (metadata : Metadata)
  (transcript_text : string) (transcript_info : TranscriptInfo)
  (video_id : string)
  (Hdate : str_or_none (dict_get metadata "upload_date" JNull) = true)
  (Hdur : int_or_none (dict_get metadata "duration_seconds" JNull) = true) :
  exists out,
    _build_markdown_output E metadata transcript_text transcript_info video_id
    = Ok out
    /\ is_markdown_form out = true.
Proof.
  destruct (build_typed E metadata transcript_text transcript_info video_id
              Hdate Hdur) as (out & Hout).
  exists out. split; [assumption|].
  exact (proj1 (build_is_markdown E _ _ _ _ _ Hout)).
Qed.

Lemma document_is_built_for_typed_metadata_witness :
  exists out,
    _build_markdown_output offline
      [("title", JStr "Never Gonna Give You Up"); ("upload_date", JStr "20091025");
       ("duration_seconds", JInt 213)]
      "hello" (mkInfo [] "en" "manual") rick = Ok out
    /\ is_markdown_form out = true.
Proof.
  apply (document_is_built_for_typed_metadata offline
           [("title", JStr "Never Gonna Give You Up");
            ("upload_date", JStr "20091025"); ("duration_seconds", JInt 213)]
           "hello" (mkInfo [] "en" "manual") rick); reflexivity.
Defined.

(** X12.  A non-zero number as [upload_date] makes the builder raise
    [TypeError]: the value is truthy and [len] is applied to it.  No
    document is returned, whatever the transcript. *)
Theorem numeric_upload_date_raises (E : Env) (metadata : Metadata)
  (transcript_text : string) (transcript_info : TranscriptInfo)
  (video_id : string) (z : Z)
  (Hdate : dict_lookup metadata "upload_date" = Some (JInt z))
  (Hz : z <> 0%Z) :
  _build_markdown_output E metadata transcript_text transcript_info video_id
  = Raise (TypeError "object of type 'int' has no len()").
Proof.
  unfold _build_markdown_output, assemble_output, frontmatter_fields,
    upload_date_fields.
  rewrite (dict_get_lookup _ _ _ _ Hdate). cbn [truthy].
  apply Z.eqb_neq in Hz. rewrite Hz. reflexivity.
Qed.

Lemma numeric_upload_date_raises_witness :
  _build_markdown_output offline
    [("title", JStr "Never Gonna Give You Up"); ("upload_date", JInt 20091025)]
    "hello" (mkInfo [] "en" "manual") rick
  = Raise (TypeError "object of type 'int' has no len()").
Proof.
  apply (numeric_upload_date_raises offline _ "hello" (mkInfo [] "en" "manual")
           rick 20091025); [reflexivity | discriminate].
Defined.

(** X13.  A whole number of seconds [n] other than 0 is written as
    [duration: <m>m<s>s] with [60 * m + s = n] and [0 <= s < 60]: the
    minutes are not split into hours. *)
Theorem duration_is_minutes_and_seconds (E : Env) (metadata : Metadata) (n : Z)
  (Hdur : dict_lookup metadata "duration_seconds" = Some (JInt n))
  (Hn : n <> 0%Z) :
  exists m s : Z,
    duration_fields E metadata
    = Ok ["duration: " ++ str_of_int m ++ "m" ++ str_of_int s ++ "s"]
    /\ (60 * m + s = n)%Z /\ (0 <= s < 60)%Z.
Proof.
  exists (n / 60)%Z, (n mod 60)%Z. split; [|split].
  - unfold duration_fields. rewrite (dict_get_lookup _ _ _ _ Hdur).
    cbn [truthy]. apply Z.eqb_neq in Hn. now rewrite Hn.
  - symmetry. apply Z.div_mod. discriminate.
  - apply Z.mod_pos_bound. reflexivity.
Qed.

Lemma duration_is_minutes_and_seconds_witness :
  exists m s : Z,
    duration_fields offline [("duration_seconds", JInt 3725)]
    = Ok ["duration: " ++ str_of_int m ++ "m" ++ str_of_int s ++ "s"]
    /\ (60 * m + s = 3725)%Z /\ (0 <= s < 60)%Z.
Proof.
  apply (duration_is_minutes_and_seconds offline
           [("duration_seconds", JInt 3725)] 3725);
    [reflexivity | discriminate].
Defined.

(* ================================================================== *)
(** * The record of [_get_metadata_via_ytdlp] *)
(* ================================================================== *)

Lemma metadata_of_dump_inv (data : json) (vid : string) (md : Metadata) :
  metadata_of_dump data vid = Ok md ->
  exists d description,
    data = JObj d
    /\ py_slice (if truthy (dict_get d "description" (JStr ""))
                 then dict_get d "description" (JStr "") else JStr "")
         0 (Some 500%nat) = Ok description
    /\ md = [ ("title", dict_get d "title" (JStr "Unknown"));
              ("author", dict_get d "uploader"
                           (dict_get d "channel" (JStr "Unknown")));
              ("channel_url", dict_get d "channel_url" (JStr ""));
              ("upload_date", dict_get d "upload_date" (JStr ""));
              ("duration_seconds", dict_get d "duration" JNull);
              ("description", description);
              ("view_count", dict_get d "view_count" JNull);
              ("video_id", JStr vid) ].
Proof.
  unfold metadata_of_dump.
  destruct data as [|b|z|q|s|l|d]; try discriminate.
  cbn [py_get exc_bind].
  destruct (py_slice _ 0 (Some 500%nat)) as [description|e] eqn:Hs;
    [|discriminate].
  cbn [exc_bind]. intros [= <-]. exists d, description. auto.
Qed.

Lemma str_take_le (n : nat) (s : string) :
  (String.length (str_take n s) <= n)%nat.
Proof. rewrite str_take_length. lia. Qed.

(** X14.  In the record built from the info dump, the author is the
    [uploader] entry whenever the dump has that key, whatever its value,
    and the [channel] entry or [Unknown] only when the key is absent; a
    text description is cut to its first 500 characters, and a missing
    or null description becomes the empty string, for which the builder
    writes no description section. *)
Theorem dump_record_fields (E : Env) (data : json) (video_id : string)
  (md : Metadata) (Hmd : metadata_of_dump data video_id = Ok md) :
  exists d,
    data = JObj d
    /\ dict_lookup md "author"
       = Some (match dict_lookup d "uploader" with
               | Some v => v
               | None => match dict_lookup d "channel" with
                         | Some v => v
                         | None => JStr "Unknown"
                         end
               end)
    /\ (forall s, dict_lookup d "description" = Some (JStr s) ->
          dict_lookup md "description" = Some (JStr (str_take 500 s))
          /\ (String.length (str_take 500 s) <= 500)%nat)
    /\ (dict_lookup d "description" = None
        \/ dict_lookup d "description" = Some JNull ->
        dict_lookup md "description" = Some (JStr "")
        /\ description_section E md = "")
    /\ dict_lookup md "video_id" = Some (JStr video_id).
Proof.
  apply metadata_of_dump_inv in Hmd as (d & description & -> & Hs & ->).
  exists d. split; [reflexivity|]. split; [reflexivity|].
  unfold dict_get in Hs. split; [|split; [|reflexivity]].
  - intros s Hd. rewrite Hd in Hs. split; [|apply str_take_le].
    cbn [dict_lookup String.eqb Ascii.eqb Bool.eqb].
    destruct (truthy (JStr s)) eqn:Ht.
    + cbn [py_slice] in Hs. injection Hs as <-. reflexivity.
    + cbn [py_slice] in Hs. injection Hs as <-.
      cbn [truthy] in Ht. apply negb_false_iff, String.eqb_eq in Ht.
      subst s. reflexivity.
  - intros [Hd|Hd]; rewrite Hd in Hs; cbn in Hs; injection Hs as <-;
      split; reflexivity.
Qed.

Lemma dump_record_fields_witness :
  exists d,
    JObj [("title", JStr "Never Gonna Give You Up"); ("uploader", JNull);
          ("channel", JStr "Rick Astley")] = JObj d
    /\ dict_lookup
         [("title", JStr "Never Gonna Give You Up"); ("author", JNull);
          ("channel_url", JStr ""); ("upload_date", JStr "");
          ("duration_seconds", JNull); ("description", JStr "");
          ("view_count", JNull); ("video_id", JStr rick)] "author"
       = Some (match dict_lookup d "uploader" with
               | Some v => v
               | None => match dict_lookup d "channel" with
                         | Some v => v
                         | None => JStr "Unknown"
                         end
               end).
Proof.
  destruct (dump_record_fields offline
              (JObj [("title", JStr "Never Gonna Give You Up");
                     ("uploader", JNull); ("channel", JStr "Rick Astley")])
              rick _ eq_refl) as (d & Hd & Ha & _).
  exists d. split; [exact Hd | exact Ha].
Defined.

Section InfoDump.
Variable E : Env.
Variable video_id : string.
Variable w : World.

(** X15.  The info-dump backend always returns a record for the requested
    video.  It is the placeholder record unless the tool is installed,
    its run ends with status 0 within the time limit, its output decodes
    as a JSON object and the record is built from it; when the tool is
    not installed no process is run. *)
Theorem info_dump_outcomes :
  exists md w',
    _get_metadata_via_ytdlp E video_id w = (Ok md, w')
    /\ dict_lookup md "video_id" = Some (JStr video_id)
    /\ (md = unknown_metadata video_id
        \/ exists p files d,
             which E "yt-dlp" = true
             /\ subprocess_run E (dump_argv video_id) 15 (fs w)
                = (Completed p, files)
             /\ returncode p = 0%Z
             /\ json_loads E (stdout p) = Ok (JObj d)
             /\ metadata_of_dump (JObj d) video_id = Ok md)
    /\ (which E "yt-dlp" = false -> fs w' = fs w)
    /\ invoked w' = (invoked w ++ [YtdlpMetadata])%list.
Proof.
  assert (Hdefault : forall w',
            fs w' = fs w \/ which E "yt-dlp" = true ->
            invoked w' = (invoked w ++ [YtdlpMetadata])%list ->
            dict_lookup (unknown_metadata video_id) "video_id"
            = Some (JStr video_id)
            /\ (unknown_metadata video_id = unknown_metadata video_id
                \/ exists p files d,
                     which E "yt-dlp" = true
                     /\ subprocess_run E (dump_argv video_id) 15 (fs w)
                        = (Completed p, files)
                     /\ returncode p = 0%Z
                     /\ json_loads E (stdout p) = Ok (JObj d)
                     /\ metadata_of_dump (JObj d) video_id
                        = Ok (unknown_metadata video_id))
            /\ (which E "yt-dlp" = false -> fs w' = fs w)
            /\ invoked w' = (invoked w ++ [YtdlpMetadata])%list).
  { intros w' Hfs Hinv. split; [reflexivity|]. split; [now left|].
    split; [|assumption]. intros Hw. destruct Hfs as [Hfs|Hfs]; congruence. }
  unfold _get_metadata_via_ytdlp, bind, enter, try_, ret.
  destruct (which E "yt-dlp") eqn:Hwhich; cbn [negb].
  2: { exists (unknown_metadata video_id). eexists.
       split; [reflexivity|]. apply Hdefault; auto. }
  destruct (run E (dump_argv video_id) 15
              (mkWorld (fs w) (invoked w ++ [YtdlpMetadata])))
    as [[p|e] w1] eqn:Hrun.
  2: { exists (unknown_metadata video_id), w1.
       split; [reflexivity|]. apply Hdefault; [auto|].
       exact (silent_run _ _ _ _ _ _ Hrun). }
  pose proof (silent_run _ _ _ _ _ _ Hrun) as Hinv. cbn [invoked] in Hinv.
  unfold run in Hrun. cbn [fs invoked] in Hrun.
  destruct (subprocess_run E (dump_argv video_id) 15 (fs w))
    as [[p'|] files] eqn:Hsub; [|discriminate].
  injection Hrun as -> Hw1.
  destruct (returncode p =? 0)%Z eqn:Hrc.
  2: { exists (unknown_metadata video_id), w1.
       split; [reflexivity|]. apply Hdefault; auto. }
  unfold lift.
  destruct (json_loads E (stdout p)) as [data|e] eqn:Hload.
  2: { exists (unknown_metadata video_id), w1.
       split; [reflexivity|]. apply Hdefault; auto. }
  destruct (metadata_of_dump data video_id) as [md|e] eqn:Hmd.
  2: { exists (unknown_metadata video_id), w1.
       split; [reflexivity|]. apply Hdefault; auto. }
  exists md, w1. split; [reflexivity|].
  destruct (metadata_of_dump_inv _ _ _ Hmd) as (d & desc & -> & _ & Hshape).
  split; [now rewrite Hshape|]. split; [|split; [congruence | assumption]].
  right. exists p, files, d. apply Z.eqb_eq in Hrc. auto.
Qed.
End InfoDump.

Lemma info_dump_outcomes_witness :
  exists md w',
    _get_metadata_via_ytdlp captions_and_page rick initial_world = (Ok md, w')
    /\ dict_lookup md "video_id" = Some (JStr rick).
Proof.
  destruct (info_dump_outcomes captions_and_page rick initial_world)
    as (md & w' & H & Hid & _).
  exists md, w'. split; assumption.
Defined.

(* ================================================================== *)
(** * The record of [_get_metadata_via_api] *)
(* ================================================================== *)

Lemma lazy_until_inv (close s g : string) :
  close <> "" -> lazy_until close s = Some g ->
  exists rest, s = g ++ close ++ rest
               /\ no_newline g /\ has_substring close g = false.
Proof.
  intros Hclose. revert g.
  induction s as [|c s IH]; intros g; cbn [lazy_until].
  - destruct (strip_prefix close "") as [r|] eqn:Hp; [|discriminate].
    intros [= <-]. apply strip_prefix_inv in Hp.
    destruct close; [congruence | discriminate].
  - destruct (strip_prefix close (String c s)) as [r|] eqn:Hp.
    + intros [= <-]. apply strip_prefix_inv in Hp. exists r.
      split; [exact Hp|]. split; [reflexivity|].
      destruct close; [congruence | reflexivity].
    + destruct (c =? nl)%char eqn:Hc; [discriminate|].
      destruct (lazy_until close s) as [g'|] eqn:Hl; [|discriminate].
      intros [= <-]. destruct (IH g' eq_refl) as (rest & Hs & Hnl & Hno).
      exists rest. split; [simpl; now rewrite Hs at 1|].
      split; [unfold no_newline; cbn [str_contains_char]; now rewrite Hc|].
      cbn [has_substring]. rewrite Hno, orb_false_r.
      destruct (starts_with close (String c g')) eqn:Hst; [|reflexivity].
      apply (starts_with_app _ _ (close ++ rest)) in Hst.
      unfold starts_with in Hst. simpl in Hst. rewrite <- Hs in Hst.
      simpl in Hp. now rewrite Hp in Hst.
Qed.

Lemma search_between_inv (open close s g : string) :
  close <> "" -> search_between open close s = Some g ->
  exists pre rest, s = pre ++ open ++ g ++ close ++ rest
                   /\ no_newline g /\ has_substring close g = false.
Proof.
  intros Hclose.
  assert (Hhere : forall t,
            match strip_prefix open t with
            | Some r => lazy_until close r
            | None => None
            end = Some g ->
            exists rest, t = open ++ g ++ close ++ rest
                         /\ no_newline g /\ has_substring close g = false).
  { intros t. destruct (strip_prefix open t) as [r|] eqn:Hp; [|discriminate].
    intros Hl. apply strip_prefix_inv in Hp.
    destruct (lazy_until_inv close r g Hclose Hl) as (rest & -> & Hnl & Hno).
    now exists rest. }
  induction s as [|c s IH]; cbn [search_between].
  - destruct (match strip_prefix open "" with
              | Some r => lazy_until close r | None => None end) as [g'|] eqn:Hm;
      [|discriminate].
    intros [= ->]. destruct (Hhere _ Hm) as (rest & Hs & H). now exists "", rest.
  - destruct (match strip_prefix open (String c s) with
              | Some r => lazy_until close r | None => None end) as [g'|] eqn:Hm.
    + intros [= ->]. destruct (Hhere _ Hm) as (rest & Hs & H).
      now exists "", rest.
    + intros H. destruct (IH H) as (pre & rest & -> & Hg).
      now exists (String c pre), rest.
Qed.

Lemma search_between_absent (open close s : string) :
  has_substring open s = false -> search_between open close s = None.
Proof.
  induction s as [|c s IH]; cbn [has_substring search_between]; intros H.
  - rewrite orb_false_r in H. unfold starts_with in H.
    now destruct (strip_prefix open "").
  - apply orb_false_iff in H as [H1 H2]. unfold starts_with in H1.
    destruct (strip_prefix open (String c s)); [discriminate|]. now apply IH.
Qed.

Section Scrape.
Variable E : Env.
Variable video_id : string.
Variable w : World.

(** X16.  The page-scrape backend always returns a record of three
    entries for the requested video and touches no file.  Title and
    author are [Unknown] when the page cannot be fetched, and the title
    is [Unknown] when the page has no opening title tag.  A title that is
    found comes from a text between [<title>] and the first [</title>]
    after it that lies on one line. *)
Theorem scrape_record :
  exists title author,
    _get_metadata_via_api E video_id w
    = (Ok [("title", JStr title); ("author", JStr author);
           ("video_id", JStr video_id)],
       mkWorld (fs w) (invoked w ++ [ScrapeMetadata]))
    /\ (forall e, http_get E (watch_url video_id) = Raise e ->
          title = "Unknown" /\ author = "Unknown")
    /\ (forall page, http_get E (watch_url video_id) = Ok page ->
          (has_substring "<title>" page = false -> title = "Unknown")
          /\ (title = "Unknown"
              \/ exists pre g rest,
                   page = pre ++ "<title>" ++ g ++ "</title>" ++ rest
                   /\ no_newline g
                   /\ has_substring "</title>" g = false
                   /\ title
                      = strip (remove_all_from " - YouTube" 0
                                 (html_unescape E g)))).
Proof.
  unfold _get_metadata_via_api, bind, enter, try_, ret, lift.
  destruct (http_get E (watch_url video_id)) as [page|e] eqn:Hget.
  - destruct (search_between "<title>" "</title>" page) as [g|] eqn:Ht.
    + eexists. eexists. split; [reflexivity|]. split; [discriminate|].
      intros page' [= <-]. split.
      * intros Hno. now rewrite (search_between_absent _ _ _ Hno) in Ht.
      * right. apply search_between_inv in Ht as (pre & rest & Hp & Hnl & Hno);
          [|discriminate].
        exists pre, g, rest. auto.
    + eexists. eexists. split; [reflexivity|]. split; [discriminate|].
      intros page' [= <-]. auto.
  - exists "Unknown", "Unknown". split; [reflexivity|].
    split; [auto | discriminate].
Qed.
End Scrape.

Lemma scrape_record_witness :
  exists title author,
    _get_metadata_via_api captions_and_page rick initial_world
    = (Ok [("title", JStr title); ("author", JStr author);
           ("video_id", JStr rick)],
       mkWorld [] [ScrapeMetadata]).
Proof.
  destruct (scrape_record captions_and_page rick initial_world)
    as (title & author & H & _).
  exists title, author. exact H.
Defined.

(* ================================================================== *)
(** * The entries of [_get_transcript_via_ytdlp] *)
(* ================================================================== *)

Lemma strip_trimmed (s : string) : strip s <> "" -> trimmed (strip s).
Proof.
  intros Hne. split; [|split; [|assumption]].
  - unfold strip. rewrite !lstrip_as_chars, !rstrip_as_chars.
    now rewrite rstrip_lstrip_chars, lstrip_chars_idem.
  - unfold strip. rewrite !rstrip_as_chars. apply rstrip_chars_idem.
Qed.

Lemma trimmed_strip (t : string) : trimmed t -> strip t = t.
Proof. intros (Hl & Hr & _). unfold strip. now rewrite Hl. Qed.

Lemma trimmed_app (a sep b : string) :
  trimmed a -> trimmed b -> trimmed (a ++ sep ++ b).
Proof.
  intros (Hla & Hra & Hna) (Hlb & Hrb & Hnb). split; [|split].
  - rewrite lstrip_as_chars, lstrip_chars_app, <- lstrip_as_chars, Hla.
    destruct a; [congruence | reflexivity].
  - rewrite rstrip_as_chars, rstrip_chars_app, rstrip_chars_app,
      <- !rstrip_as_chars, Hrb.
    destruct b as [|c b]; [congruence|].
    destruct (sep ++ String c b) eqn:Hs; [|reflexivity].
    destruct sep; discriminate.
  - destruct a; [congruence | discriminate].
Qed.

Lemma join_trimmed (sep : string) (parts : list string) :
  parts <> [] -> Forall trimmed parts -> trimmed (join sep parts).
Proof.
  induction parts as [|p parts IH]; [congruence|].
  intros _ Hall. inversion Hall as [|? ? Hp Hps]; subst.
  destruct parts as [|q parts]; [exact Hp|].
  change (join sep (p :: q :: parts)) with (p ++ sep ++ join sep (q :: parts)).
  apply trimmed_app; [assumption|]. apply IH; [discriminate | assumption].
Qed.

Lemma collect_segs_trimmed (segs : list json) (acc parts : list string) :
  collect_segs segs acc = Ok parts -> Forall trimmed acc -> Forall trimmed parts.
Proof.
  revert acc. induction segs as [|seg segs IH]; intros acc; cbn [collect_segs].
  - now intros [= <-].
  - destruct (py_get seg "utf8" (JStr "")) as [u|e]; [|discriminate].
    cbn [exc_bind]. destruct u as [|b|z|q|s|l|o]; try discriminate.
    destruct (strip s =? "")%string eqn:Hs; cbn [negb].
    + apply IH.
    + intros H Hacc. apply (IH _ H). apply Forall_app. split; [assumption|].
      constructor; [|constructor]. apply strip_trimmed.
      now apply String.eqb_neq.
Qed.

Section Events.
Variable E : Env.

Lemma collect_events_trimmed (events : list json) (acc es : list Entry) :
  collect_events E events acc = Ok es ->
  Forall (fun e => trimmed (text e)) acc ->
  Forall (fun e => trimmed (text e)) es.
Proof.
  revert acc. induction events as [|event events IH]; intros acc;
    cbn [collect_events].
  - now intros [= <-].
  - destruct (py_get event "segs" (JArr [])) as [segs_v|e]; [|discriminate].
    cbn [exc_bind]. destruct (py_iter segs_v) as [segs|e]; [|discriminate].
    cbn [exc_bind].
    destruct (collect_segs segs []) as [parts|e] eqn:Hsegs; [|discriminate].
    cbn [exc_bind]. apply collect_segs_trimmed in Hsegs; [|constructor].
    destruct parts as [|p parts]; [apply IH|].
    destruct (py_get event "tStartMs" (JInt 0)) as [t0|e]; [|discriminate].
    cbn [exc_bind]. destruct (ms_to_seconds t0) as [s0|e]; [|discriminate].
    cbn [exc_bind].
    destruct (py_get event "dDurationMs" (JInt 0)) as [d0|e]; [|discriminate].
    cbn [exc_bind]. destruct (ms_to_seconds d0) as [d1|e]; [|discriminate].
    cbn [exc_bind]. intros H Hacc. apply (IH _ H). apply Forall_app.
    split; [assumption|]. constructor; [|constructor]. cbn [text].
    apply join_trimmed; [discriminate | assumption].
Qed.

Lemma parse_json3_trimmed (sub_data : json) (es : list Entry) :
  parse_json3 E sub_data = Ok es -> Forall (fun e => trimmed (text e)) es.
Proof.
  unfold parse_json3.
  destruct (py_get sub_data "events" (JArr [])) as [events_v|e]; [|discriminate].
  cbn [exc_bind]. destruct (py_iter events_v) as [events|e]; [|discriminate].
  cbn [exc_bind]. intros H. apply (collect_events_trimmed _ _ _ H). constructor.
Qed.

Lemma sub_flag_loop_parsed (vid : string) (langs flags : list string)
  (w w' : World) (info : TranscriptInfo) :
  sub_flag_loop E vid langs flags w = (Ok info, w') ->
  exists sub_data, parse_json3 E sub_data = Ok (entries info).
Proof.
  revert w. induction flags as [|flag flags IH]; intros w; cbn [sub_flag_loop];
    [discriminate|].
  unfold bind at 1.
  destruct (run E _ 30 w) as [[result|e] w1]; [|discriminate].
  destruct (negb (returncode result =? 0)%Z); [apply IH|].
  unfold bind at 1. unfold glob_subs at 1.
  destruct (map fst _) as [|first rest]; [apply IH|].
  unfold bind at 1.
  destruct (open_json_load E first w1) as [[sub_data|e] w2]; [|discriminate].
  unfold bind at 1.
  destruct (remove_each E (first :: rest) w2) as [[[]|e] w3]; [|discriminate].
  unfold bind, lift, ret.
  destruct (parse_json3 E sub_data) as [es|e] eqn:Hp; [|discriminate].
  intros [= <- _]. now exists sub_data.
Qed.
End Events.

Lemma trimmed_all_kept (es : list Entry) :
  Forall (fun e => trimmed (text e)) es ->
  filter kept es = es
  /\ map (formatted_line false) es = map text es.
Proof.
  induction 1 as [|e es He _ [IH1 IH2]]; [split; reflexivity|].
  cbn [filter map]. unfold kept at 1, formatted_line at 1.
  rewrite (trimmed_strip _ He), IH1, IH2.
  destruct He as (_ & _ & Hne). apply String.eqb_neq in Hne. now rewrite Hne.
Qed.

(** X17.  Every entry the command-line backend returns has a text that is
    not empty and has no white space at either end: the text parts of an
    event are trimmed, the empty ones dropped, and the events left
    without a part are skipped.  The formatter therefore keeps every
    entry, and without timestamps the transcript is the texts joined by
    newlines. *)
Theorem cli_entries_are_trimmed (E : Env) (video_id : string)
  (languages : list string) (w w' : World) (info : TranscriptInfo)
  (Hrun : _get_transcript_via_ytdlp E video_id languages w = (Ok info, w')) :
  Forall (fun e => trimmed (text e)) (entries info)
  /\ filter kept (entries info) = entries info
  /\ _format_transcript_text (entries info) false
     = join NL (map text (entries info)).
Proof.
  unfold _get_transcript_via_ytdlp, bind at 1, enter in Hrun.
  destruct (negb (which E "yt-dlp")); [discriminate|].
  apply sub_flag_loop_parsed in Hrun as (sub_data & Hp).
  apply parse_json3_trimmed in Hp.
  destruct (trimmed_all_kept _ Hp) as [Hk Hr].
  split; [assumption|]. split; [assumption|].
  unfold _format_transcript_text. rewrite format_step_fold. cbn [app].
  now rewrite Hk, Hr.
Qed.

Lemma cli_entries_are_trimmed_witness :
  exists info w',
    _get_transcript_via_ytdlp cli_english_subs rick ["en"] initial_world
    = (Ok info, w')
    /\ _format_transcript_text (entries info) false
       = join NL (map text (entries info)).
Proof.
  eexists. eexists. split; [vm_compute; reflexivity|].
  refine (proj2 (proj2 (cli_entries_are_trimmed cli_english_subs rick ["en"]
                          initial_world _ _ _))).
  vm_compute. reflexivity.
Defined.

(* ================================================================== *)
(** * The files [_get_transcript_via_ytdlp] leaves alone *)
(* ================================================================== *)

Section OtherFiles.
Variable E : Env.
Variable vid : string.
Hypothesis Henv : keeps_other_files E vid.
Variable f : File.
Hypothesis Hother : glob_match (tmp_prefix vid) ".json3" (fst f) = false.

Lemma os_remove_keeps (path : string) (w w' : World) (r : Exc unit) :
  os_remove E path w = (r, w') ->
  In f (fs w) -> fst f <> path -> In f (fs w').
Proof.
  unfold os_remove. destruct (read_file (fs w) path).
  - intros [= _ <-] Hin Hne. cbn [fs]. apply filter_In.
    split; [assumption|]. now apply negb_true_iff, String.eqb_neq.
  - now intros [= _ <-].
Qed.

Lemma remove_each_keeps (paths : list string) (w w' : World) (r : Exc unit) :
  remove_each E paths w = (r, w') ->
  In f (fs w) -> ~ In (fst f) paths -> In f (fs w').
Proof.
  revert w. induction paths as [|p paths IH]; intros w; cbn [remove_each].
  - now intros [= _ <-].
  - unfold bind. destruct (os_remove E p w) as [[[]|e] w1] eqn:Hrm.
    + intros H Hin Hnot. apply (IH _ H).
      * apply (os_remove_keeps _ _ _ _ Hrm Hin). intros Heq. apply Hnot. now left.
      * intros Hp. apply Hnot. now right.
    + intros [= _ <-] Hin Hnot.
      apply (os_remove_keeps _ _ _ _ Hrm Hin). intros Heq. apply Hnot. now left.
Qed.

Lemma run_keeps (argv : list string) (t : Z) (w w' : World)
  (r : Exc CompletedProcess) :
  run E argv t w = (r, w') -> In f (fs w) -> In f (fs w').
Proof.
  unfold run. intros H Hin. pose proof (Henv argv t (fs w) f Hin Hother) as Hk.
  destruct (subprocess_run E argv t (fs w)) as [[p|] files];
    injection H as _ <-; exact Hk.
Qed.

Lemma not_a_subtitle_file (files : list File) :
  ~ In (fst f)
      (map fst (filter (fun g => glob_match (tmp_prefix vid) ".json3" (fst g))
                  files)).
Proof.
  intros Hin. apply in_map_iff in Hin as (g & Heq & Hg).
  apply filter_In in Hg as [_ Hg]. rewrite Heq in Hg. congruence.
Qed.

Lemma sub_flag_loop_keeps (langs flags : list string) (w w' : World)
  (r : Exc TranscriptInfo) :
  sub_flag_loop E vid langs flags w = (r, w') -> In f (fs w) -> In f (fs w').
Proof.
  revert w. induction flags as [|flag flags IH]; intros w; cbn [sub_flag_loop].
  - now intros [= _ <-].
  - unfold bind at 1.
    destruct (run E _ 30 w) as [[result|e] w1] eqn:Hrun.
    2: { intros [= _ <-] Hin. exact (run_keeps _ _ _ _ _ Hrun Hin). }
    intros H Hin. pose proof (run_keeps _ _ _ _ _ Hrun Hin) as Hin1.
    revert H. destruct (negb (returncode result =? 0)%Z);
      [intros H; exact (IH _ H Hin1)|].
    unfold bind at 1. unfold glob_subs at 1.
    pose proof (not_a_subtitle_file (fs w1)) as Hnot.
    destruct (map fst _) as [|first rest]; [intros H; exact (IH _ H Hin1)|].
    unfold bind at 1.
    destruct (open_json_load E first w1) as [[sub_data|e] w2] eqn:Hopen.
    2: { intros [= _ <-]. unfold open_json_load in Hopen.
         destruct (read_file (fs w1) first); now injection Hopen as _ <-. }
    assert (Hin2 : In f (fs w2)).
    { unfold open_json_load in Hopen.
      destruct (read_file (fs w1) first); now injection Hopen as _ <-. }
    unfold bind at 1.
    destruct (remove_each E (first :: rest) w2) as [[[]|e] w3] eqn:Hrm.
    2: { intros [= _ <-]. exact (remove_each_keeps _ _ _ _ Hrm Hin2 Hnot). }
    pose proof (remove_each_keeps _ _ _ _ Hrm Hin2 Hnot) as Hin3.
    unfold bind, lift, ret.
    destruct (parse_json3 E sub_data) as [es|e]; now intros [= _ <-].
Qed.
End OtherFiles.

(** X18.  The command-line backend deletes no file but subtitle files of
    the video: when the executable leaves the other files alone, every
    file that does not match [/tmp/yt_<id>*.json3] and was there before
    the call is there after it, whether the backend returns or raises;
    and when it returns, no subtitle file of the video is left. *)
Theorem cli_backend_touches_only_its_files (E : Env) (video_id : string)
  (languages : list string) (w w' : World) (r : Exc TranscriptInfo)
  (Henv : keeps_other_files E video_id)
  (Hrun : _get_transcript_via_ytdlp E video_id languages w = (r, w')) :
  (forall f, In f (fs w) ->
             glob_match (tmp_prefix video_id) ".json3" (fst f) = false ->
             In f (fs w'))
  /\ (forall info, r = Ok info -> subtitle_files video_id w' = []).
Proof.
  split.
  - intros f Hin Hother.
    unfold _get_transcript_via_ytdlp, bind at 1, enter in Hrun.
    destruct (negb (which E "yt-dlp")); [now injection Hrun as _ <-|].
    exact (sub_flag_loop_keeps E video_id Henv f Hother _ _ _ _ _ Hrun Hin).
  - intros info ->. exact (ytdlp_success_cleans E _ _ _ _ _ Hrun).
Qed.

Lemma writes_english_subs_keeps (contents : string) (E : Env) :
  keeps_other_files (set_subprocess_run (writes_english_subs contents) E) rick.
Proof.
  intros argv t files f Hin _. cbn [subprocess_run set_subprocess_run].
  unfold writes_english_subs.
  repeat match goal with
         | |- context [match ?x with _ => _ end] => destruct x
         end;
    cbn [snd]; try assumption; apply in_or_app; now left.
Qed.

Lemma cli_backend_touches_only_its_files_witness :
  exists r w',
    _get_transcript_via_ytdlp cli_english_subs rick ["en"]
      (mkWorld [("/tmp/notes.txt", "keep me")] []) = (r, w')
    /\ In ("/tmp/notes.txt", "keep me") (fs w').
Proof.
  eexists. eexists. split; [vm_compute; reflexivity|].
  refine (proj1 (cli_backend_touches_only_its_files cli_english_subs rick ["en"]
                   (mkWorld [("/tmp/notes.txt", "keep me")] []) _ _ _ _)
            ("/tmp/notes.txt", "keep me") _ _).
  - unfold cli_english_subs, set_json_loads. cbn [subprocess_run].
    intros argv t files f Hin Hf.
    exact (writes_english_subs_keeps hello_json3_text
             (set_which (fun _ => true) offline) argv t files f Hin Hf).
  - vm_compute. reflexivity.
  - now left.
  - reflexivity.
Defined.

(* ================================================================== *)
(** * The failures of [_get_transcript_via_ytdlp] *)
(* ================================================================== *)

Lemma sub_flag_loop_not_found (E : Env) (vid : string) (langs : list string)
  (flag : string) (rest : list string) (w : World) (p : CompletedProcess)
  (files : list File) :
  subprocess_run E (subs_argv flag (join "," langs) vid) 30 (fs w)
  = (Completed p, files) ->
  found_subs E vid langs flag (fs w) = false ->
  sub_flag_loop E vid langs (flag :: rest) w
  = sub_flag_loop E vid langs rest (mkWorld files (invoked w)).
Proof.
  intros Hrun Hfound. unfold found_subs in Hfound. rewrite Hrun in Hfound.
  rewrite sub_flag_loop_cons. unfold bind at 1. unfold run at 1. rewrite Hrun.
  destruct (returncode p =? 0)%Z; cbn [negb andb] in *; [|reflexivity].
  unfold bind at 1. unfold glob_subs at 1. cbn [fs].
  rewrite filter_nil_existsb in Hfound.
  match goal with
  | |- context [map fst (filter ?q files)] => destruct (filter q files)
  end; [reflexivity | discriminate].
Qed.

(** X19.  The command-line backend fails in three ways.  When the
    executable is not installed it raises [RuntimeError] without running
    or touching anything.  When the first run exceeds the time limit the
    [TimeoutExpired] of that run is raised, and the run for
    auto-generated subtitles is not made.  When both runs end and
    neither leaves a subtitle file of the video with status 0, it raises
    the [RuntimeError] that names the video and the languages. *)
Theorem cli_backend_failures (E : Env) (video_id : string)
  (languages : list string) (w : World) :
  (which E "yt-dlp" = false ->
   _get_transcript_via_ytdlp E video_id languages w
   = (Raise (RuntimeError
               "yt-dlp is not installed. Install with: pip install yt-dlp"),
      mkWorld (fs w) (invoked w ++ [YtdlpCaptions])))
  /\ (forall files,
        which E "yt-dlp" = true ->
        subprocess_run E (subs_argv "--write-sub" (join "," languages) video_id)
          30 (fs w) = (TimedOut, files) ->
        exists msg,
          _get_transcript_via_ytdlp E video_id languages w
          = (Raise (Exn "TimeoutExpired" msg),
             mkWorld files (invoked w ++ [YtdlpCaptions])))
  /\ (forall p1 files1 p2 files2,
        which E "yt-dlp" = true ->
        subprocess_run E (subs_argv "--write-sub" (join "," languages) video_id)
          30 (fs w) = (Completed p1, files1) ->
        found_subs E video_id languages "--write-sub" (fs w) = false ->
        subprocess_run E
          (subs_argv "--write-auto-sub" (join "," languages) video_id)
          30 files1 = (Completed p2, files2) ->
        found_subs E video_id languages "--write-auto-sub" files1 = false ->
        _get_transcript_via_ytdlp E video_id languages w
        = (Raise (no_subtitles E video_id languages),
           mkWorld files2 (invoked w ++ [YtdlpCaptions]))).
Proof.
  split; [|split].
  - intros Hw. unfold _get_transcript_via_ytdlp, bind, enter, raise.
    now rewrite Hw.
  - intros files Hw Hrun. eexists.
    unfold _get_transcript_via_ytdlp, bind at 1, enter. rewrite Hw. cbn [negb].
    rewrite sub_flag_loop_cons. unfold bind, run. cbn [fs invoked].
    rewrite Hrun. reflexivity.
  - intros p1 files1 p2 files2 Hw Hrun1 Hf1 Hrun2 Hf2.
    unfold _get_transcript_via_ytdlp, bind at 1, enter. rewrite Hw. cbn [negb].
    rewrite (sub_flag_loop_not_found E _ _ _ _ _ p1 files1) by exact Hrun1 || exact Hf1.
    rewrite (sub_flag_loop_not_found E _ _ _ _ _ p2 files2) by exact Hrun2 || exact Hf2.
    reflexivity.
Qed.

Lemma cli_backend_failures_witness :
  _get_transcript_via_ytdlp offline rick ["en"] initial_world
  = (Raise (RuntimeError
              "yt-dlp is not installed. Install with: pip install yt-dlp"),
     mkWorld [] [YtdlpCaptions]).
Proof.
  apply (proj1 (cli_backend_failures offline rick ["en"] initial_world)).
  reflexivity.
Defined.

(* ================================================================== *)
(** * The failures of [_get_transcript_via_api] *)
(* ================================================================== *)

(** X20.  The structured-service backend fails in three ways, and touches
    no file in any of them.  An exception of the listing call is raised
    as it is.  When no requested language has a transcript of either
    kind and the video lists none at all, it raises the [RuntimeError]
    that names the video and the languages tried.  When the download of
    the selected transcript fails, that exception is raised: no other
    language and no other kind is tried after the selection. *)
Theorem api_backend_failures (E : Env) (video_id : string)
  (languages : list string) (w : World) :
  (forall e,
     list_transcripts E video_id = Raise e ->
     _get_transcript_via_api E video_id languages w
     = (Raise e, mkWorld (fs w) (invoked w ++ [ApiCaptions])))
  /\ (forall tl,
        list_transcripts E video_id = Ok tl ->
        (forall l, In l languages -> offers false tl l = None) ->
        (forall l, In l languages -> offers true tl l = None) ->
        first_listed tl = None ->
        _get_transcript_via_api E video_id languages w
        = (Raise (no_transcript_available E video_id languages),
           mkWorld (fs w) (invoked w ++ [ApiCaptions])))
  /\ (forall tl t src lang e,
        list_transcripts E video_id = Ok tl ->
        select_transcript tl languages = (Some t, src, lang) ->
        fetch t = Raise e ->
        _get_transcript_via_api E video_id languages w
        = (Raise e, mkWorld (fs w) (invoked w ++ [ApiCaptions]))).
Proof.
  split; [|split].
  - intros e He. unfold _get_transcript_via_api, bind, enter, lift.
    now rewrite He.
  - intros tl Htl Hm Hg Hnone.
    unfold _get_transcript_via_api, bind, enter, lift. rewrite Htl.
    now rewrite (select_fallback tl languages Hm Hg), Hnone.
  - intros tl t src lang e Htl Hsel He.
    unfold _get_transcript_via_api, bind, enter, lift. rewrite Htl, Hsel.
    now rewrite He.
Qed.

Lemma api_backend_failures_witness :
  _get_transcript_via_api offline rick ["en"] initial_world
  = (Raise (Exn "RequestException" "connection refused"),
     mkWorld [] [ApiCaptions]).
Proof.
  apply (proj1 (api_backend_failures offline rick ["en"] initial_world)).
  reflexivity.
Defined.

(* ================================================================== *)
(** * When [youtube_get_transcript] raises *)
(* ================================================================== *)

Section Answers.
Variable E : Env.
Variable params : GetTranscriptInput.
Variable w : World.

(** The end of a request that has a transcript: the metadata, then the
    document. *)
Lemma tool_has_transcript (vid : string) (info : TranscriptInfo)
  (errors : list string) (w1 : World) :
  _extract_video_id (repr_str E) (url params) = Ok vid ->
  fetch_transcript E vid (languages_or_default params) w
  = (Ok (Some info, errors), w1) ->
  exists md w2,
    fetch_metadata E vid (include_metadata params) w1 = (Ok md, w2)
    /\ youtube_get_transcript E params w
       = (_build_markdown_output E md
            (_format_transcript_text (entries info) (include_timestamps params))
            info vid, w2).
Proof.
  intros Hvid Hfetch.
  destruct (fetch_metadata_total E vid (include_metadata params) w1)
    as (md & w2 & Hmd & _).
  exists md, w2. split; [assumption|].
  unfold youtube_get_transcript, bind, lift. rewrite Hvid, Hfetch.
  unfold ret. now rewrite Hmd.
Qed.

Lemma fetch_transcript_total (vid : string) (langs : list string) :
  exists acquired w1, fetch_transcript E vid langs w = (Ok acquired, w1).
Proof.
  unfold fetch_transcript, attempt, bind, try_, ret.
  destruct (_get_transcript_via_api E vid langs w) as [[info|e1] w1];
    cbn [fst]; [eauto|].
  destruct (_get_transcript_via_ytdlp E vid langs w1) as [[info|e2] w2]; eauto.
Qed.

(** X21.  When no identifier can be extracted from the [url], the
    [ValueError] of the extractor is raised before any backend is entered
    and nothing is touched.  A request without timestamps raises in one
    other case only: the exception comes from the document builder,
    applied to a transcript that was acquired and to the metadata that
    was fetched for it; a failure of a caption backend or of a metadata
    backend never raises.  A request without timestamps and without
    metadata always answers with a text. *)
Theorem request_raises_only_from_url_or_builder :
  (forall e,
     _extract_video_id (repr_str E) (url params) = Raise e ->
     youtube_get_transcript E params w = (Raise e, w))
  /\ (forall vid e w',
        _extract_video_id (repr_str E) (url params) = Ok vid ->
        include_timestamps params = false ->
        youtube_get_transcript E params w = (Raise e, w') ->
        include_metadata params = true
        /\ exists info errors w1 md,
             fetch_transcript E vid (languages_or_default params) w
             = (Ok (Some info, errors), w1)
             /\ fetch_metadata E vid true w1 = (Ok md, w')
             /\ _build_markdown_output E md
                  (_format_transcript_text (entries info) false)
                  info vid = Raise e)
  /\ (forall vid,
        _extract_video_id (repr_str E) (url params) = Ok vid ->
        include_timestamps params = false ->
        include_metadata params = false ->
        exists out w', youtube_get_transcript E params w = (Ok out, w')).
Proof.
  assert (Hcases : forall vid,
            _extract_video_id (repr_str E) (url params) = Ok vid ->
            (exists errors w1,
               youtube_get_transcript E params w
               = (Ok (error_text vid errors), w1))
            \/ (exists info errors md w1 w2,
                  fetch_transcript E vid (languages_or_default params) w
                  = (Ok (Some info, errors), w1)
                  /\ fetch_metadata E vid (include_metadata params) w1
                     = (Ok md, w2)
                  /\ youtube_get_transcript E params w
                     = (_build_markdown_output E md
                          (_format_transcript_text (entries info)
                             (include_timestamps params))
                          info vid, w2))).
  { intros vid Hvid.
    destruct (fetch_transcript_total vid (languages_or_default params))
      as ([[info|] errors] & w1 & Hfetch).
    - right. destruct (tool_has_transcript vid info errors w1 Hvid Hfetch)
        as (md & w2 & Hmd & Htool).
      now exists info, errors, md, w1, w2.
    - left. exists errors, w1.
      unfold youtube_get_transcript, bind, lift. now rewrite Hvid, Hfetch. }
  assert (Hplain : forall vid text info,
            exists out,
              _build_markdown_output E (unknown_metadata vid) text info vid
              = Ok out).
  { intros vid text info. now apply build_typed. }
  split; [|split].
  - intros e He. unfold youtube_get_transcript, bind, lift. now rewrite He.
  - intros vid e w' Hvid Hts Htool.
    destruct (Hcases vid Hvid)
      as [(errors & w1 & H)|(info & errors & md & w1 & w2 & Hf & Hmd & H)];
      rewrite H in Htool; [discriminate|].
    injection Htool as Hbuild <-. rewrite Hts in Hbuild.
    destruct (include_metadata params).
    + split; [reflexivity|]. now exists info, errors, w1, md.
    + cbn [fetch_metadata] in Hmd. injection Hmd as <- _.
      destruct (Hplain vid
                  (_format_transcript_text (entries info) false) info)
        as (out & Hout).
      congruence.
  - intros vid Hvid Hts Hno.
    destruct (Hcases vid Hvid)
      as [(errors & w1 & H)|(info & errors & md & w1 & w2 & Hf & Hmd & H)].
    + eauto.
    + rewrite Hno in Hmd. cbn [fetch_metadata] in Hmd. injection Hmd as <- _.
      destruct (Hplain vid
                  (_format_transcript_text (entries info)
                     (include_timestamps params)) info) as (out & Hout).
      rewrite Hout in H. eauto.
Qed.
End Answers.

Lemma request_raises_only_from_url_or_builder_witness :
  youtube_get_transcript offline (mkInput "not a link" None false true)
    initial_world
  = (Raise (invalid_identifier (repr_str offline) "not a link"), initial_world).
Proof.
  apply (proj1 (request_raises_only_from_url_or_builder offline
                  (mkInput "not a link" None false true) initial_world)).
  reflexivity.
Defined.

(* ================================================================== *)
(** * The header block of the document *)
(* ================================================================== *)

Lemma split_lines_join_app (ls : list string) (rest : string) :
  ls <> [] -> Forall no_newline ls ->
  split_lines (join NL ls ++ String nl rest) = (ls ++ split_lines rest)%list.
Proof.
  induction ls as [|p ls IH]; [congruence|].
  intros _ Hall. inversion Hall as [|? ? Hp Hls]; subst.
  destruct ls as [|q ls].
  - cbn [join app]. now apply split_lines_line.
  - change (join NL (p :: q :: ls)) with (p ++ String nl (join NL (q :: ls))).
    rewrite str_app_assoc.
    change (String nl (join NL (q :: ls)) ++ String nl rest)
      with (String nl (join NL (q :: ls) ++ String nl rest)).
    rewrite (split_lines_line p _ Hp), IH; [reflexivity | discriminate | assumption].
Qed.

Lemma frontmatter_fields_count (E : Env) (md : Metadata) (info : TranscriptInfo)
  (vid : string) (fields : list string) :
  frontmatter_fields E md info vid = Ok fields ->
  firstn 6 fields = base_fields E md info vid
  /\ (6 <= List.length fields <= 8)%nat.
Proof.
  unfold frontmatter_fields.
  destruct (upload_date_fields E md) as [u|e] eqn:Hu; [|discriminate].
  destruct (duration_fields E md) as [d|e] eqn:Hd; [|discriminate].
  cbn [exc_bind]. intros [= <-]. split; [reflexivity|].
  assert (Hlu : (List.length u <= 1)%nat).
  { unfold upload_date_fields in Hu.
    destruct (truthy _); [|injection Hu as <-; simpl; lia].
    destruct (py_len _) as [n|]; [|discriminate]. cbn [exc_bind] in Hu.
    destruct (Nat.eqb n 8); [|injection Hu as <-; simpl; lia].
    destruct (py_slice _ 0 _); [|discriminate]. cbn [exc_bind] in Hu.
    destruct (py_slice _ 4 _); [|discriminate]. cbn [exc_bind] in Hu.
    destruct (py_slice _ 6 _); [|discriminate]. cbn [exc_bind] in Hu.
    injection Hu as <-. simpl. lia. }
  assert (Hld : (List.length d <= 1)%nat).
  { unfold duration_fields in Hd.
    destruct (truthy _); [|injection Hd as <-; simpl; lia].
    destruct (py_int _ _); [|discriminate]. cbn [exc_bind] in Hd.
    injection Hd as <-. simpl. lia. }
  cbn [List.length]. rewrite length_app. lia.
Qed.

(** X22.  The header is the first block of the document.  When no field
    holds a line break, the lines of the assembled document start with
    the fence [---], then the fields one per line, then the closing
    fence; the fields are the six fixed ones followed by at most two
    optional ones. *)
Theorem header_is_first_block (E : Env) (metadata : Metadata)
  (transcript_text : string) (transcript_info : TranscriptInfo)
  (video_id : string) (fields : list string)
  (Hfields : frontmatter_fields E metadata transcript_info video_id = Ok fields)
  (Hnl : Forall no_newline fields) :
  exists output,
    assemble_output E metadata transcript_text transcript_info video_id
    = Ok output
    /\ firstn (List.length fields + 2) (split_lines output)
       = ("---" :: fields ++ ["---"])%list
    /\ firstn 6 fields = base_fields E metadata transcript_info video_id
    /\ (6 <= List.length fields <= 8)%nat.
Proof.
  destruct (frontmatter_fields_count E _ _ _ _ Hfields) as [Hbase Hlen].
  eexists. split; [unfold assemble_output; rewrite Hfields; reflexivity|].
  split; [|split; assumption].
  rewrite !str_app_assoc.
  change ("---" ++ NL ++ join NL fields ++ NL ++ "---" ++ NL
          ++ description_section E metadata ++ NL ++ "## Transcript" ++ NL ++ NL
          ++ transcript_text ++ NL)
    with ("---" ++ String nl (join NL fields ++ String nl ("---"
          ++ String nl (description_section E metadata ++ NL ++ "## Transcript"
          ++ NL ++ NL ++ transcript_text ++ NL)))).
  rewrite (split_lines_line "---") by reflexivity.
  rewrite split_lines_join_app;
    [|intros ->; simpl in Hlen; lia | assumption].
  rewrite (split_lines_line "---") by reflexivity.
  replace (List.length fields + 2)%nat with (S (List.length fields + 1)) by lia.
  cbn [firstn]. f_equal.
  rewrite firstn_app, firstn_all2 by lia.
  replace (List.length fields + 1 - List.length fields)%nat with 1%nat by lia.
  reflexivity.
Qed.

Lemma header_is_first_block_witness :
  exists output,
    assemble_output offline (unknown_metadata rick) "hello"
      (mkInfo [] "en" "manual") rick = Ok output
    /\ firstn 8 (split_lines output)
       = ["---"; "title: " ++ quoted "Unknown"; "author: " ++ quoted "Unknown";
          "url: https://www.youtube.com/watch?v=dQw4w9WgXcQ";
          "video_id: dQw4w9WgXcQ"; "transcript_language: en";
          "transcript_source: manual"; "---"].
Proof.
  destruct (header_is_first_block offline (unknown_metadata rick) "hello"
              (mkInfo [] "en" "manual") rick _ eq_refl) as (output & H & Hl & _).
  - repeat constructor.
  - exists output. split; [exact H | exact Hl].
Defined.

(* ================================================================== *)
(** * The subtitle files of a video *)
(* ================================================================== *)

Lemma ends_with_app (a suffix : string) : ends_with suffix (a ++ suffix) = true.
Proof.
  induction a as [|c a IH].
  - destruct suffix; cbn [append ends_with]; now rewrite String.eqb_refl.
  - cbn [append ends_with]. now rewrite IH, orb_true_r.
Qed.

Lemma str_contains_char_app (c : ascii) (a b : string) :
  str_contains_char c (a ++ b) = str_contains_char c a || str_contains_char c b.
Proof.
  induction a as [|x a IH]; simpl; [reflexivity|].
  now rewrite IH, orb_assoc.
Qed.

Lemma strip_prefix_other (a b rest : string) :
  String.length a = String.length b -> a <> b ->
  strip_prefix a (b ++ rest) = None.
Proof.
  revert b. induction a as [|x a IH]; intros [|y b]; simpl; try discriminate.
  - congruence.
  - intros [= Hlen] Hne. destruct (x =? y)%char eqn:Hxy; [|reflexivity].
    apply Ascii.eqb_eq in Hxy. subst y. apply IH; [assumption|]. congruence.
Qed.

Lemma strip_prefix_app_app (p a s : string) :
  strip_prefix (p ++ a) (p ++ s) = strip_prefix a s.
Proof.
  induction p as [|x p IH]; simpl; [reflexivity|].
  now rewrite Ascii.eqb_refl.
Qed.

(** X23.  The pattern [/tmp/yt_<id>*.json3] selects the subtitle files of the
    video and of no other: it matches [/tmp/yt_<id>.<lang>.json3] for
    every language tag without a slash, and it matches no such file of
    another identifier. *)
Theorem glob_selects_own_subtitle_files (video_id other lang : string)
  (Hid : is_video_id video_id) (Hother : is_video_id other)
  (Hlang : str_contains_char "/" lang = false) :
  glob_match (tmp_prefix video_id) ".json3"
    (tmp_prefix video_id ++ "." ++ lang ++ ".json3") = true
  /\ (other <> video_id ->
      glob_match (tmp_prefix video_id) ".json3"
        (tmp_prefix other ++ "." ++ lang ++ ".json3") = false).
Proof.
  split.
  - unfold glob_match. rewrite strip_prefix_app.
    rewrite !str_contains_char_app, Hlang.
    change (negb (str_contains_char "/" "." || (false
                  || str_contains_char "/" ".json3"))) with true.
    cbn [andb]. rewrite <- (str_app_assoc "." lang ".json3").
    apply ends_with_app.
  - intros Hne. unfold glob_match, tmp_prefix.
    rewrite str_app_assoc, strip_prefix_app_app.
    rewrite strip_prefix_other; [reflexivity | | congruence].
    destruct Hid as [-> _]. now destruct Hother as [-> _].
Qed.

Lemma glob_selects_own_subtitle_files_witness :
  glob_match (tmp_prefix rick) ".json3" rick_subs_path = true.
Proof.
  apply (proj1 (glob_selects_own_subtitle_files rick "jNQXAC9IVRw" "en"
                  ltac:(split; reflexivity) ltac:(split; reflexivity) eq_refl)).
Defined.

(* ================================================================== *)
(** * Reading a well-formed subtitle file *)
(* ================================================================== *)

Lemma collect_segs_well_formed (texts acc : list string) :
  collect_segs (map seg_json texts) acc
  = Ok (acc ++ filter (fun t => negb (t =? "")%string) (map strip texts))%list.
Proof.
  revert acc. induction texts as [|s texts IH]; intros acc.
  - cbn [map filter collect_segs]. now rewrite app_nil_r.
  - cbn [map filter collect_segs].
    change (py_get (seg_json s) "utf8" (JStr "")) with (Ok (JStr s)).
    cbn [exc_bind]. destruct (negb (strip s =? "")%string).
    + rewrite IH, <- app_assoc. reflexivity.
    + apply IH.
Qed.

Section WellFormed.
Variable E : Env.

Lemma collect_events_well_formed (evs : list Json3Event) (acc : list Entry) :
  forallb times_fit evs = true ->
  collect_events E (map event_json evs) acc
  = Ok (acc ++ map (event_entry E) (filter has_text evs))%list.
Proof.
  revert acc. induction evs as [|ev evs IH]; intros acc Hfit.
  - cbn [map filter collect_events]. now rewrite app_nil_r.
  - cbn [forallb] in Hfit. apply andb_true_iff in Hfit as [Hev Hfit].
    specialize (fun acc => IH acc Hfit).
    unfold times_fit in Hev. apply andb_true_iff in Hev as [Hs Hd].
    apply negb_true_iff in Hs, Hd.
    cbn [map filter collect_events].
    change (py_get (event_json ev) "segs" (JArr []))
      with (Ok (JArr (map seg_json (ev_segs ev)))).
    cbn [exc_bind py_iter]. rewrite collect_segs_well_formed. cbn [app exc_bind].
    fold (event_parts ev).
    assert (Hh : has_text ev
                 = match event_parts ev with [] => false | _ => true end)
      by reflexivity.
    rewrite Hh. clear Hh.
    destruct (event_parts ev) as [|p parts] eqn:Hparts; [apply IH|].
    change (py_get (event_json ev) "tStartMs" (JInt 0))
      with (Ok (JInt (ev_start_ms ev))).
    change (py_get (event_json ev) "dDurationMs" (JInt 0))
      with (Ok (JInt (ev_duration_ms ev))).
    cbn [exc_bind ms_to_seconds]. rewrite Hs. cbn [exc_bind]. rewrite Hd.
    cbn [exc_bind]. rewrite IH, <- app_assoc.
    cbn [map app].
    replace (event_entry E ev)
      with (mkEntry (join " " (p :: parts))
              (round2 E (to_double (inject_Z (ev_start_ms ev) / 1000)))
              (round2 E (to_double (inject_Z (ev_duration_ms ev) / 1000))))
      by (unfold event_entry; now rewrite Hparts).
    reflexivity.
Qed.

(** X24.  On a well-formed subtitle file whose millisecond values are
    within the range of a float once divided by 1000, the parser of the
    command-line backend returns one entry for each event that has text,
    in the order of the events: its text is the trimmed, non-empty
    segment texts joined by one space, its start and its duration are the
    millisecond values divided by 1000 in float arithmetic and rounded.
    Events whose segments are all blank give no entry. *)
Theorem well_formed_subtitles_are_read (evs : list Json3Event)
  (Hfit : forallb times_fit evs = true) :
  parse_json3 E (json3_of evs)
  = Ok (map (event_entry E) (filter has_text evs))
  /\ (forall ev, has_text ev = false <->
                 forallb (fun s => (strip s =? "")%string) (ev_segs ev) = true)
  /\ (forall ev, text (event_entry E ev) = join " " (event_parts ev)).
Proof.
  split; [|split].
  - unfold parse_json3, json3_of.
    change (py_get (JObj [("events", JArr (map event_json evs))]) "events"
              (JArr []))
      with (Ok (JArr (map event_json evs))).
    cbn [exc_bind py_iter]. now rewrite collect_events_well_formed.
  - intros ev. unfold has_text, event_parts.
    induction (ev_segs ev) as [|s l IH]; cbn [map filter forallb].
    + split; reflexivity.
    + destruct (strip s =? "")%string; cbn [negb andb]; [exact IH|].
      split; discriminate.
  - reflexivity.
Qed.
End WellFormed.

Lemma well_formed_subtitles_are_read_witness :
  parse_json3 offline
    (json3_of [mkEvent 0 1000 [" never "; "gonna"]; mkEvent 1000 500 ["  "];
               mkEvent 1500 2000 ["give you up"]])
  = Ok [mkEntry "never gonna" 0 1; mkEntry "give you up" (3 # 2) 2].
Proof.
  apply (proj1 (well_formed_subtitles_are_read offline
                  [mkEvent 0 1000 [" never "; "gonna"]; mkEvent 1000 500 ["  "];
                   mkEvent 1500 2000 ["give you up"]] eq_refl)).
Defined.

(* ================================================================== *)
(** * The subtitle file [_get_transcript_via_ytdlp] reads *)
(* ================================================================== *)

Lemma read_file_only_match (q : string -> bool) (files : list File)
  (path contents : string) :
  filter (fun f => q (fst f)) files = [(path, contents)] ->
  read_file files path = Some contents.
Proof.
  induction files as [|[p c] files IH]; cbn [filter read_file fst];
    [discriminate|].
  destruct (q p) eqn:Hq.
  - intros [= -> -> Hrest]. now rewrite String.eqb_refl.
  - intros H. destruct (p =? path)%string eqn:Hp; [|now apply IH].
    apply String.eqb_eq in Hp. subst p.
    assert (Hin : In (path, contents) (filter (fun f => q (fst f)) files))
      by (rewrite H; now left).
    apply filter_In in Hin as [_ Hin]. cbn [fst] in Hin. congruence.
Qed.

(** X25.  When the run for manual subtitles ends with status 0 and exactly
    one subtitle file of the video is then present, the command-line
    backend returns the entries parsed from that file, tagged [detected]
    and [manual], and removes the file.  Nothing in this depends on the
    run having written the file: a file left there before the call is
    read in the same way. *)
Theorem cli_backend_reads_the_subtitle_file (E : Env) (video_id : string)
  (languages : list string) (w : World) (p : CompletedProcess)
  (files : list File) (path contents : string) (sub_data : json)
  (es : list Entry)
  (Hwhich : which E "yt-dlp" = true)
  (Hrun : subprocess_run E
            (subs_argv "--write-sub" (join "," languages) video_id) 30 (fs w)
          = (Completed p, files))
  (Hstatus : returncode p = 0%Z)
  (Hone : filter (fun f => glob_match (tmp_prefix video_id) ".json3" (fst f))
            files = [(path, contents)])
  (Hload : json_loads E contents = Ok sub_data)
  (Hparse : parse_json3 E sub_data = Ok es) :
  _get_transcript_via_ytdlp E video_id languages w
  = (Ok (mkInfo es "detected" "manual"),
     mkWorld (filter (fun f => negb (fst f =? path)%string) files)
             (invoked w ++ [YtdlpCaptions])).
Proof.
  pose proof (read_file_only_match _ _ _ _ Hone) as Hread.
  unfold _get_transcript_via_ytdlp, bind at 1, enter. rewrite Hwhich. cbn [negb].
  rewrite sub_flag_loop_cons. unfold bind at 1. unfold run at 1. cbn [fs invoked].
  rewrite Hrun, Hstatus. cbn [Z.eqb negb].
  unfold bind at 1. unfold glob_subs at 1. cbn [fs]. rewrite Hone. cbn [map fst].
  unfold bind at 1. unfold open_json_load at 1. cbn [fs]. rewrite Hread, Hload.
  unfold bind at 1. cbn [remove_each]. unfold bind at 1.
  unfold os_remove at 1. cbn [fs invoked]. rewrite Hread.
  unfold ret at 1. unfold bind, lift, ret. rewrite Hparse. reflexivity.
Qed.

Lemma cli_backend_reads_the_subtitle_file_witness :
  _get_transcript_via_ytdlp
    (set_subprocess_run (fun _ _ files => (Completed (mkProc 0 ""), files))
       cli_english_subs)
    rick ["en"] (mkWorld [(rick_subs_path, hello_json3_text)] [])
  = (Ok (mkInfo [mkEntry "hello" 0 1] "detected" "manual"),
     mkWorld [] [YtdlpCaptions]).
Proof.
  apply (cli_backend_reads_the_subtitle_file
           (set_subprocess_run (fun _ _ files => (Completed (mkProc 0 ""), files))
              cli_english_subs)
           rick ["en"] (mkWorld [(rick_subs_path, hello_json3_text)] [])
           (mkProc 0 "") [(rick_subs_path, hello_json3_text)]
           rick_subs_path hello_json3_text hello_json3);
    reflexivity.
Defined.
